(** * pudl.workspace.datastore: a shallow embedding and its properties

    The module under study is [src/pudl/workspace/datastore.py].  It has three
    classes: [DatapackageDescriptor] (a wrapper around a parsed
    [datapackage.json]), [ZenodoFetcher] (the HTTP client for the archive) and
    [Datastore] (the facade that serves resources from a layered cache and
    falls back on the fetcher).

    Python objects are embedded as follows.
    - JSON-shaped Python values ([dict], [list], [str], [int], [bool], [None])
      are the inductive type [pyval]; a [dict] keeps its insertion order as an
      association list.  Floats are not modelled.  A [str] is a [string] whose
      characters are code points below 256.
    - An exception is a value of [exn]; code that can raise returns a
      [result]; code that also mutates objects is a function from the state
      to a [result] and a new state (the monad [M]).
    - A generator is a state machine with a [next] function.
    - The libraries the module calls ([requests], [json.loads],
      [datapackage.Package], the cache of [pudl.workspace.resource_cache]) are
      interfaces: the classes [External] and [ResourceCache]. *)

From stdpp Require Import gmap strings list pretty sorting.
From Stdlib Require Import Ascii ZArith Permutation Sorted.
From Stdlib.Strings Require Import Byte.

Set Warnings "-register-all".
Local Open Scope Z_scope.

(** ** Python values *)

Inductive pyval : Type :=
| PyNone : pyval
| PyBool (b : bool) : pyval
| PyInt (z : Z) : pyval
| PyStr (s : string) : pyval
| PyList (l : list pyval) : pyval
| PyDict (d : list (string * pyval)) : pyval.

(** Exceptions.  [KeyError], [ValueError] and [RuntimeError] are the ones the
    module raises itself; [TypeError], [AttributeError] and [NameError] are
    raised by the interpreter on an ill-typed subscript, call or attribute,
    and on a name that is not bound;
    [LibraryError cls msg] stands for an exception of class [cls] coming out
    of a library call.  The string is the argument the exception is built
    with: the message of a [raise KeyError(f"...")], and the key itself for
    the [KeyError] of a failed lookup [d[k]].  The texts of [TypeError],
    [AttributeError] and [NameError] are made by the interpreter and differ
    between its versions; no statement below depends on them. *)
Inductive exn : Type :=
| KeyError (msg : string)
| ValueError (msg : string)
| RuntimeError (msg : string)
| TypeError (msg : string)
| AttributeError (msg : string)
| NameError (msg : string)
| LibraryError (cls msg : string).

Inductive result (A : Type) : Type :=
| Ok (a : A)
| Raise (e : exn).
Arguments Ok {A} a.
Arguments Raise {A} e.

Definition bytes : Type := list Byte.byte.

(** *** Characters and digits *)

Definition dquote : ascii := "034"%char.
Definition squote : ascii := "039"%char.
Definition backslash : ascii := "092"%char.
Definition newline : ascii := "010"%char.

(** A backslash followed by the given text. *)
Definition esc (s : string) : string := String backslash s.

Definition ord (c : ascii) : N := N_of_ascii c.

Definition hex_digit (n : N) : ascii :=
  if (n <? 10)%N then ascii_of_N (48 + n) else ascii_of_N (87 + n).

(** Two lower-case hexadecimal digits, as in ["\x1f"] and ["\u001f"]. *)
Definition hex2 (c : ascii) : string :=
  String (hex_digit (ord c / 16)) (String (hex_digit (ord c mod 16)) EmptyString).

Definition is_digit (c : ascii) : bool :=
  ((48 <=? ord c) && (ord c <=? 57))%N.

Fixpoint str_contains (c : ascii) (s : string) : bool :=
  match s with
  | EmptyString => false
  | String a s' => Ascii.eqb a c || str_contains c s'
  end.

Fixpoint str_join (sep : string) (l : list string) : string :=
  match l with
  | [] => EmptyString
  | [x] => x
  | x :: r => x +:+ sep +:+ str_join sep r
  end.

Fixpoint str_concat (l : list string) : string :=
  match l with
  | [] => EmptyString
  | x :: r => x +:+ str_concat r
  end.

Fixpoint str_repeat (n : nat) (s : string) : string :=
  match n with
  | O => EmptyString
  | S n' => s +:+ str_repeat n' s
  end.

(** *** [repr] and [str] *)

(** [str.isprintable] on a code point below 256. *)
Definition is_printable (c : ascii) : bool :=
  let n := ord c in
  (((32 <=? n) && (n <? 127)) || ((161 <=? n) && negb (n =? 173)))%N.

Definition repr_char (quote : ascii) (c : ascii) : string :=
  if Ascii.eqb c quote || Ascii.eqb c backslash then esc (String c EmptyString)
  else if Ascii.eqb c "009"%char then esc "t"
  else if Ascii.eqb c "010"%char then esc "n"
  else if Ascii.eqb c "013"%char then esc "r"
  else if is_printable c then String c EmptyString
  else esc "x" +:+ hex2 c.

Fixpoint repr_chars (quote : ascii) (s : string) : string :=
  match s with
  | EmptyString => EmptyString
  | String c s' => repr_char quote c +:+ repr_chars quote s'
  end.

(** [repr] of a [str]: single quotes unless the text has a single quote and
    no double quote. *)
Definition repr_str (s : string) : string :=
  let quote : ascii :=
    if str_contains squote s && negb (str_contains dquote s)
    then dquote else squote in
  String quote (repr_chars quote s) +:+ String quote EmptyString.

Fixpoint py_repr (v : pyval) : string :=
  match v with
  | PyNone => "None"
  | PyBool true => "True"
  | PyBool false => "False"
  | PyInt z => pretty z
  | PyStr s => repr_str s
  | PyList l => "[" +:+ str_join ", " (map py_repr l) +:+ "]"
  | PyDict d =>
      "{" +:+ str_join ", " (map (fun kv => repr_str (fst kv) +:+ ": " +:+ py_repr (snd kv)) d)
          +:+ "}"
  end.

Definition py_str (v : pyval) : string :=
  match v with
  | PyStr s => s
  | _ => py_repr v
  end.

(** *** Truth value, equality, subscripts *)

Definition py_truthy (v : pyval) : bool :=
  match v with
  | PyNone => false
  | PyBool b => b
  | PyInt z => negb (z =? 0)
  | PyStr s => negb (String.eqb s EmptyString)
  | PyList l => match l with [] => false | _ => true end
  | PyDict d => match d with [] => false | _ => true end
  end.

(** [d.get(k)] on the items of a dict; [None] of the option is "absent". *)
Fixpoint dict_get (d : list (string * pyval)) (k : string) : option pyval :=
  match d with
  | [] => None
  | (k', v) :: r => if String.eqb k' k then Some v else dict_get r k
  end.

Definition dict_has (d : list (string * pyval)) (k : string) : bool :=
  match dict_get d k with Some _ => true | None => false end.

(** [x == y].  [bool] is a subclass of [int], so [True == 1]; two dicts are
    equal when they hold the same keys with equal values, in any order. *)
Fixpoint py_eqb (x y : pyval) : bool :=
  match x, y with
  | PyNone, PyNone => true
  | PyBool a, PyBool b => Bool.eqb a b
  | PyBool a, PyInt b => Z.b2z a =? b
  | PyInt a, PyBool b => a =? Z.b2z b
  | PyInt a, PyInt b => a =? b
  | PyStr a, PyStr b => String.eqb a b
  | PyList a, PyList b =>
      (fix go (a b : list pyval) : bool :=
         match a, b with
         | [], [] => true
         | u :: a', v :: b' => py_eqb u v && go a' b'
         | _, _ => false
         end) a b
  | PyDict a, PyDict b =>
      (List.length a =? List.length b)%nat &&
      (fix go (a : list (string * pyval)) : bool :=
         match a with
         | [] => true
         | (k, u) :: a' =>
             match dict_get b k with
             | Some v => py_eqb u v && go a'
             | None => false
             end
         end) a
  | _, _ => false
  end.

(** [v[k]] for a string [k]. *)
Definition py_getitem (v : pyval) (k : string) : result pyval :=
  match v with
  | PyDict d =>
      match dict_get d k with
      | Some x => Ok x
      | None => Raise (KeyError k)
      end
  | PyList _ => Raise (TypeError "list indices must be integers or slices, not str")
  | PyStr _ => Raise (TypeError "string indices must be integers")
  | _ => Raise (TypeError "object is not subscriptable")
  end.

(** [v.get(k, default)]. *)
Definition py_get (v : pyval) (k : string) (default : pyval) : result pyval :=
  match v with
  | PyDict d =>
      match dict_get d k with
      | Some x => Ok x
      | None => Ok default
      end
  | _ => Raise (AttributeError "object has no attribute 'get'")
  end.

Fixpoint str_chars (s : string) : list pyval :=
  match s with
  | EmptyString => []
  | String c s' => PyStr (String c EmptyString) :: str_chars s'
  end.

(** The elements [for x in v] goes through. *)
Definition py_iter (v : pyval) : result (list pyval) :=
  match v with
  | PyList l => Ok l
  | PyDict d => Ok (map (fun kv => PyStr (fst kv)) d)
  | PyStr s => Ok (str_chars s)
  | _ => Raise (TypeError "object is not iterable")
  end.

(** ** [json.dumps(obj, sort_keys=True, indent=4)] *)

(** [sorted(d.items())] on string keys: an insertion sort that compares the
    keys alone (the keys of a dict are distinct, so the values are never
    compared) and keeps equal keys in their order. *)
Fixpoint insert_item {A : Type} (x : string * A) (l : list (string * A)) : list (string * A) :=
  match l with
  | [] => [x]
  | y :: r => if String.ltb (fst y) (fst x) then y :: insert_item x r else x :: y :: r
  end.

Fixpoint sort_items {A : Type} (l : list (string * A)) : list (string * A) :=
  match l with
  | [] => []
  | x :: r => insert_item x (sort_items r)
  end.

(** [json.encoder.py_encode_basestring_ascii] on one code point below 256. *)
Definition json_escape_char (c : ascii) : string :=
  if Ascii.eqb c dquote then esc (String dquote EmptyString)
  else if Ascii.eqb c backslash then esc (String backslash EmptyString)
  else if Ascii.eqb c "010"%char then esc "n"
  else if Ascii.eqb c "013"%char then esc "r"
  else if Ascii.eqb c "009"%char then esc "t"
  else if Ascii.eqb c "012"%char then esc "f"
  else if Ascii.eqb c "008"%char then esc "b"
  else if ((32 <=? ord c) && (ord c <=? 126))%N then String c EmptyString
  else esc "u00" +:+ hex2 c.

Fixpoint json_escape (s : string) : string :=
  match s with
  | EmptyString => EmptyString
  | String c s' => json_escape_char c +:+ json_escape s'
  end.

Definition json_encode_str (s : string) : string :=
  String dquote (json_escape s) +:+ String dquote EmptyString.

Definition newline_indent (indent level : nat) : string :=
  String newline (str_repeat (indent * level) " ").

Definition json_item (kv : string * string) : string :=
  json_encode_str (fst kv) +:+ ": " +:+ snd kv.

(** The text of [v] at nesting depth [level].  The members of a dict are
    rendered and then put in key order; as the order looks at the keys only,
    this is the text [json.dumps] produces by sorting first. *)
Fixpoint json_dumps_at (indent level : nat) (v : pyval) : string :=
  match v with
  | PyNone => "null"
  | PyBool true => "true"
  | PyBool false => "false"
  | PyInt z => pretty z
  | PyStr s => json_encode_str s
  | PyList [] => "[]"
  | PyList l =>
      "[" +:+ newline_indent indent (S level)
          +:+ str_join ("," +:+ newline_indent indent (S level))
                       (map (json_dumps_at indent (S level)) l)
          +:+ newline_indent indent level +:+ "]"
  | PyDict [] => "{}"
  | PyDict d =>
      "{" +:+ newline_indent indent (S level)
          +:+ str_join ("," +:+ newline_indent indent (S level))
                       (map json_item
                            (sort_items
                               (map (fun kv =>
                                       (fst kv, json_dumps_at indent (S level) (snd kv)))
                                    d)))
          +:+ newline_indent indent level +:+ "}"
  end.

Definition json_dumps_sorted (indent : nat) (v : pyval) : string :=
  json_dumps_at indent 0 v.

(** The keys of every dict inside [v] are distinct, as they are in any Python
    dict. *)
Fixpoint keys_distinct (ks : list string) : bool :=
  match ks with
  | [] => true
  | k :: r => negb (existsb (String.eqb k) r) && keys_distinct r
  end.

Fixpoint py_wf (v : pyval) : bool :=
  match v with
  | PyList l => forallb py_wf l
  | PyDict d => keys_distinct (map fst d) && forallb (fun kv => py_wf (snd kv)) d
  | _ => true
  end.

(** Two values hold the same JSON content: equal scalars, equal lists
    member by member, dicts with the same keys bound to the same content, in
    whatever order the keys were inserted. *)
Fixpoint json_same (x y : pyval) : bool :=
  match x, y with
  | PyNone, PyNone => true
  | PyBool a, PyBool b => Bool.eqb a b
  | PyInt a, PyInt b => a =? b
  | PyStr a, PyStr b => String.eqb a b
  | PyList a, PyList b =>
      (fix go (a b : list pyval) : bool :=
         match a, b with
         | [], [] => true
         | u :: a', v :: b' => json_same u v && go a' b'
         | _, _ => false
         end) a b
  | PyDict a, PyDict b =>
      (List.length a =? List.length b)%nat &&
      (fix go (a : list (string * pyval)) : bool :=
         match a with
         | [] => true
         | (k, u) :: a' =>
             match dict_get b k with
             | Some v => json_same u v && go a'
             | None => false
             end
         end) a
  | _, _ => false
  end.

(** ** Raising code *)

Definition result_bind {A B : Type} (r : result A) (f : A -> result B) : result B :=
  match r with
  | Ok a => f a
  | Raise e => Raise e
  end.

Notation "'let*' x := r 'in' k" := (result_bind r (fun x => k))
  (at level 10, x name, r at level 100, k at level 200, only parsing).

(** State-passing code that can raise: the state changes made before the
    exception stay. *)
Definition M (S A : Type) : Type := S -> result A * S.

Definition ret {S A : Type} (a : A) : M S A := fun s => (Ok a, s).

Definition throw {S A : Type} (e : exn) : M S A := fun s => (Raise e, s).

Definition lift {S A : Type} (r : result A) : M S A := fun s => (r, s).

(** Reading an attribute of the state, and assigning to the state. *)
Definition gets {S A : Type} (f : S -> A) : M S A := fun s => (Ok (f s), s).

Definition modify {S : Type} (g : S -> S) : M S unit := fun s => (Ok tt, g s).

Definition bindM {S A B : Type} (m : M S A) (f : A -> M S B) : M S B :=
  fun s =>
    match m s with
    | (Ok a, s') => f a s'
    | (Raise e, s') => (Raise e, s')
    end.

Notation "'do' x <- m ; k" := (bindM m (fun x => k))
  (at level 10, x name, m at level 100, k at level 200, only parsing).

(** What one call of [next] on a generator gives. *)
Inductive outcome (Y : Type) : Type :=
| Yielded (y : Y)
| StopIteration
| Raised (e : exn).
Arguments Yielded {Y} y.
Arguments StopIteration {Y}.
Arguments Raised {Y} e.

(** ** [PudlResourceKey] and [DatapackageDescriptor] *)

(** [PudlResourceKey(dataset, doi, name)], the named tuple imported from
    [pudl.workspace.resource_cache], with the three fields the module reads
    and writes.  The name comes out of the parsed manifest, so it is a
    Python value. *)
Record PudlResourceKey : Type := {
  rk_dataset : string;
  rk_doi : string;
  rk_name : pyval
}.

Record DatapackageDescriptor : Type := {
  datapackage_json : pyval;
  dataset : string;
  doi : string
}.

(** A request of the session: [http.get(url, params={"access_token": ...},
    timeout=...)].  The time-out is in seconds. *)
Record Request : Type := {
  url : pyval;
  access_token : string;
  req_timeout : Z
}.

(** A [requests.Response], by what the module reads of it: [status_code],
    [text], [content], and what [json()] returns or raises. *)
Record Response : Type := {
  status_code : Z;
  text : string;
  content : bytes;
  json : result pyval
}.

(** The libraries behind the module.
    - [json_loads b] is [json.loads(b.decode('utf-8'))];
    - [package_errors d] is what [datapackage.Package(d)] gives: when the
      constructor returns, the text of each of its [errors] ([valid] is "no
      errors"); or the exception the constructor raises itself, as it does
      on a document it refuses outright (a resource whose local path is not
      safe is a [DataPackageException]);
    - [http_get sent req] is what [requests.Session.get] answers to [req]
      after the requests [sent], retries of the mounted adapter included:
      a response, or an exception of [requests].  With the adapter that
      [ZenodoFetcher.__init__] mounts, a response whose status is in the
      [status_forcelist] of the policy is retried and never handed back:
      when the retries run out the session raises [RetryError]. *)
Class External : Type := {
  json_loads : bytes -> result pyval;
  package_errors : pyval -> result (list string);
  http_get : list Request -> Request -> result Response
}.

Section Descriptor.
Context `{External}.

(** [DatapackageDescriptor._validate_datapackage]. *)
Definition _validate_datapackage (datapackage_json : pyval) : result unit :=
  let* errors := package_errors datapackage_json in
  match errors with
  | [] => Ok tt
  | _ =>
      let msg := "Found " +:+ pretty (List.length errors)
                 +:+ " datapackage validation errors:" +:+ String newline EmptyString in
      Raise (ValueError
               (fold_left (fun msg e => msg +:+ "  * " +:+ e +:+ String newline EmptyString)
                          errors msg))
  end.

(** [DatapackageDescriptor.__init__]. *)
Definition DatapackageDescriptor_init (datapackage_json : pyval) (dataset doi : string)
  : result DatapackageDescriptor :=
  let self := {| datapackage_json := datapackage_json; dataset := dataset; doi := doi |} in
  let* _u := _validate_datapackage datapackage_json in
  Ok self.

End Descriptor.

(** [DatapackageDescriptor.get_resource_path]: the loop over the entries. *)
Fixpoint get_resource_path_loop (self : DatapackageDescriptor) (name : pyval)
  (entries : list pyval) : result pyval :=
  match entries with
  | [] =>
      Raise (KeyError ("Resource " +:+ py_str name +:+ " not found for "
                       +:+ dataset self +:+ "/" +:+ doi self))
  | res :: rest =>
      let* n := py_getitem res "name" in
      if py_eqb n name then
        let* remote := py_get res "remote_url" PyNone in
        if py_truthy remote then Ok remote else py_get res "path" PyNone
      else get_resource_path_loop self name rest
  end.

(** [DatapackageDescriptor.get_resource_path]. *)
Definition get_resource_path (self : DatapackageDescriptor) (name : pyval) : result pyval :=
  let* resources := py_getitem (datapackage_json self) "resources" in
  let* entries := py_iter resources in
  get_resource_path_loop self name entries.

(** The generator expression under [all] in [_matches]: it stops at the
    first pair that differs. *)
Fixpoint all_parts_match (parts : pyval) (filters : list (string * pyval)) : result bool :=
  match filters with
  | [] => Ok true
  | (k, v) :: rest =>
      let* p := py_get parts k PyNone in
      if String.eqb (py_str p) (py_str v) then all_parts_match parts rest else Ok false
  end.

(** [DatapackageDescriptor._matches(res, **filters)]. *)
Definition _matches (res : pyval) (filters : list (string * pyval)) : result bool :=
  let* parts := py_get res "parts" (PyDict []) in
  all_parts_match parts filters.

(** The call [self._matches(res, **filters)]: a keyword named like a
    positional parameter of [_matches] is a [TypeError].  Its text is the
    interpreter's (from Python 3.10 on it begins with the qualified name
    [DatapackageDescriptor._matches()]); only the class is relied on. *)
Definition call_matches (res : pyval) (filters : list (string * pyval)) : result bool :=
  if dict_has filters "self"
  then Raise (TypeError "_matches() got multiple values for argument 'self'")
  else if dict_has filters "res"
  then Raise (TypeError "_matches() got multiple values for argument 'res'")
  else _matches res filters.

(** The generator [DatapackageDescriptor.get_resources(name, **filters)].
    [DStart]: created, body not entered; [DLoop rest]: suspended at the
    [yield] with the entries [rest] still to visit; [DDone]: finished. *)
Inductive dgen : Type :=
| DStart
| DLoop (rest : list pyval)
| DDone.

(** The [for] loop from the entries [entries] on, up to the next [yield]. *)
Fixpoint get_resources_loop (self : DatapackageDescriptor) (name : pyval)
  (filters : list (string * pyval)) (entries : list pyval)
  : outcome PudlResourceKey * dgen :=
  match entries with
  | [] => (StopIteration, DDone)
  | res :: rest =>
      let skip :=
        if py_truthy name
        then let* n := py_getitem res "name" in Ok (negb (py_eqb n name))
        else Ok false in
      match skip with
      | Raise e => (Raised e, DDone)
      | Ok true => get_resources_loop self name filters rest
      | Ok false =>
          match call_matches res filters with
          | Raise e => (Raised e, DDone)
          | Ok false => get_resources_loop self name filters rest
          | Ok true =>
              match py_getitem res "name" with
              | Raise e => (Raised e, DDone)
              | Ok n =>
                  (Yielded {| rk_dataset := dataset self; rk_doi := doi self; rk_name := n |},
                   DLoop rest)
              end
          end
      end
  end.

(** [next] on the generator. *)
Definition get_resources_next (self : DatapackageDescriptor) (name : pyval)
  (filters : list (string * pyval)) (g : dgen) : outcome PudlResourceKey * dgen :=
  match g with
  | DStart =>
      match (let* resources := py_getitem (datapackage_json self) "resources" in
             py_iter resources) with
      | Raise e => (Raised e, DDone)
      | Ok entries => get_resources_loop self name filters entries
      end
  | DLoop rest => get_resources_loop self name filters rest
  | DDone => (StopIteration, DDone)
  end.

(** [list(gen)]: the keys yielded until the generator stops, and the
    exception when it ends by one.  [fuel] bounds the calls of [next]. *)
Fixpoint get_resources_list (self : DatapackageDescriptor) (name : pyval)
  (filters : list (string * pyval)) (fuel : nat) (g : dgen)
  : option (list PudlResourceKey * option exn) :=
  match fuel with
  | O => None
  | S fuel' =>
      match get_resources_next self name filters g with
      | (StopIteration, _) => Some ([], None)
      | (Raised e, _) => Some ([], Some e)
      | (Yielded k, g') =>
          match get_resources_list self name filters fuel' g' with
          | Some (ks, e) => Some (k :: ks, e)
          | None => None
          end
      end
  end.

(** [DatapackageDescriptor.get_json_string]. *)
Definition get_json_string (self : DatapackageDescriptor) : string :=
  json_dumps_sorted 4 (datapackage_json self).

(** ** [ZenodoFetcher] *)

(** The class constants [TOKEN], [DOI] and [API_ROOT], by backend. *)
Definition TOKEN (backend : string) : string :=
  if String.eqb backend "sandbox"
  then "qyPC29wGPaflUUVAv1oGw99ytwBqwEEdwi4NuUrpwc3xUcEwbmuB4emwysco"
  else "KXcG5s9TqeuPh1Ukt5QYbzhCElp9LxuqAuiwdqHP0WS4qGIQiydHn6FBtdJ5".

Definition DOI (backend : string) : gmap string string :=
  if String.eqb backend "sandbox" then
    list_to_map
      [("censusdp1tract", "10.5072/zenodo.674992");
       ("eia860", "10.5072/zenodo.672210");
       ("eia860m", "10.5072/zenodo.692655");
       ("eia861", "10.5072/zenodo.687052");
       ("eia923", "10.5072/zenodo.687071");
       ("epacems", "10.5072/zenodo.672963");
       ("ferc1", "10.5072/zenodo.687072");
       ("ferc714", "10.5072/zenodo.672224")]
  else
    list_to_map
      [("censusdp1tract", "10.5281/zenodo.4127049");
       ("eia860", "10.5281/zenodo.4127027");
       ("eia860m", "10.5281/zenodo.4281337");
       ("eia861", "10.5281/zenodo.4127029");
       ("eia923", "10.5281/zenodo.4127040");
       ("epacems", "10.5281/zenodo.4127055");
       ("ferc1", "10.5281/zenodo.4127044");
       ("ferc714", "10.5281/zenodo.4127101")].

Definition API_ROOT (backend : string) : string :=
  if String.eqb backend "sandbox"
  then "https://sandbox.zenodo.org/api"
  else "https://zenodo.org/api".

(** [Retry(backoff_factor=2, total=3, status_forcelist=[...])], the policy
    handed to the adapter of the session. *)
Record Retry : Type := {
  backoff_factor : Z;
  total : Z;
  status_forcelist : list Z
}.

(** The fetcher.  [http] is the session, seen as the requests it has sent. *)
Record ZenodoFetcher : Type := {
  _api_root : string;
  _token : string;
  _dataset_to_doi : gmap string string;
  _descriptor_cache : gmap string DatapackageDescriptor;
  timeout : Z;
  max_retries : Retry;
  http : list Request
}.

(** [ZenodoFetcher.__init__]. *)
Definition ZenodoFetcher_init (sandbox : bool) (timeout : Z) : ZenodoFetcher :=
  let backend := if sandbox then "sandbox" else "production" in
  {| _api_root := API_ROOT backend;
     _token := TOKEN backend;
     _dataset_to_doi := DOI backend;
     _descriptor_cache := ∅;
     timeout := timeout;
     max_retries := {| backoff_factor := 2; total := 3;
                       status_forcelist := [429; 500; 502; 503; 504] |};
     http := [] |}.

Definition set_http (zf : ZenodoFetcher) (h : list Request) : ZenodoFetcher :=
  {| _api_root := _api_root zf; _token := _token zf;
     _dataset_to_doi := _dataset_to_doi zf;
     _descriptor_cache := _descriptor_cache zf;
     timeout := timeout zf; max_retries := max_retries zf; http := h |}.

Definition set_descriptor_cache (zf : ZenodoFetcher)
  (c : gmap string DatapackageDescriptor) : ZenodoFetcher :=
  {| _api_root := _api_root zf; _token := _token zf;
     _dataset_to_doi := _dataset_to_doi zf;
     _descriptor_cache := c;
     timeout := timeout zf; max_retries := max_retries zf; http := http zf |}.

(** The regular expression [zenodo.([\d]+)]. *)
Fixpoint strip_prefix (p s : string) : option string :=
  match p, s with
  | EmptyString, _ => Some s
  | String a p', String b s' => if Ascii.eqb a b then strip_prefix p' s' else None
  | String _ _, EmptyString => None
  end.

Fixpoint leading_digits (s : string) : string :=
  match s with
  | String c s' => if is_digit c then String c (leading_digits s') else EmptyString
  | EmptyString => EmptyString
  end.

(** A match that starts at the head of [s]: the text of group 1. *)
Definition re_match_zenodo (s : string) : option string :=
  match strip_prefix "zenodo" s with
  | Some (String c s') =>
      if Ascii.eqb c newline then None
      else match leading_digits s' with
           | EmptyString => None
           | ds => Some ds
           end
  | _ => None
  end.

(** [re.search]: the leftmost match. *)
Fixpoint re_search_zenodo (s : string) : option string :=
  match re_match_zenodo s with
  | Some ds => Some ds
  | None =>
      match s with
      | EmptyString => None
      | String _ s' => re_search_zenodo s'
      end
  end.

(** [int(ds)] for a run of decimal digits. *)
Fixpoint int_of_digits (acc : N) (ds : string) : N :=
  match ds with
  | EmptyString => acc
  | String c ds' => int_of_digits (10 * acc + (ord c - 48))%N ds'
  end.

Section Fetcher.
Context `{External}.

(** [ZenodoFetcher._fetch_from_url]. *)
Definition _fetch_from_url (url : pyval) : M ZenodoFetcher Response :=
  do self <- gets id;
  let req := {| url := url; access_token := _token self; req_timeout := timeout self |} in
  do _u <- modify (fun self => set_http self (http self ++ [req]));
  do response <- lift (http_get (http self) req);
  if status_code response =? 200 then ret response
  else throw (ValueError ("Could not download " +:+ py_str url +:+ ": " +:+ text response)).

(** [ZenodoFetcher._doi_to_url]. *)
Definition _doi_to_url (self : ZenodoFetcher) (doi : string) : result string :=
  match re_search_zenodo doi with
  | None => Raise (ValueError ("Invalid doi " +:+ doi))
  | Some ds =>
      let zen_id := int_of_digits 0 ds in
      Ok (_api_root self +:+ "/deposit/depositions/" +:+ pretty zen_id)
  end.

(** The [for f in ...["files"]] loop of [get_descriptor], with its [else]. *)
Fixpoint get_descriptor_loop (dataset doi : string) (files : list pyval)
  : M ZenodoFetcher unit :=
  match files with
  | [] =>
      throw (RuntimeError ("Zenodo datapackage for " +:+ dataset +:+ "/" +:+ doi
                           +:+ " does not contain valid datapackage.json"))
  | f :: rest =>
      do filename <- lift (py_getitem f "filename");
      if py_eqb filename (PyStr "datapackage.json") then
        do links <- lift (py_getitem f "links");
        do download <- lift (py_getitem links "download");
        do resp <- _fetch_from_url download;
        do j <- lift (json resp);
        do desc <- lift (DatapackageDescriptor_init j dataset doi);
        modify (fun self =>
                  set_descriptor_cache self (<[doi := desc]> (_descriptor_cache self)))
      else get_descriptor_loop dataset doi rest
  end.

(** The body of [if doi not in self._descriptor_cache]. *)
Definition get_descriptor_fetch (dataset doi : string) : M ZenodoFetcher unit :=
  do self <- gets id;
  do u <- lift (_doi_to_url self doi);
  do dpkg <- _fetch_from_url (PyStr u);
  do j <- lift (json dpkg);
  do files <- lift (py_getitem j "files");
  do items <- lift (py_iter files);
  get_descriptor_loop dataset doi items.

(** [d[doi]] on a dict of descriptors. *)
Definition descriptor_at (d : gmap string DatapackageDescriptor) (doi : string)
  : result DatapackageDescriptor :=
  match d !! doi with
  | Some desc => Ok desc
  | None => Raise (KeyError doi)
  end.

(** [ZenodoFetcher.get_descriptor]. *)
Definition get_descriptor (dataset : string) : M ZenodoFetcher DatapackageDescriptor :=
  do table <- gets _dataset_to_doi;
  match table !! dataset with
  | None => throw (KeyError ("No doi found for dataset " +:+ dataset))
  | Some doi =>
      if String.eqb doi EmptyString
      then throw (KeyError ("No doi found for dataset " +:+ dataset))
      else
        do known <- gets _descriptor_cache;
        do _u <- match known !! doi with
                 | Some _ => ret tt
                 | None => get_descriptor_fetch dataset doi
                 end;
        do known <- gets _descriptor_cache;
        lift (descriptor_at known doi)
  end.

(** [ZenodoFetcher.get_doi]. *)
Definition get_doi (self : ZenodoFetcher) (dataset : string) : result string :=
  match _dataset_to_doi self !! dataset with
  | Some doi => Ok doi
  | None => Raise (KeyError dataset)
  end.

(** [ZenodoFetcher.get_resource]. *)
Definition get_resource (res : PudlResourceKey) : M ZenodoFetcher bytes :=
  do desc <- get_descriptor (rk_dataset res);
  do location <- lift (get_resource_path desc (rk_name res));
  do response <- _fetch_from_url location;
  ret (content response).

End Fetcher.

(** ** The resource cache *)

(** What [Datastore] asks of [self.cache]: the three methods it calls.  The
    class [LayeredCache] lives in [pudl.workspace.resource_cache]. *)
Class ResourceCache (C : Type) : Type := {
  cache_contains : PudlResourceKey -> C -> bool;
  cache_get : PudlResourceKey -> M C bytes;
  cache_set : PudlResourceKey -> bytes -> M C unit
}.

(** Modelled from the spec: two keys with equal fields are the same
    resource (section 3); the equality of [PudlResourceKey], field by field
    as for any tuple. *)
Definition rk_eqb (a b : PudlResourceKey) : bool :=
  String.eqb (rk_dataset a) (rk_dataset b)
  && String.eqb (rk_doi a) (rk_doi b)
  && py_eqb (rk_name a) (rk_name b).

(** Modelled from the spec: a cache layer of
    [pudl.workspace.resource_cache] (that module is not among the sources):
    an opaque store of byte blobs keyed by [PudlResourceKey], writable or
    not. *)
Record CacheLayer : Type := {
  writable : bool;
  blobs : list (PudlResourceKey * bytes)
}.

(** Modelled from the spec: reading the blob stored under a key of a layer
    of [pudl.workspace.resource_cache]. *)
Fixpoint blobs_get (k : PudlResourceKey) (l : list (PudlResourceKey * bytes)) : option bytes :=
  match l with
  | [] => None
  | (k', b) :: r => if rk_eqb k' k then Some b else blobs_get k r
  end.

(** Modelled from the spec: writing a blob under a key of a layer of
    [pudl.workspace.resource_cache]; the last write wins. *)
Fixpoint blobs_put (k : PudlResourceKey) (b : bytes) (l : list (PudlResourceKey * bytes))
  : list (PudlResourceKey * bytes) :=
  match l with
  | [] => [(k, b)]
  | (k', b') :: r => if rk_eqb k' k then (k', b) :: r else (k', b') :: blobs_put k b r
  end.

(** Modelled from the spec: [get] and [set] of one layer of
    [pudl.workspace.resource_cache]. *)
Definition layer_get (k : PudlResourceKey) (l : CacheLayer) : option bytes :=
  blobs_get k (blobs l).

(** Modelled from the spec: [set] of one layer of
    [pudl.workspace.resource_cache]. *)
Definition layer_put (k : PudlResourceKey) (b : bytes) (l : CacheLayer) : CacheLayer :=
  {| writable := writable l; blobs := blobs_put k b (blobs l) |}.

(** Modelled from the spec: [LayeredCache] of
    [pudl.workspace.resource_cache], an ordered list of layers
    (section 4.2). *)
Definition LayeredCache : Type := list CacheLayer.

(** Modelled from the spec: [LayeredCache.contains] is true iff at least one
    layer holds the key. *)
Definition LayeredCache_contains (k : PudlResourceKey) (c : LayeredCache) : bool :=
  existsb (fun l => match layer_get k l with Some _ => true | None => false end) c.

(** Modelled from the spec: [LayeredCache.get] scans the layers in order;
    on the first hit it writes the bytes into every earlier layer, none of
    which holds the key, and returns them. *)
Fixpoint LayeredCache_scan (k : PudlResourceKey) (c : LayeredCache)
  : option (bytes * LayeredCache) :=
  match c with
  | [] => None
  | l :: r =>
      match layer_get k l with
      | Some b => Some (b, l :: r)
      | None =>
          match LayeredCache_scan k r with
          | Some (b, r') => Some (b, layer_put k b l :: r')
          | None => None
          end
      end
  end.

(** Modelled from the spec: [get] fails with NotFound, a [KeyError], when no
    layer holds the key. *)
Definition LayeredCache_get (k : PudlResourceKey) : M LayeredCache bytes :=
  fun c =>
    match LayeredCache_scan k c with
    | Some (b, c') => (Ok b, c')
    | None => (Raise (KeyError (py_str (rk_name k))), c)
    end.

(** Modelled from the spec: [LayeredCache.set] writes to every layer marked
    writable. *)
Definition LayeredCache_set (k : PudlResourceKey) (b : bytes) : M LayeredCache unit :=
  fun c => (Ok tt, map (fun l => if writable l then layer_put k b l else l) c).

(** Modelled from the spec: [LayeredCache] as the cache of a datastore. *)
#[export] Instance LayeredCache_cache : ResourceCache LayeredCache := {
  cache_contains := LayeredCache_contains;
  cache_get := LayeredCache_get;
  cache_set := LayeredCache_set
}.

(** ** [Datastore] *)

Record Datastore (C : Type) : Type := {
  cache : C;
  _datapackage_descriptors : gmap string DatapackageDescriptor;
  _zenodo_fetcher : ZenodoFetcher
}.
Arguments cache {C} _.
Arguments _datapackage_descriptors {C} _.
Arguments _zenodo_fetcher {C} _.

(** [bytes(s, "utf-8")] for code points below 256. *)
Definition utf8_char (c : ascii) : bytes :=
  if (ord c <? 128)%N then [byte_of_ascii c]
  else [byte_of_ascii (ascii_of_N (192 + ord c / 64));
        byte_of_ascii (ascii_of_N (128 + ord c mod 64))].

Fixpoint utf8_encode (s : string) : bytes :=
  match s with
  | EmptyString => []
  | String c s' => utf8_char c ++ utf8_encode s'
  end.

Section Datastore.
Context `{External} {C : Type} `{ResourceCache C}.

(** A method of [self.cache], run on the datastore. *)
Definition on_cache {A : Type} (m : M C A) : M (Datastore C) A :=
  fun self =>
    let (r, c) := m (cache self) in
    (r, {| cache := c;
           _datapackage_descriptors := _datapackage_descriptors self;
           _zenodo_fetcher := _zenodo_fetcher self |}).

(** A method of [self._zenodo_fetcher], run on the datastore. *)
Definition on_fetcher {A : Type} (m : M ZenodoFetcher A) : M (Datastore C) A :=
  fun self =>
    let (r, zf) := m (_zenodo_fetcher self) in
    (r, {| cache := cache self;
           _datapackage_descriptors := _datapackage_descriptors self;
           _zenodo_fetcher := zf |}).

(** [self._datapackage_descriptors[doi] = desc]. *)
Definition store_descriptor (doi : string) (desc : DatapackageDescriptor)
  : M (Datastore C) unit :=
  modify (fun self =>
            {| cache := cache self;
               _datapackage_descriptors := <[doi := desc]> (_datapackage_descriptors self);
               _zenodo_fetcher := _zenodo_fetcher self |}).

(** The body of [if doi not in self._datapackage_descriptors]. *)
Definition get_datapackage_descriptor_load (dataset doi : string) : M (Datastore C) unit :=
  let res := {| rk_dataset := dataset; rk_doi := doi;
                rk_name := PyStr "datapackage.json" |} in
  do c <- gets cache;
  if cache_contains res c then
    do blob <- on_cache (cache_get res);
    do j <- lift (json_loads blob);
    do desc <- lift (DatapackageDescriptor_init j dataset doi);
    store_descriptor doi desc
  else
    do desc <- on_fetcher (get_descriptor dataset);
    do _u <- store_descriptor doi desc;
    on_cache (cache_set res (utf8_encode (get_json_string desc))).

(** [Datastore.get_datapackage_descriptor]. *)
Definition get_datapackage_descriptor (dataset : string)
  : M (Datastore C) DatapackageDescriptor :=
  do zf <- gets _zenodo_fetcher;
  do doi <- lift (get_doi zf dataset);
  do known <- gets _datapackage_descriptors;
  do _u <- match known !! doi with
           | Some _ => ret tt
           | None => get_datapackage_descriptor_load dataset doi
           end;
  do known <- gets _datapackage_descriptors;
  lift (descriptor_at known doi).

(** The body of the [for] loop of [Datastore.get_resources] for the key
    [res]: the bytes it yields with the key. *)
Definition get_resources_body (res : PudlResourceKey) : M (Datastore C) bytes :=
  do c <- gets cache;
  if cache_contains res c then
    on_cache (cache_get res)
  else
    do contents <- on_fetcher (get_resource res);
    do _u <- on_cache (cache_set res contents);
    ret contents.

(** The call of [desc.get_resources] with the keywords [filters] unpacked:
    a keyword [name] goes to the parameter [name], the other keywords are
    the partition filters. *)
Definition bind_name (kwargs : list (string * pyval)) : pyval :=
  match dict_get kwargs "name" with
  | Some v => v
  | None => PyNone
  end.

Definition bind_filters (kwargs : list (string * pyval)) : list (string * pyval) :=
  List.filter (fun kv => negb (String.eqb (fst kv) "name")) kwargs.

(** The generator [Datastore.get_resources(dataset, **filters)].
    [GStart]: created; [GLoop desc g]: suspended at a [yield], with the
    descriptor and its generator [g]; [GDone]: finished. *)
Inductive rgen : Type :=
| GStart
| GLoop (desc : DatapackageDescriptor) (g : dgen)
| GDone.

Definition Datastore_get_resources_resume (filters : list (string * pyval))
  (desc : DatapackageDescriptor) (g : dgen) (self : Datastore C)
  : outcome (PudlResourceKey * bytes) * rgen * Datastore C :=
  match get_resources_next desc (bind_name filters) (bind_filters filters) g with
  | (StopIteration, _) => (StopIteration, GDone, self)
  | (Raised e, _) => (Raised e, GDone, self)
  | (Yielded res, g') =>
      match get_resources_body res self with
      | (Raise e, self') => (Raised e, GDone, self')
      | (Ok contents, self') => (Yielded (res, contents), GLoop desc g', self')
      end
  end.

(** [next] on the generator. *)
Definition Datastore_get_resources_next (dataset : string) (filters : list (string * pyval))
  (g : rgen) (self : Datastore C)
  : outcome (PudlResourceKey * bytes) * rgen * Datastore C :=
  match g with
  | GStart =>
      match get_datapackage_descriptor dataset self with
      | (Raise e, self') => (Raised e, GDone, self')
      | (Ok desc, self') => Datastore_get_resources_resume filters desc DStart self'
      end
  | GLoop desc dg => Datastore_get_resources_resume filters desc dg self
  | GDone => (StopIteration, GDone, self)
  end.

(** [n] calls of [next], stopping at the first that does not yield: the
    pairs yielded, how the last call ended when it did not yield ([Some
    None] for [StopIteration]), and the datastore left. *)
Fixpoint Datastore_get_resources_take (dataset : string) (filters : list (string * pyval))
  (n : nat) (g : rgen) (self : Datastore C)
  : list (PudlResourceKey * bytes) * option (option exn) * Datastore C :=
  match n with
  | O => ([], None, self)
  | S n' =>
      match Datastore_get_resources_next dataset filters g self with
      | (StopIteration, _, self') => ([], Some None, self')
      | (Raised e, _, self') => ([], Some (Some e), self')
      | (Yielded y, g', self') =>
          let '(ys, fin, self'') :=
            Datastore_get_resources_take dataset filters n' g' self' in
          (y :: ys, fin, self'')
      end
  end.

(** [Datastore.get_unique_resource]. *)
Definition get_unique_resource (dataset : string) (filters : list (string * pyval))
  : M (Datastore C) bytes :=
  fun self =>
    let res := GStart in
    match Datastore_get_resources_next dataset filters res self with
    | (StopIteration, _, self1) =>
        (Raise (KeyError ("No resources found for " +:+ dataset +:+ ": "
                          +:+ py_repr (PyDict filters))), self1)
    | (Raised e, _, self1) => (Raise e, self1)
    | (Yielded (_, content), res1, self1) =>
        match Datastore_get_resources_next dataset filters res1 self1 with
        | (StopIteration, _, self2) => (Ok content, self2)
        | (Raised e, _, self2) => (Raise e, self2)
        | (Yielded _, _, self2) =>
            (Raise (KeyError ("Multiple resources found for " +:+ dataset +:+ ": "
                              +:+ py_repr (PyDict filters))), self2)
        end
    end.

End Datastore.

(** ** Further methods and the command line *)

(** [ZenodoFetcher.get_resource_key]. *)
Definition get_resource_key (self : ZenodoFetcher) (dataset : string) (name : pyval)
  : result PudlResourceKey :=
  match _dataset_to_doi self !! dataset with
  | Some doi => Ok {| rk_dataset := dataset; rk_doi := doi; rk_name := name |}
  | None => Raise (KeyError dataset)
  end.

(** [sorted(d)] on a dict with string keys: the keys, in order. *)
Definition sorted_keys {A : Type} (d : gmap string A) : list string :=
  map fst (sort_items (map (fun kv => (kv.1, tt)) (map_to_list d))).

(** [ZenodoFetcher.get_known_datasets]. *)
Definition get_known_datasets (self : ZenodoFetcher) : list string :=
  sorted_keys (_dataset_to_doi self).

(** [Datastore.get_known_datasets]. *)
Definition Datastore_get_known_datasets {C : Type} (self : Datastore C) : list string :=
  get_known_datasets (_zenodo_fetcher self).

(** The names bound at the top level of the module when a function of it
    runs: by its imports, its assignments, its classes and its functions,
    and the names every module has.  [DOI], [TOKEN] and [API_ROOT] are
    bound in the body of the class [ZenodoFetcher] and are attributes of it,
    not names of the module. *)
Definition module_globals : list string :=
  ["__name__"; "__doc__"; "__package__"; "__loader__"; "__spec__"; "__file__";
   "__cached__"; "__builtins__";
   "argparse"; "copy"; "hashlib"; "json"; "logging"; "re"; "sys"; "zipfile"; "io";
   "Path"; "Dict"; "Iterator"; "Optional"; "Any"; "List"; "Tuple"; "NamedTuple";
   "coloredlogs"; "datapackage"; "requests"; "yaml"; "HTTPAdapter"; "Retry";
   "resource_cache"; "PudlResourceKey"; "logger";
   "DatapackageDescriptor"; "ZenodoFetcher"; "Datastore"; "PUDL_YML";
   "parse_command_line"; "main"].

Section CommandLine.

(** The names of the builtins of the interpreter; what [argparse] makes of
    the command line, of some type [A]; and the rest of [main], which calls
    libraries that are not part of this development. *)
Variable builtins : list string.
Variable A : Type.
Variable parse_args : result A.
Variable main_body : A -> result unit.

(** The value of a name that is not local to the function: the module is
    asked, then the builtins.  Only the success of the lookup is kept. *)
Definition load_global (name : string) : result unit :=
  if existsb (String.eqb name) module_globals || existsb (String.eqb name) builtins
  then Ok tt
  else Raise (NameError ("name '" +:+ name +:+ "' is not defined")).

(** [parse_command_line]: the two lists of datasets for the help text are
    read off [DOI] before the parser is built. *)
Definition parse_command_line : result A :=
  let* _prod_dois := load_global "DOI" in
  let* _sand_dois := load_global "DOI" in
  let* _parser := load_global "argparse" in
  parse_args.

(** [main]: its first statement is [args = parse_command_line()]. *)
Definition main : result unit :=
  let* _f := load_global "parse_command_line" in
  let* args := parse_command_line in
  main_body args.

End CommandLine.

(** ** A concrete archive

    A manifest with two resources, the answers of the archive for the
    production release of [eia860], and a datastore with one empty writable
    cache layer.  They are the inputs the statements below are run on. *)

Definition ex_manifest : pyval :=
  PyDict [("name", PyStr "pudl-raw-eia860");
          ("resources", PyList [
             PyDict [("name", PyStr "eia860-2019.zip");
                     ("path", PyStr "https://zenodo.org/api/files/a/eia860-2019.zip");
                     ("parts", PyDict [("year", PyInt 2019)])];
             PyDict [("name", PyStr "eia860-2020.zip");
                     ("path", PyStr "https://zenodo.org/api/files/a/eia860-2020.zip");
                     ("remote_url", PyStr "https://zenodo.org/api/files/b/eia860-2020.zip");
                     ("parts", PyDict [("year", PyInt 2020)])]])].

(** The same content with the keys inserted in another order. *)
Definition ex_manifest_reordered : pyval :=
  PyDict [("resources", PyList [
             PyDict [("parts", PyDict [("year", PyInt 2019)]);
                     ("path", PyStr "https://zenodo.org/api/files/a/eia860-2019.zip");
                     ("name", PyStr "eia860-2019.zip")];
             PyDict [("remote_url", PyStr "https://zenodo.org/api/files/b/eia860-2020.zip");
                     ("name", PyStr "eia860-2020.zip");
                     ("parts", PyDict [("year", PyInt 2020)]);
                     ("path", PyStr "https://zenodo.org/api/files/a/eia860-2020.zip")]]);
          ("name", PyStr "pudl-raw-eia860")].

(** The text [json.dumps(ex_manifest, sort_keys=True, indent=4)], line by
    line. *)
Definition ex_quoted (s : string) : string :=
  String dquote (s +:+ String dquote EmptyString).

Definition ex_manifest_text : string :=
  str_join (String newline EmptyString)
    [ "{";
      "    " +:+ ex_quoted "name" +:+ ": " +:+ ex_quoted "pudl-raw-eia860" +:+ ",";
      "    " +:+ ex_quoted "resources" +:+ ": [";
      "        {";
      "            " +:+ ex_quoted "name" +:+ ": " +:+ ex_quoted "eia860-2019.zip" +:+ ",";
      "            " +:+ ex_quoted "parts" +:+ ": {";
      "                " +:+ ex_quoted "year" +:+ ": 2019";
      "            },";
      "            " +:+ ex_quoted "path" +:+ ": "
        +:+ ex_quoted "https://zenodo.org/api/files/a/eia860-2019.zip";
      "        },";
      "        {";
      "            " +:+ ex_quoted "name" +:+ ": " +:+ ex_quoted "eia860-2020.zip" +:+ ",";
      "            " +:+ ex_quoted "parts" +:+ ": {";
      "                " +:+ ex_quoted "year" +:+ ": 2020";
      "            },";
      "            " +:+ ex_quoted "path" +:+ ": "
        +:+ ex_quoted "https://zenodo.org/api/files/a/eia860-2020.zip" +:+ ",";
      "            " +:+ ex_quoted "remote_url" +:+ ": "
        +:+ ex_quoted "https://zenodo.org/api/files/b/eia860-2020.zip";
      "        }";
      "    ]";
      "}" ].

(** The entries of [ex_manifest]. *)
Definition ex_entries : list pyval :=
  match py_getitem ex_manifest "resources" with
  | Ok (PyList l) => l
  | _ => []
  end.

Definition ex_descriptor : DatapackageDescriptor :=
  {| datapackage_json := ex_manifest; dataset := "eia860"; doi := "10.5281/zenodo.4127027" |}.

(** An entry whose [remote_url] is present and empty, next to a [path]. *)
Definition ex_empty_remote : DatapackageDescriptor :=
  {| datapackage_json :=
       PyDict [("resources", PyList [
                  PyDict [("name", PyStr "r1");
                          ("remote_url", PyStr EmptyString);
                          ("path", PyStr "http://x/r1")]])];
     dataset := "eia860"; doi := "10.5281/zenodo.4127027" |}.

Definition ex_not_json : result pyval :=
  Raise (LibraryError "JSONDecodeError" "Expecting value").

Definition ex_response (status : Z) (body : string) (j : result pyval) : Response :=
  {| status_code := status; text := body; content := utf8_encode body; json := j |}.

Definition ex_listing : pyval :=
  PyDict [("files", PyList [
     PyDict [("filename", PyStr "eia860-2019.zip");
             ("links", PyDict [("download",
                                PyStr "https://zenodo.org/api/files/a/eia860-2019.zip")])];
     PyDict [("filename", PyStr "datapackage.json");
             ("links", PyDict [("download",
                                PyStr "https://zenodo.org/api/files/a/datapackage.json")])]])].

Definition ex_http (sent : list Request) (req : Request) : result Response :=
  if py_eqb (url req) (PyStr "https://zenodo.org/api/deposit/depositions/4127027") then
    Ok (ex_response 200 "listing" (Ok ex_listing))
  else if py_eqb (url req) (PyStr "https://zenodo.org/api/files/a/datapackage.json") then
    Ok (ex_response 200 "manifest" (Ok ex_manifest))
  else if py_eqb (url req) (PyStr "https://zenodo.org/api/files/a/eia860-2019.zip") then
    Ok (ex_response 200 "zip-2019" ex_not_json)
  else if py_eqb (url req) (PyStr "https://zenodo.org/api/files/b/eia860-2020.zip") then
    Ok (ex_response 200 "zip-2020" ex_not_json)
  else Ok (ex_response 404 "not found" ex_not_json).

(** A validator that wants a non-empty list of resources. *)
Definition ex_errors (d : pyval) : result (list string) :=
  match py_getitem d "resources" with
  | Ok (PyList (_ :: _)) => Ok []
  | Ok _ => Ok ["resources is not a non-empty array"]
  | Raise _ => Ok ["'resources' is a required property"; "descriptor has no resources"]
  end.

Definition ex_external : External := {|
  json_loads := fun b => ex_not_json;
  package_errors := ex_errors;
  http_get := ex_http
|}.

(** A session with the retry policy [policy] in front of a server that
    answers the attempt number [n] with [server n]: a response whose status
    is in the forcelist is tried again, and when no retry is left the
    session raises. *)
Fixpoint ex_retry_loop (policy : Retry) (server : nat -> Response) (attempt retries : nat)
  : result Response :=
  let r := server attempt in
  if existsb (Z.eqb (status_code r)) (status_forcelist policy) then
    match retries with
    | O => Raise (LibraryError "RetryError" "too many error responses")
    | S n => ex_retry_loop policy server (S attempt) n
    end
  else Ok r.

Definition ex_retrying (server : nat -> Response) : External := {|
  json_loads := fun b => ex_not_json;
  package_errors := ex_errors;
  http_get := fun sent req =>
    let policy := max_retries (ZenodoFetcher_init false 15) in
    ex_retry_loop policy server 0 (Z.to_nat (total policy))
|}.

(** An archive that answers every request with the given status and body. *)
Definition ex_failing (status : Z) (body : string) : External := {|
  json_loads := fun b => ex_not_json;
  package_errors := ex_errors;
  http_get := fun sent req => Ok (ex_response status body ex_not_json)
|}.

(** An archive whose release lists no [datapackage.json]. *)
Definition ex_no_manifest : External := {|
  json_loads := fun b => ex_not_json;
  package_errors := ex_errors;
  http_get := fun sent req =>
    Ok (ex_response 200 "listing"
          (Ok (PyDict [("files", PyList [
                 PyDict [("filename", PyStr "eia860-2019.zip")]])])))
|}.

Definition ex_store : Datastore LayeredCache :=
  {| cache := [ {| writable := true; blobs := [] |} ];
     _datapackage_descriptors := ∅;
     _zenodo_fetcher := ZenodoFetcher_init false 15 |}.

Definition ex_key_2019 : PudlResourceKey :=
  {| rk_dataset := "eia860"; rk_doi := "10.5281/zenodo.4127027";
     rk_name := PyStr "eia860-2019.zip" |}.

Definition ex_key_2020 : PudlResourceKey :=
  {| rk_dataset := "eia860"; rk_doi := "10.5281/zenodo.4127027";
     rk_name := PyStr "eia860-2020.zip" |}.

(** [ex_store] once the descriptor of [eia860] has been obtained. *)
Definition ex_store_loaded : Datastore LayeredCache :=
  (@get_datapackage_descriptor ex_external _ _ "eia860" ex_store).2.

Fixpoint bytes_eqb (a b : bytes) : bool :=
  match a, b with
  | [], [] => true
  | x :: a', y :: b' => Byte.eqb x y && bytes_eqb a' b'
  | _, _ => false
  end.

(** The libraries of [ex_external], with a parser that knows the canonical
    text of [ex_manifest]. *)
Definition ex_parsing : External := {|
  json_loads := fun b =>
    if bytes_eqb b (utf8_encode (get_json_string ex_descriptor))
    then Ok ex_manifest else ex_not_json;
  package_errors := ex_errors;
  http_get := ex_http
|}.

(** A datastore whose cache holds the manifest of [eia860], and one whose
    cache holds a blob that is not JSON under the same key. *)
Definition ex_store_cached : Datastore LayeredCache :=
  {| cache := [ {| writable := true;
                   blobs := [({| rk_dataset := "eia860"; rk_doi := "10.5281/zenodo.4127027";
                                 rk_name := PyStr "datapackage.json" |},
                              utf8_encode (get_json_string ex_descriptor))] |} ];
     _datapackage_descriptors := ∅;
     _zenodo_fetcher := ZenodoFetcher_init false 15 |}.

Definition ex_store_corrupt : Datastore LayeredCache :=
  {| cache := [ {| writable := true;
                   blobs := [({| rk_dataset := "eia860"; rk_doi := "10.5281/zenodo.4127027";
                                 rk_name := PyStr "datapackage.json" |},
                              utf8_encode "<html>")] |} ];
     _datapackage_descriptors := ∅;
     _zenodo_fetcher := ZenodoFetcher_init false 15 |}.

(** A cache of one layer whose [set] fails, as a full disk would make it. *)
Definition ex_full_disk : ResourceCache LayeredCache := {|
  cache_contains := LayeredCache_contains;
  cache_get := LayeredCache_get;
  cache_set := fun k b c => (Raise (LibraryError "OSError" "No space left on device"), c)
|}.





(** ** Vocabulary of the statements *)

(** [parts.get(k)] on the items of the dict [parts]. *)
Definition parts_get (parts : list (string * pyval)) (k : string) : pyval :=
  default PyNone (dict_get parts k).

(** The entry is a dict with a [name] that differs from [name]. *)
Definition named_otherwise (name : pyval) (e : pyval) : Prop :=
  exists n, py_getitem e "name" = Ok n /\ py_eqb n name = false.

(** [res.get("path")] on the items of the entry. *)
Definition entry_path (res : list (string * pyval)) : pyval :=
  default PyNone (dict_get res "path").

(** The sentence "[get_resource_path] returns the entry's [remote_url]
    whenever that field is present", for the first entry called [name]. *)
Definition remote_url_wins_whenever_present : Prop :=
  forall (self : DatapackageDescriptor) (name : pyval) (before after : list pyval)
         (res : list (string * pyval)) (n u : pyval),
    py_getitem (datapackage_json self) "resources" = Ok (PyList (before ++ PyDict res :: after)) ->
    Forall (named_otherwise name) before ->
    dict_get res "name" = Some n -> py_eqb n name = true ->
    dict_get res "remote_url" = Some u ->
    get_resource_path self name = Ok u.

(** The key [get_resources] yields for an entry. *)
Definition entry_key (self : DatapackageDescriptor) (e : pyval) : PudlResourceKey :=
  {| rk_dataset := dataset self; rk_doi := doi self;
     rk_name := match py_getitem e "name" with Ok n => n | Raise _ => PyNone end |}.

(** The entry is a dict with a [name]. *)
Definition has_name (e : pyval) : Prop :=
  exists d n, e = PyDict d /\ dict_get d "name" = Some n.


(** A postcondition for state-passing code that can raise: from a state in
    [P], a normal return of [a] leaves a state in [Q a] and an exception
    leaves a state in [E]. *)
Definition triple {S A : Type} (P : S -> Prop) (m : M S A)
  (Q : A -> S -> Prop) (E : S -> Prop) : Prop :=
  forall s, P s ->
    match m s with
    | (Ok a, s') => Q a s'
    | (Raise _, s') => E s'
    end.

Section Validated.
Context `{External}.

(** The manifest of the descriptor passes the schema validation. *)
Definition validated (d : DatapackageDescriptor) : Prop :=
  package_errors (datapackage_json d) = Ok [].




(** The text of the [ValueError] of [_validate_datapackage]. *)
Definition validation_message (errors : list string) : string :=
  "Found " +:+ pretty (List.length errors) +:+ " datapackage validation errors:"
  +:+ String newline EmptyString
  +:+ str_concat (map (fun e => "  * " +:+ e +:+ String newline EmptyString) errors).

End Validated.

(** The request [_fetch_from_url] sends for [u]. *)
Definition request_for (zf : ZenodoFetcher) (u : pyval) : Request :=
  {| url := u; access_token := _token zf; req_timeout := timeout zf |}.

(** The fetcher after the request for [u] has been sent. *)
Definition after_request (zf : ZenodoFetcher) (u : pyval) : ZenodoFetcher :=
  set_http zf (http zf ++ [request_for zf u]).

(** The session works under the retry policy [policy]: it hands back no
    response whose status is in the forcelist of the policy. *)
Definition session_obeys (ext : External) (policy : Retry) : Prop :=
  forall sent req response,
    @http_get ext sent req = Ok response ->
    ~ In (status_code response) (status_forcelist policy).

(** The sentence "the error of a fetch that ends in a non-2xx response
    carries the status code of the response": the status can be read off the
    exception, whatever the archive behind a session that works under the
    retry policy of the fetcher, the URL, the fetcher and the response. *)
Definition fetch_error_carries_status : Prop :=
  exists status_of : exn -> Z,
    forall (ext : External) (u : pyval) (zf : ZenodoFetcher) (response : Response),
      session_obeys ext (max_retries zf) ->
      @http_get ext (http zf) (request_for zf u) = Ok response ->
      (status_code response < 200 \/ 300 <= status_code response) ->
      exists e, (@_fetch_from_url ext u zf).1 = Raise e /\ status_of e = status_code response.

(** The file of a release listing is a dict whose [filename] is not
    [datapackage.json]. *)
Definition other_file (f : pyval) : Prop :=
  exists n, py_getitem f "filename" = Ok n /\ py_eqb n (PyStr "datapackage.json") = false.

(** The order [sort_items] puts the members in: by key, the keys compared
    as strings, code point by code point. *)
Definition key_le {A : Type} (x y : string * A) : Prop := String.le x.1 y.1.

(** The entry passes the name test and the partition filters of
    [get_resources]. *)
Definition entry_selected (name : pyval) (filters : list (string * pyval)) (e : pyval)
  : bool :=
  let named :=
    if py_truthy name
    then match py_getitem e "name" with Ok n => py_eqb n name | Raise _ => false end
    else true in
  named && match call_matches e filters with Ok true => true | _ => false end.

(** The texts of the two [KeyError]s of [get_unique_resource]. *)
Definition no_resources_found (dataset : string) (filters : list (string * pyval)) : exn :=
  KeyError ("No resources found for " +:+ dataset +:+ ": " +:+ py_repr (PyDict filters)).

Definition multiple_resources_found (dataset : string) (filters : list (string * pyval))
  : exn :=
  KeyError ("Multiple resources found for " +:+ dataset +:+ ": " +:+ py_repr (PyDict filters)).

Section Serving.
Context `{External} {C : Type} `{ResourceCache C}.

(** The datastore with another cache state, and with another fetcher state
    as well. *)
Definition with_cache (ds : Datastore C) (c : C) : Datastore C :=
  {| cache := c;
     _datapackage_descriptors := _datapackage_descriptors ds;
     _zenodo_fetcher := _zenodo_fetcher ds |}.

Definition with_cache_and_fetcher (ds : Datastore C) (c : C) (zf : ZenodoFetcher)
  : Datastore C :=
  {| cache := c;
     _datapackage_descriptors := _datapackage_descriptors ds;
     _zenodo_fetcher := zf |}.

(** The loop body of [Datastore.get_resources] run for the keys [ks], one
    after the other, up to the first that raises; [fin] is how the sequence
    goes on after the last key: [None], suspended; [Some None], exhausted;
    [Some (Some e)], ended by [e]. *)
Fixpoint serve_in_order (ks : list PudlResourceKey) (fin : option (option exn))
  (ds : Datastore C)
  : list (PudlResourceKey * bytes) * option (option exn) * Datastore C :=
  match ks with
  | [] => ([], fin, ds)
  | k :: rest =>
      match get_resources_body k ds with
      | (Raise e, ds') => ([], Some (Some e), ds')
      | (Ok b, ds') =>
          let '(ys, stop, ds'') := serve_in_order rest fin ds' in
          ((k, b) :: ys, stop, ds'')
      end
  end.

End Serving.

(** Every character of the text is a decimal digit; the text starts with
    one. *)
Fixpoint all_digits (s : string) : bool :=
  match s with
  | EmptyString => true
  | String c r => is_digit c && all_digits r
  end.

Definition starts_with_digit (s : string) : bool :=
  match s with
  | String c _ => is_digit c
  | EmptyString => false
  end.

(** The two fetchers have the same configuration: API root, token, table
    of DOIs, time-out and retry policy. *)
Definition same_config (a b : ZenodoFetcher) : Prop :=
  _api_root a = _api_root b /\ _token a = _token b
  /\ _dataset_to_doi a = _dataset_to_doi b
  /\ timeout a = timeout b /\ max_retries a = max_retries b.

(** From [zf] to [zf'] the configuration is kept and at most [n] requests
    are sent, after the ones of [zf], each with the token and the time-out of
    the fetcher. *)
Definition sends (n : nat) (zf zf' : ZenodoFetcher) : Prop :=
  same_config zf zf'
  /\ exists extra,
       http zf' = http zf ++ extra
       /\ (length extra <= n)%nat
       /\ Forall (fun r => access_token r = _token zf /\ req_timeout r = timeout zf) extra.

(** Every descriptor of the memo is stored under its own DOI, which is the
    DOI the table gives for its dataset. *)
Definition keyed_by_doi (table : gmap string string)
  (memo : gmap string DatapackageDescriptor) : Prop :=
  map_Forall (fun k d => doi d = k /\ table !! dataset d = Some k) memo.

(** The fetcher has the table [t] and a memo keyed by DOI; the datastore
    has such a fetcher and a memo keyed by DOI itself. *)
Definition fetcher_keyed (t : gmap string string) (zf : ZenodoFetcher) : Prop :=
  _dataset_to_doi zf = t /\ keyed_by_doi t (_descriptor_cache zf).

Definition datastore_keyed {C : Type} (t : gmap string string) (ds : Datastore C) : Prop :=
  fetcher_keyed t (_zenodo_fetcher ds) /\ keyed_by_doi t (_datapackage_descriptors ds).

(** The key names the DOI the table [t] gives for [dataset], and a dataset
    of that DOI. *)
Definition key_of_dataset (t : gmap string string) (dataset : string)
  (k : PudlResourceKey) : Prop :=
  t !! dataset = Some (rk_doi k) /\ t !! rk_dataset k = Some (rk_doi k).

(** The descriptor of a suspended generator of [Datastore.get_resources]
    carries the DOI the table [t] gives for the dataset. *)
Definition rgen_keyed (t : gmap string string) (dset : string) (g : rgen) : Prop :=
  match g with
  | GLoop desc _ => t !! dset = Some (doi desc) /\ t !! dataset desc = Some (doi desc)
  | _ => True
  end.

(** The key under which the manifest of a release is cached. *)
Definition manifest_key (dset k : string) : PudlResourceKey :=
  {| rk_dataset := dset; rk_doi := k; rk_name := PyStr "datapackage.json" |}.

(** The datastore with the cache [c], the fetcher [zf] and the descriptor
    [d] memoized under [k]. *)
Definition with_descriptor {C : Type} (ds : Datastore C) (c : C) (zf : ZenodoFetcher)
  (k : string) (d : DatapackageDescriptor) : Datastore C :=
  {| cache := c;
     _datapackage_descriptors := <[k := d]> (_datapackage_descriptors ds);
     _zenodo_fetcher := zf |}.

(** The entry is a dict whose [name] is a string. *)
Definition str_named (e : pyval) : Prop :=
  exists d s, e = PyDict d /\ dict_get d "name" = Some (PyStr s).

(** The entry is a dict whose [parts], when it has that field, is a dict. *)
Definition parts_is_mapping (e : pyval) : Prop :=
  exists d, e = PyDict d
            /\ match dict_get d "parts" with
               | Some p => exists items, p = PyDict items
               | None => True
               end.

(** [res.get("remote_url") or res.get("path")] on the items of the entry. *)
Definition entry_location (res : list (string * pyval)) : pyval :=
  match dict_get res "remote_url" with
  | Some u => if py_truthy u then u else entry_path res
  | None => entry_path res
  end.

(** The requests the fetcher has sent, with two more counted as long as the
    descriptor of the DOI [k] is not in its memo. *)
Definition request_cost (k : string) (zf : ZenodoFetcher) : nat :=
  (length (http zf)
   + match _descriptor_cache zf !! k with Some _ => 0 | None => 2 end)%nat.

(** The fetcher has the table [t] and a cost of at most [b] for [k]. *)
Definition within_budget (t : gmap string string) (k : string) (b : nat)
  (zf : ZenodoFetcher) : Prop :=
  _dataset_to_doi zf = t /\ (request_cost k zf <= b)%nat.

(** The requests the fetcher of the datastore has sent. *)
Definition requests_sent {C : Type} (ds : Datastore C) : nat :=
  length (http (_zenodo_fetcher ds)).



(** The canonical form in the words of the specification: JSON with the
    keys of every object in increasing order and an indentation of four
    spaces for each level of nesting.  [canonical_text level v s]: the text
    [s] is the canonical form of [v] nested [level] deep. *)
Fixpoint spaces (n : nat) : string :=
  match n with
  | O => EmptyString
  | S n' => String " " (spaces n')
  end.

(** A new line, indented for the depth [level]. *)
Definition line_break (level : nat) : string :=
  String newline (spaces (4 * level)).

(** Each text on a line of its own at the depth [level], with a comma after
    each but the last. *)
Fixpoint lines_of (level : nat) (texts : list string) : string :=
  match texts with
  | [] => EmptyString
  | [t] => line_break level +:+ t
  | t :: r => line_break level +:+ t +:+ "," +:+ lines_of level r
  end.

(** The key of [a] comes strictly before the key of [b]. *)
Definition key_lt (a b : string * pyval) : Prop := String.ltb a.1 b.1 = true.

(** A member of an object: the quoted key, a colon, a space, the value. *)
Definition member_text (kv : string * pyval) (t : string) : string :=
  json_encode_str kv.1 +:+ ": " +:+ t.

Inductive canonical_text : nat -> pyval -> string -> Prop :=
| canonical_null level : canonical_text level PyNone "null"
| canonical_true level : canonical_text level (PyBool true) "true"
| canonical_false level : canonical_text level (PyBool false) "false"
| canonical_int level z : canonical_text level (PyInt z) (pretty z)
| canonical_str level s : canonical_text level (PyStr s) (json_encode_str s)
| canonical_empty_list level : canonical_text level (PyList []) "[]"
| canonical_list level l texts :
    l <> [] ->
    Forall2 (canonical_text (S level)) l texts ->
    canonical_text level (PyList l)
                   ("[" +:+ lines_of (S level) texts +:+ line_break level +:+ "]")
| canonical_empty_dict level : canonical_text level (PyDict []) "{}"
| canonical_dict level d members texts :
    d <> [] ->
    members ≡ₚ d ->
    StronglySorted key_lt members ->
    Forall2 (fun kv t => canonical_text (S level) kv.2 t) members texts ->
    canonical_text level (PyDict d)
                   ("{" +:+ lines_of (S level) (zip_with member_text members texts)
                        +:+ line_break level +:+ "}").

(** What a caller of [Datastore.get_resources(dataset, **filters)] asks
    for, read off the keywords themselves.  An entry of the manifest is
    asked for when, for every keyword [k=v]: if [k] is [name], [v] is false
    in a condition or is the name of the entry; otherwise the string form of
    the part [k] of the entry is the string form of [v]. *)
Definition entry_parts (d : list (string * pyval)) : list (string * pyval) :=
  match dict_get d "parts" with
  | Some (PyDict p) => p
  | _ => []
  end.

Definition asked_for (filters : list (string * pyval)) (e : pyval) : bool :=
  match e with
  | PyDict d =>
      forallb (fun kv =>
                 if String.eqb kv.1 "name"
                 then negb (py_truthy kv.2)
                      || match dict_get d "name" with
                         | Some n => py_eqb n kv.2
                         | None => false
                         end
                 else String.eqb (py_str (parts_get (entry_parts d) kv.1)) (py_str kv.2))
              filters
  | _ => false
  end.

(** An entry as a manifest lists them: a dict with a name, whose [parts] is
    absent or a dict. *)
Definition listed_entry (e : pyval) : Prop :=
  exists d n, e = PyDict d /\ dict_get d "name" = Some n
              /\ match dict_get d "parts" with
                 | Some p => exists items, p = PyDict items
                 | None => True
                 end.

(** A mapping of keywords as a call can pass it: no keyword twice, and none
    called [self]; and no keyword [res], which [_matches] cannot take. *)
Definition keyword_mapping (filters : list (string * pyval)) : Prop :=
  NoDup (map fst filters)
  /\ dict_has filters "self" = false /\ dict_has filters "res" = false.

(** * Properties *)

(** ** Raising code: inversion *)

Lemma result_bind_Ok {A B : Type} (r : result A) (f : A -> result B) (b : B) :
  result_bind r f = Ok b -> exists a, r = Ok a /\ f a = Ok b.
Proof. destruct r as [a|e]; simpl; intros Hb; [exists a; auto | discriminate]. Qed.

Lemma py_getitem_dict (d : list (string * pyval)) (k : string) (x : pyval) :
  dict_get d k = Some x -> py_getitem (PyDict d) k = Ok x.
Proof. intros Hx. simpl. now rewrite Hx. Qed.

Lemma py_getitem_Ok (v : pyval) (k : string) (x : pyval) :
  py_getitem v k = Ok x -> exists d, v = PyDict d /\ dict_get d k = Some x.
Proof.
  destruct v as [| | | |l|d]; simpl; try discriminate.
  destruct (dict_get d k) as [y|] eqn:Hy; [|discriminate].
  intros [= ->]. eauto.
Qed.

(** ** Partition filters (C4) *)

Lemma py_get_dict (d : list (string * pyval)) (k : string) (dflt : pyval) :
  py_get (PyDict d) k dflt = Ok (default dflt (dict_get d k)).
Proof. simpl. now destruct (dict_get d k). Qed.

Lemma all_parts_match_forallb (parts filters : list (string * pyval)) :
  all_parts_match (PyDict parts) filters
  = Ok (forallb (fun kv => String.eqb (py_str (parts_get parts kv.1)) (py_str kv.2)) filters).
Proof.
  induction filters as [|[k v] rest IH]; [reflexivity|].
  cbn [all_parts_match forallb fst snd]. rewrite py_get_dict. cbn [result_bind].
  fold (parts_get parts k).
  destruct (String.eqb (py_str (parts_get parts k)) (py_str v)); [exact IH | reflexivity].
Qed.

(** C4.  For an entry [res] whose [parts] is absent or a mapping -- so that
    [res.get('parts', {})] is a dict [parts] -- and for every filter mapping,
    [_matches] returns, without raising, whether [str(parts.get(k))] equals
    [str(v)] for every filter pair (k, v): both sides are compared in string
    form.  A partition key the entry lacks reads as [None] and is coerced to
    the text "None", so the filter value "None" matches an entry that lacks
    the key. *)
Theorem matches_compares_string_forms
  (entry parts filters : list (string * pyval)) :
  py_get (PyDict entry) "parts" (PyDict []) = Ok (PyDict parts) ->
  _matches (PyDict entry) filters
  = Ok (forallb (fun kv => String.eqb (py_str (parts_get parts kv.1)) (py_str kv.2)) filters)
  /\ (_matches (PyDict entry) filters = Ok true
      <-> forall k v, In (k, v) filters -> py_str (parts_get parts k) = py_str v)
  /\ (forall k, dict_get parts k = None ->
        py_str (parts_get parts k) = "None"
        /\ _matches (PyDict entry) [(k, PyStr "None")] = Ok true).
Proof.
  intros Hparts.
  assert (Heq : forall fs, _matches (PyDict entry) fs
    = Ok (forallb (fun kv => String.eqb (py_str (parts_get parts kv.1)) (py_str kv.2)) fs)).
  { intros fs. unfold _matches. rewrite Hparts. cbn [result_bind].
    apply all_parts_match_forallb. }
  split; [apply Heq|]. split.
  - rewrite Heq. split.
    + intros [= Hall] k v Hin. rewrite forallb_forall in Hall.
      specialize (Hall (k, v) Hin). cbn in Hall. now apply String.eqb_eq.
    + intros Hall. f_equal. apply forallb_forall. intros [k v] Hin. cbn.
      apply String.eqb_eq. now apply Hall.
  - intros k Hk. unfold parts_get at 1. rewrite Hk. split; [reflexivity|].
    rewrite Heq. cbn. unfold parts_get. now rewrite Hk.
Qed.

Lemma matches_compares_string_forms_witness :
  py_get (PyDict [("name", PyStr "r1"); ("parts", PyDict [("year", PyInt 2020)])])
         "parts" (PyDict []) = Ok (PyDict [("year", PyInt 2020)])
  /\ _matches (PyDict [("name", PyStr "r1"); ("parts", PyDict [("year", PyInt 2020)])])
              [("year", PyStr "2020"); ("state", PyStr "None")] = Ok true.
Proof.
  split; [reflexivity|].
  destruct (matches_compares_string_forms
              [("name", PyStr "r1"); ("parts", PyDict [("year", PyInt 2020)])]
              [("year", PyInt 2020)]
              [("year", PyStr "2020"); ("state", PyStr "None")] eq_refl) as [Heq _].
  rewrite Heq. reflexivity.
Defined.

(** ** Location of a resource (C5) *)

Lemma get_resource_path_loop_skip (self : DatapackageDescriptor) (name : pyval)
  (before rest : list pyval) :
  Forall (named_otherwise name) before ->
  get_resource_path_loop self name (before ++ rest) = get_resource_path_loop self name rest.
Proof.
  induction 1 as [|e before [n [Hn Hne]] _ IH]; [reflexivity|].
  cbn [app get_resource_path_loop]. rewrite Hn. cbn [result_bind]. now rewrite Hne.
Qed.

(** C5, as the code has it.  [get_resource_path] looks at the first entry
    called [name].  It returns that entry's [remote_url] when the field is
    present and true in a condition (not null, not empty); otherwise it
    returns what [res.get("path")] gives, the static path or [None].  When no
    entry has the name, it raises a [KeyError] that names the resource, the
    dataset and the DOI. *)
Theorem get_resource_path_resolution
  (self : DatapackageDescriptor) (name : pyval) (entries : list pyval) :
  py_getitem (datapackage_json self) "resources" = Ok (PyList entries) ->
  (forall before after res n,
      entries = before ++ PyDict res :: after ->
      Forall (named_otherwise name) before ->
      dict_get res "name" = Some n -> py_eqb n name = true ->
      get_resource_path self name
      = Ok (match dict_get res "remote_url" with
            | Some u => if py_truthy u then u else entry_path res
            | None => entry_path res
            end))
  /\ (Forall (named_otherwise name) entries ->
      get_resource_path self name
      = Raise (KeyError ("Resource " +:+ py_str name +:+ " not found for "
                         +:+ dataset self +:+ "/" +:+ doi self))).
Proof.
  intros Hres. unfold get_resource_path. rewrite Hres. cbn [result_bind py_iter]. split.
  - intros before after res n -> Hbefore Hn Heq.
    rewrite get_resource_path_loop_skip by assumption.
    cbn [get_resource_path_loop]. rewrite (py_getitem_dict _ _ _ Hn).
    cbn [result_bind]. rewrite Heq. rewrite !py_get_dict. cbn [result_bind].
    unfold entry_path.
    destruct (dict_get res "remote_url") as [u|]; cbn; [|reflexivity].
    now destruct (py_truthy u).
  - intros Hall.
    rewrite <- (app_nil_r entries), get_resource_path_loop_skip by assumption.
    reflexivity.
Qed.

Lemma get_resource_path_resolution_witness :
  get_resource_path ex_descriptor (PyStr "eia860-2020.zip")
  = Ok (PyStr "https://zenodo.org/api/files/b/eia860-2020.zip")
  /\ get_resource_path ex_descriptor (PyStr "eia860-2019.zip")
     = Ok (PyStr "https://zenodo.org/api/files/a/eia860-2019.zip")
  /\ get_resource_path ex_empty_remote (PyStr "r1") = Ok (PyStr "http://x/r1")
  /\ get_resource_path ex_descriptor (PyStr "eia860-2021.zip")
     = Raise (KeyError "Resource eia860-2021.zip not found for eia860/10.5281/zenodo.4127027").
Proof.
  split; [|split; [|split]].
  - destruct (get_resource_path_resolution ex_descriptor (PyStr "eia860-2020.zip") _ eq_refl)
      as [Hfound _].
    refine (Hfound [_] [] _ (PyStr "eia860-2020.zip") eq_refl _ eq_refl eq_refl).
    repeat constructor. eexists; split; reflexivity.
  - destruct (get_resource_path_resolution ex_descriptor (PyStr "eia860-2019.zip") _ eq_refl)
      as [Hfound _].
    exact (Hfound [] [_] _ (PyStr "eia860-2019.zip") eq_refl (List.Forall_nil _) eq_refl eq_refl).
  - destruct (get_resource_path_resolution ex_empty_remote (PyStr "r1") _ eq_refl)
      as [Hfound _].
    exact (Hfound [] [] _ (PyStr "r1") eq_refl (List.Forall_nil _) eq_refl eq_refl).
  - destruct (get_resource_path_resolution ex_descriptor (PyStr "eia860-2021.zip") _ eq_refl)
      as [_ Hmissing].
    apply Hmissing. repeat constructor; eexists; split; reflexivity.
Defined.

(** The sentence of C5 fails on an entry whose [remote_url] is the empty
    string: the field is present, and the static path is returned. *)
Lemma remote_url_present_and_empty : ~ remote_url_wins_whenever_present.
Proof.
  intros Hclaim.
  specialize (Hclaim ex_empty_remote (PyStr "r1") [] [] _ (PyStr "r1") (PyStr EmptyString)
                eq_refl (List.Forall_nil _) eq_refl eq_refl eq_refl).
  vm_compute in Hclaim. discriminate Hclaim.
Qed.

(** ** Enumeration of the resources (C3) *)

Lemma get_resources_loop_no_filter (self : DatapackageDescriptor) (e : pyval)
  (rest : list pyval) :
  has_name e ->
  get_resources_loop self PyNone [] (e :: rest) = (Yielded (entry_key self e), DLoop rest).
Proof.
  intros (d & n & -> & Hn). cbn [get_resources_loop py_truthy].
  unfold call_matches, _matches. cbn [dict_has dict_get orb]. rewrite py_get_dict.
  cbn [result_bind all_parts_match]. unfold entry_key.
  now rewrite (py_getitem_dict _ _ _ Hn).
Qed.

Lemma get_resources_list_no_filter (self : DatapackageDescriptor) (entries : list pyval)
  (fuel : nat) :
  Forall has_name entries ->
  (length entries < fuel)%nat ->
  get_resources_list self PyNone [] fuel (DLoop entries)
  = Some (map (entry_key self) entries, None).
Proof.
  intros Hall. revert fuel.
  induction Hall as [|e rest He _ IH]; intros [|fuel] Hlen; cbn in Hlen; try lia.
  - reflexivity.
  - cbn [get_resources_list get_resources_next].
    rewrite get_resources_loop_no_filter by assumption.
    rewrite IH by lia. reflexivity.
Qed.

(** C3.  On a descriptor whose [resources] is a list of entries that each
    have a name (what a valid manifest gives), the enumeration without a name
    and without filters yields the key of every entry, one key per entry, in
    the order of the manifest, and then stops: equal names are not merged and
    nothing is sorted.  One call of [next] more than there are entries is
    enough to see the end. *)
Theorem get_resources_every_entry_in_order
  (self : DatapackageDescriptor) (entries : list pyval) (fuel : nat) :
  py_getitem (datapackage_json self) "resources" = Ok (PyList entries) ->
  Forall has_name entries ->
  (length entries < fuel)%nat ->
  get_resources_list self PyNone [] fuel DStart = Some (map (entry_key self) entries, None).
Proof.
  intros Hres Hall Hlen.
  rewrite <- (get_resources_list_no_filter self entries fuel Hall Hlen).
  destruct fuel as [|fuel]; [reflexivity|].
  cbn [get_resources_list get_resources_next]. rewrite Hres. reflexivity.
Qed.

Lemma get_resources_every_entry_in_order_witness :
  get_resources_list ex_descriptor PyNone [] 3 DStart
  = Some ([ {| rk_dataset := "eia860"; rk_doi := "10.5281/zenodo.4127027";
               rk_name := PyStr "eia860-2019.zip" |};
            {| rk_dataset := "eia860"; rk_doi := "10.5281/zenodo.4127027";
               rk_name := PyStr "eia860-2020.zip" |} ], None).
Proof.
  refine (get_resources_every_entry_in_order ex_descriptor _ 3 eq_refl _ _).
  - repeat constructor; do 2 eexists; split; reflexivity.
  - simpl. lia.
Defined.

(** ** Rules for [triple] *)

Lemma triple_ret {S A : Type} (P : S -> Prop) (a : A) (Q : A -> S -> Prop) (E : S -> Prop) :
  (forall s, P s -> Q a s) -> triple P (ret a) Q E.
Proof. intros HQ s Hs. now apply HQ. Qed.

Lemma triple_throw {S A : Type} (P : S -> Prop) (e : exn) (Q : A -> S -> Prop)
  (E : S -> Prop) :
  (forall s, P s -> E s) -> triple P (throw e) Q E.
Proof. intros HE s Hs. now apply HE. Qed.

Lemma triple_lift {S A : Type} (P : S -> Prop) (r : result A) (Q : A -> S -> Prop)
  (E : S -> Prop) :
  (forall a s, r = Ok a -> P s -> Q a s) -> (forall s, P s -> E s) -> triple P (lift r) Q E.
Proof. intros HQ HE s Hs. unfold lift. destruct r as [a|e]; [now apply HQ | now apply HE]. Qed.

Lemma triple_gets {S A : Type} (P : S -> Prop) (f : S -> A) (Q : A -> S -> Prop)
  (E : S -> Prop) :
  (forall s, P s -> Q (f s) s) -> triple P (gets f) Q E.
Proof. intros HQ s Hs. now apply HQ. Qed.

Lemma triple_modify {S : Type} (P : S -> Prop) (g : S -> S) (Q : unit -> S -> Prop)
  (E : S -> Prop) :
  (forall s, P s -> Q tt (g s)) -> triple P (modify g) Q E.
Proof. intros HQ s Hs. now apply HQ. Qed.

Lemma triple_lift_keep {S A : Type} (P : S -> Prop) (r : result A) :
  triple P (lift r) (fun _ s => P s) P.
Proof. apply triple_lift; auto. Qed.

Lemma triple_bind {S A B : Type} (P : S -> Prop) (m : M S A) (f : A -> M S B)
  (R : A -> S -> Prop) (Q : B -> S -> Prop) (E : S -> Prop) :
  triple P m R E -> (forall a, triple (R a) (f a) Q E) -> triple P (bindM m f) Q E.
Proof.
  intros Hm Hf s Hs. unfold bindM. specialize (Hm s Hs).
  destruct (m s) as [[a|e] s']; [now apply Hf | exact Hm].
Qed.

Lemma triple_weaken {S A : Type} (P P' : S -> Prop) (m : M S A) (Q Q' : A -> S -> Prop)
  (E E' : S -> Prop) :
  triple P m Q E -> (forall s, P' s -> P s) -> (forall a s, Q a s -> Q' a s) ->
  (forall s, E s -> E' s) -> triple P' m Q' E'.
Proof.
  intros Hm HP HQ HE s Hs. specialize (Hm s (HP s Hs)).
  destruct (m s) as [[a|e] s']; auto.
Qed.

(** ** Validation at construction (C9) *)

Lemma str_app_assoc (a b c : string) : (a +:+ b) +:+ c = a +:+ b +:+ c.
Proof.
  induction a as [|x a IH]; [reflexivity|].
  change (String x ((a +:+ b) +:+ c) = String x (a +:+ b +:+ c)). now rewrite IH.
Qed.



Section ValidatedFacts.
Context `{External}.

Lemma validation_fold (errors : list string) (msg : string) :
  fold_left (fun msg e => msg +:+ "  * " +:+ e +:+ String newline EmptyString) errors msg
  = msg +:+ str_concat (map (fun e => "  * " +:+ e +:+ String newline EmptyString) errors).
Proof.
  revert msg. induction errors as [|e errors IH]; intros msg; cbn [fold_left map str_concat].
  - clear. induction msg as [|c msg IH]; [reflexivity|].
    change (String c msg = String c (msg +:+ EmptyString)). now rewrite <- IH.
  - rewrite IH. now rewrite str_app_assoc.
Qed.

Lemma _validate_datapackage_spec (j : pyval) :
  _validate_datapackage j
  = match package_errors j with
    | Ok [] => Ok tt
    | Ok errors => Raise (ValueError (validation_message errors))
    | Raise e => Raise e
    end.
Proof.
  unfold _validate_datapackage, validation_message.
  destruct (package_errors j) as [[|e errors]|e]; [reflexivity| |reflexivity].
  cbn [result_bind]. rewrite validation_fold. now rewrite !str_app_assoc.
Qed.

Lemma DatapackageDescriptor_init_Ok (j : pyval) (dataset doi : string)
  (d : DatapackageDescriptor) :
  DatapackageDescriptor_init j dataset doi = Ok d ->
  validated d /\ d = {| datapackage_json := j; dataset := dataset; doi := doi |}.
Proof.
  unfold DatapackageDescriptor_init, validated. rewrite _validate_datapackage_spec.
  destruct (package_errors j) as [[|e errors]|e] eqn:He; cbn [result_bind];
    [|discriminate..].
  intros [= <-]. split; [exact He | reflexivity].
Qed.


(** *** The fetcher keeps validated descriptors only *)






End ValidatedFacts.

Section DatastoreValidated.
Context `{External} {C : Type} `{ResourceCache C}.






End DatastoreValidated.

(** ** Running state-passing code *)

Lemma bindM_Ok {S A B : Type} (m : M S A) (f : A -> M S B) (s s' : S) (a : A) :
  m s = (Ok a, s') -> bindM m f s = f a s'.
Proof. intros Hm. unfold bindM. now rewrite Hm. Qed.

Lemma bindM_Raise {S A B : Type} (m : M S A) (f : A -> M S B) (s s' : S) (e : exn) :
  m s = (Raise e, s') -> bindM m f s = (Raise e, s').
Proof. intros Hm. unfold bindM. now rewrite Hm. Qed.

Lemma bindM_inv {S A B : Type} (m : M S A) (f : A -> M S B) (s s' : S) (b : B) :
  bindM m f s = (Ok b, s') -> exists a s1, m s = (Ok a, s1) /\ f a s1 = (Ok b, s').
Proof.
  unfold bindM. destruct (m s) as [[a|e] s1]; [eauto | discriminate].
Qed.

(** ** Errors of a fetch (C7) *)

Section FetchErrors.
Context `{External}.

Lemma _fetch_from_url_200 (u : pyval) (zf : ZenodoFetcher) (response : Response) :
  http_get (http zf) (request_for zf u) = Ok response ->
  status_code response = 200 ->
  _fetch_from_url u zf = (Ok response, after_request zf u).
Proof.
  intros Hget Hstatus. unfold _fetch_from_url, bindM, gets, modify, lift, id.
  fold (request_for zf u). rewrite Hget, Hstatus. reflexivity.
Qed.

Lemma _fetch_from_url_raises (u : pyval) (zf : ZenodoFetcher) (e : exn) :
  http_get (http zf) (request_for zf u) = Raise e ->
  _fetch_from_url u zf = (Raise e, after_request zf u).
Proof.
  intros Hget. unfold _fetch_from_url, bindM, gets, modify, lift, id.
  fold (request_for zf u). now rewrite Hget.
Qed.

(** C7, as the code has it.  The session of the fetcher works under the
    retry policy mounted by [__init__]: statuses 429, 500, 502, 503 and 504
    are retried and never handed back.
    - When the session hands back a response whose status is not 200,
      [_fetch_from_url] raises a [ValueError].  Its message is made of the
      URL and of the body of the response, [response.text], and of nothing
      else: the status code is not in it.  The status is then none of the
      retried ones.
    - When the session raises -- as it does, with [RetryError], once the
      retries for one of those statuses are used up --, that exception leaves
      [_fetch_from_url] as it is: no [ValueError] is built, and neither the
      URL nor a body is put in it.
    In both cases the request is recorded as sent. *)
Theorem fetch_error_carries_url_and_body (u : pyval) (zf : ZenodoFetcher) :
  session_obeys _ (max_retries zf) ->
  (forall response,
      http_get (http zf) (request_for zf u) = Ok response ->
      status_code response <> 200 ->
      _fetch_from_url u zf
      = (Raise (ValueError ("Could not download " +:+ py_str u +:+ ": " +:+ text response)),
         after_request zf u)
      /\ ~ In (status_code response) (status_forcelist (max_retries zf)))
  /\ (forall e,
        http_get (http zf) (request_for zf u) = Raise e ->
        _fetch_from_url u zf = (Raise e, after_request zf u)).
Proof.
  intros Hpolicy. split.
  - intros response Hget Hstatus. split; [|exact (Hpolicy _ _ _ Hget)].
    unfold _fetch_from_url, bindM, gets, modify, lift, id.
    fold (request_for zf u). rewrite Hget.
    destruct (Z.eqb_spec (status_code response) 200) as [Heq|_]; [contradiction|reflexivity].
  - intros e. apply _fetch_from_url_raises.
Qed.

End FetchErrors.

Lemma ex_failing_obeys (status : Z) (body : string) (policy : Retry) :
  ~ In status (status_forcelist policy) ->
  session_obeys (ex_failing status body) policy.
Proof. intros Hout sent req response [= <-]. exact Hout. Qed.

Lemma ex_retry_loop_obeys (policy : Retry) (server : nat -> Response) (retries : nat) :
  forall attempt response,
    ex_retry_loop policy server attempt retries = Ok response ->
    ~ In (status_code response) (status_forcelist policy).
Proof.
  induction retries as [|n IH]; intros attempt response; cbn [ex_retry_loop];
    destruct (existsb (Z.eqb (status_code (server attempt))) (status_forcelist policy))
      eqn:Hforce; try discriminate; try (now apply IH).
  all: intros [= <-] Hin;
    assert (Hex : existsb (Z.eqb (status_code (server attempt))) (status_forcelist policy)
                  = true)
      by (apply existsb_exists; eexists; split; [exact Hin | apply Z.eqb_refl]);
    congruence.
Qed.

Lemma fetch_error_carries_url_and_body_witness :
  @_fetch_from_url (ex_failing 404 "not found")
                   (PyStr "https://zenodo.org/api/files/a/x.zip")
                   (ZenodoFetcher_init false 15)
  = (Raise (ValueError "Could not download https://zenodo.org/api/files/a/x.zip: not found"),
     after_request (ZenodoFetcher_init false 15) (PyStr "https://zenodo.org/api/files/a/x.zip"))
  /\ @_fetch_from_url (ex_retrying (fun n => ex_response 503 "busy" ex_not_json))
                      (PyStr "https://zenodo.org/api/files/a/x.zip")
                      (ZenodoFetcher_init false 15)
     = (Raise (LibraryError "RetryError" "too many error responses"),
        after_request (ZenodoFetcher_init false 15)
                      (PyStr "https://zenodo.org/api/files/a/x.zip")).
Proof.
  split.
  - refine (proj1 (proj1 (@fetch_error_carries_url_and_body (ex_failing 404 "not found")
                            (PyStr "https://zenodo.org/api/files/a/x.zip")
                            (ZenodoFetcher_init false 15) _) _ eq_refl _)).
    + apply ex_failing_obeys. cbn. lia.
    + cbn. lia.
  - refine (proj2 (@fetch_error_carries_url_and_body
                     (ex_retrying (fun n => ex_response 503 "busy" ex_not_json))
                     (PyStr "https://zenodo.org/api/files/a/x.zip")
                     (ZenodoFetcher_init false 15) _) _ _).
    + intros sent req response. apply ex_retry_loop_obeys.
    + vm_compute. reflexivity.
Defined.

(** The sentence of C7 fails: a 404 and a 410 with the same body, neither
    of which is retried, give the same exception, so no status can be read
    off it. *)
Lemma fetch_error_has_no_status : ~ fetch_error_carries_status.
Proof.
  intros [status_of Hclaim].
  destruct (Hclaim (ex_failing 404 "gone") (PyStr "https://zenodo.org/api/files/a/x.zip")
              (ZenodoFetcher_init false 15) (ex_response 404 "gone" ex_not_json))
    as (e1 & He1 & Hs1);
    [apply ex_failing_obeys; cbn; lia | reflexivity | right; cbn; lia |].
  destruct (Hclaim (ex_failing 410 "gone") (PyStr "https://zenodo.org/api/files/a/x.zip")
              (ZenodoFetcher_init false 15) (ex_response 410 "gone" ex_not_json))
    as (e2 & He2 & Hs2);
    [apply ex_failing_obeys; cbn; lia | reflexivity | right; cbn; lia |].
  vm_compute in He1, He2. injection He1 as <-. injection He2 as <-.
  rewrite Hs1 in Hs2. vm_compute in Hs2. discriminate Hs2.
Qed.

(** ** The descriptor memo of the fetcher (C6) *)

Section Memo.
Context `{External}.

(** What [_fetch_from_url] leaves alone: anything that does not look at the
    session. *)
Lemma _fetch_from_url_frame (P : ZenodoFetcher -> Prop) (u : pyval) :
  (forall zf h, P zf -> P (set_http zf h)) ->
  triple P (_fetch_from_url u) (fun _ zf => P zf) P.
Proof.
  intros Hblind. unfold _fetch_from_url.
  eapply triple_bind with (R := fun _ zf => P zf); [now apply triple_gets|]. intros self.
  eapply triple_bind with (R := fun _ zf => P zf).
  { apply triple_modify. intros zf Hzf. now apply Hblind. }
  intros _.
  eapply triple_bind; [apply triple_lift_keep|]. intros response. cbn beta.
  destruct (status_code response =? 200); [now apply triple_ret | now apply triple_throw].
Qed.

Lemma get_descriptor_loop_frame (P : ZenodoFetcher -> Prop) (dataset doi : string)
  (files : list pyval) :
  (forall zf h, P zf -> P (set_http zf h)) ->
  (forall zf d, P zf -> P (set_descriptor_cache zf (<[doi := d]> (_descriptor_cache zf)))) ->
  triple P (get_descriptor_loop dataset doi files) (fun _ zf => P zf) P.
Proof.
  intros Hhttp Hinsert.
  induction files as [|f rest IH]; cbn [get_descriptor_loop].
  - now apply triple_throw.
  - eapply triple_bind; [apply triple_lift_keep|]. intros filename. cbn beta.
    destruct (py_eqb filename (PyStr "datapackage.json")); [|exact IH].
    eapply triple_bind; [apply triple_lift_keep|]. intros links.
    eapply triple_bind; [apply triple_lift_keep|]. intros download.
    eapply triple_bind; [now apply _fetch_from_url_frame|]. intros resp.
    eapply triple_bind; [apply triple_lift_keep|]. intros j.
    eapply triple_bind; [apply triple_lift_keep|]. intros d.
    apply triple_modify. intros zf Hzf. now apply Hinsert.
Qed.

Lemma get_descriptor_fetch_frame (P : ZenodoFetcher -> Prop) (dataset doi : string) :
  (forall zf h, P zf -> P (set_http zf h)) ->
  (forall zf d, P zf -> P (set_descriptor_cache zf (<[doi := d]> (_descriptor_cache zf)))) ->
  triple P (get_descriptor_fetch dataset doi) (fun _ zf => P zf) P.
Proof.
  intros Hhttp Hinsert. unfold get_descriptor_fetch.
  eapply triple_bind with (R := fun _ zf => P zf); [now apply triple_gets|]. intros self.
  eapply triple_bind; [apply triple_lift_keep|]. intros u.
  eapply triple_bind; [now apply _fetch_from_url_frame|]. intros dpkg.
  eapply triple_bind; [apply triple_lift_keep|]. intros j.
  eapply triple_bind; [apply triple_lift_keep|]. intros files.
  eapply triple_bind; [apply triple_lift_keep|]. intros items.
  now apply get_descriptor_loop_frame.
Qed.

(** [get_descriptor], step by step. *)
Lemma get_descriptor_unfold (dataset : string) (zf : ZenodoFetcher) :
  get_descriptor dataset zf
  = match _dataset_to_doi zf !! dataset with
    | None => (Raise (KeyError ("No doi found for dataset " +:+ dataset)), zf)
    | Some doi =>
        if String.eqb doi EmptyString
        then (Raise (KeyError ("No doi found for dataset " +:+ dataset)), zf)
        else
          match _descriptor_cache zf !! doi with
          | Some d => (Ok d, zf)
          | None =>
              match get_descriptor_fetch dataset doi zf with
              | (Ok _, zf') => (descriptor_at (_descriptor_cache zf') doi, zf')
              | (Raise e, zf') => (Raise e, zf')
              end
          end
    end.
Proof.
  unfold get_descriptor, bindM at 1, gets at 1.
  destruct (_dataset_to_doi zf !! dataset) as [doi|]; [|reflexivity].
  destruct (String.eqb doi EmptyString); [reflexivity|].
  unfold bindM at 1, gets at 1.
  destruct (_descriptor_cache zf !! doi) as [d|] eqn:Hd.
  - unfold bindM, ret, gets, lift, descriptor_at. now rewrite Hd.
  - unfold bindM at 1.
    destruct (get_descriptor_fetch dataset doi zf) as [[u|e] zf']; reflexivity.
Qed.

Lemma get_descriptor_unknown (dataset : string) (zf : ZenodoFetcher) :
  _dataset_to_doi zf !! dataset = None ->
  get_descriptor dataset zf
  = (Raise (KeyError ("No doi found for dataset " +:+ dataset)), zf).
Proof. intros Hnone. rewrite get_descriptor_unfold. now rewrite Hnone. Qed.

Lemma get_descriptor_loop_no_manifest (dataset doi : string) (files : list pyval)
  (zf : ZenodoFetcher) :
  Forall other_file files ->
  get_descriptor_loop dataset doi files zf
  = (Raise (RuntimeError ("Zenodo datapackage for " +:+ dataset +:+ "/" +:+ doi
                          +:+ " does not contain valid datapackage.json")), zf).
Proof.
  induction 1 as [|f rest (n & Hn & Hne) _ IH]; [reflexivity|].
  cbn [get_descriptor_loop]. unfold bindM at 1, lift at 1. rewrite Hn, Hne. exact IH.
Qed.

Lemma get_descriptor_no_manifest (dataset doi u : string) (zf : ZenodoFetcher)
  (dpkg : Response) (j : pyval) (files : list pyval) :
  _dataset_to_doi zf !! dataset = Some doi ->
  doi <> EmptyString ->
  _descriptor_cache zf !! doi = None ->
  _doi_to_url zf doi = Ok u ->
  http_get (http zf) (request_for zf (PyStr u)) = Ok dpkg ->
  status_code dpkg = 200 ->
  json dpkg = Ok j ->
  py_getitem j "files" = Ok (PyList files) ->
  Forall other_file files ->
  get_descriptor dataset zf
  = (Raise (RuntimeError ("Zenodo datapackage for " +:+ dataset +:+ "/" +:+ doi
                          +:+ " does not contain valid datapackage.json")),
     after_request zf (PyStr u)).
Proof.
  intros Hdoi Hne Hcache Hurl Hget Hstatus Hjson Hfiles Hall.
  rewrite get_descriptor_unfold, Hdoi, Hcache.
  destruct (String.eqb_spec doi EmptyString) as [Heq|_]; [contradiction|].
  unfold get_descriptor_fetch.
  unfold bindM at 1, gets at 1, id. unfold bindM at 1, lift at 1. rewrite Hurl.
  rewrite (bindM_Ok _ _ _ _ _ (_fetch_from_url_200 _ _ _ Hget Hstatus)).
  unfold bindM at 1, lift at 1. rewrite Hjson.
  unfold bindM at 1, lift at 1. rewrite Hfiles.
  unfold bindM at 1, lift at 1. cbn [py_iter].
  now rewrite get_descriptor_loop_no_manifest.
Qed.

(** The DOI table is never assigned to. *)
Lemma get_descriptor_fetch_table (dataset doi : string) (zf : ZenodoFetcher) :
  _dataset_to_doi (get_descriptor_fetch dataset doi zf).2 = _dataset_to_doi zf.
Proof.
  pose proof (get_descriptor_fetch_frame
                (fun s => _dataset_to_doi s = _dataset_to_doi zf) dataset doi) as Hframe.
  specialize (Hframe ltac:(auto) ltac:(auto) zf eq_refl).
  now destruct (get_descriptor_fetch dataset doi zf) as [[u|e] zf'].
Qed.

(** An entry of the memo stays, under a fetch for another DOI. *)
Lemma get_descriptor_fetch_entry (dataset doi k : string) (d : DatapackageDescriptor)
  (zf : ZenodoFetcher) :
  doi <> k ->
  _descriptor_cache zf !! k = Some d ->
  _descriptor_cache (get_descriptor_fetch dataset doi zf).2 !! k = Some d.
Proof.
  intros Hne Hk.
  pose proof (get_descriptor_fetch_frame
                (fun s => _descriptor_cache s !! k = Some d) dataset doi) as Hframe.
  assert (Hzf' : match get_descriptor_fetch dataset doi zf with
                 | (Ok _, zf') | (Raise _, zf') => _descriptor_cache zf' !! k = Some d
                 end).
  { apply Hframe; [auto | | exact Hk].
    intros s d' Hs. cbn. now rewrite lookup_insert_ne. }
  now destruct (get_descriptor_fetch dataset doi zf) as [[u|e] zf'].
Qed.

Lemma get_descriptor_entry (dataset k : string) (d : DatapackageDescriptor)
  (zf : ZenodoFetcher) :
  _descriptor_cache zf !! k = Some d ->
  _descriptor_cache (get_descriptor dataset zf).2 !! k = Some d.
Proof.
  intros Hk. rewrite get_descriptor_unfold.
  destruct (_dataset_to_doi zf !! dataset) as [doi|]; [|exact Hk].
  destruct (String.eqb doi EmptyString); [exact Hk|].
  destruct (_descriptor_cache zf !! doi) as [d'|] eqn:Hd; [exact Hk|].
  assert (Hne : doi <> k) by congruence.
  pose proof (get_descriptor_fetch_entry dataset doi k d zf Hne Hk) as Hkeep.
  now destruct (get_descriptor_fetch dataset doi zf) as [[u|e] zf'].
Qed.

Lemma get_resource_entry (res : PudlResourceKey) (k : string) (d : DatapackageDescriptor)
  (zf : ZenodoFetcher) :
  _descriptor_cache zf !! k = Some d ->
  _descriptor_cache (get_resource res zf).2 !! k = Some d.
Proof.
  intros Hk. unfold get_resource, bindM at 1.
  pose proof (get_descriptor_entry (rk_dataset res) k d zf Hk) as Hkeep.
  destruct (get_descriptor (rk_dataset res) zf) as [[desc|e] zf1]; [|exact Hkeep].
  cbn [snd] in Hkeep. unfold bindM at 1, lift at 1.
  destruct (get_resource_path desc (rk_name res)) as [location|e]; [|exact Hkeep].
  pose proof (_fetch_from_url_frame (fun s => _descriptor_cache s !! k = Some d) location
                (fun s h Hs => Hs) zf1 Hkeep) as Hfetch.
  unfold bindM.
  now destruct (_fetch_from_url location zf1) as [[response|e] zf2].
Qed.

Lemma get_descriptor_memoized (dataset : string) (zf zf' : ZenodoFetcher)
  (d : DatapackageDescriptor) :
  get_descriptor dataset zf = (Ok d, zf') ->
  exists doi,
    _dataset_to_doi zf !! dataset = Some doi
    /\ _descriptor_cache zf' !! doi = Some d
    /\ get_descriptor dataset zf' = (Ok d, zf').
Proof.
  rewrite get_descriptor_unfold.
  destruct (_dataset_to_doi zf !! dataset) as [doi|] eqn:Hdoi; [|discriminate].
  destruct (String.eqb doi EmptyString) eqn:Hne; [discriminate|].
  intros Hrun. exists doi. split; [reflexivity|].
  assert (Hstate : _dataset_to_doi zf' = _dataset_to_doi zf
                   /\ _descriptor_cache zf' !! doi = Some d).
  { destruct (_descriptor_cache zf !! doi) as [d'|] eqn:Hd.
    - injection Hrun as <- <-. now split.
    - pose proof (get_descriptor_fetch_table dataset doi zf) as Htable.
      destruct (get_descriptor_fetch dataset doi zf) as [[u|e] zf1]; [|discriminate].
      injection Hrun as Hat <-. split; [exact Htable|].
      unfold descriptor_at in Hat.
      now destruct (_descriptor_cache zf1 !! doi) as [d1|]; [injection Hat as ->|]. }
  destruct Hstate as [Htable Hd]. split; [exact Hd|].
  rewrite get_descriptor_unfold, Htable, Hdoi, Hne, Hd. reflexivity.
Qed.

(** C6.  [ZenodoFetcher.get_descriptor]:
    - for a dataset that is not in the table of DOIs it raises a [KeyError]
      and sends nothing;
    - when the DOI is known and not memoized, the listing of the release is
      fetched, and when no file of the listing is called [datapackage.json]
      it raises a [RuntimeError] that names the dataset and the DOI;
    - when it returns a descriptor, the descriptor is in the memo under the
      DOI of the dataset, and a second call for the dataset returns the same
      descriptor and leaves the fetcher as it is: no request is sent;
    - an entry of the memo is never removed or replaced by a later
      [get_descriptor] or [get_resource]. *)
Theorem get_descriptor_errors_and_memo :
  (forall dataset zf,
      _dataset_to_doi zf !! dataset = None ->
      get_descriptor dataset zf
      = (Raise (KeyError ("No doi found for dataset " +:+ dataset)), zf))
  /\ (forall dataset doi u zf dpkg j files,
        _dataset_to_doi zf !! dataset = Some doi ->
        doi <> EmptyString ->
        _descriptor_cache zf !! doi = None ->
        _doi_to_url zf doi = Ok u ->
        http_get (http zf) (request_for zf (PyStr u)) = Ok dpkg ->
        status_code dpkg = 200 ->
        json dpkg = Ok j ->
        py_getitem j "files" = Ok (PyList files) ->
        Forall other_file files ->
        get_descriptor dataset zf
        = (Raise (RuntimeError ("Zenodo datapackage for " +:+ dataset +:+ "/" +:+ doi
                                +:+ " does not contain valid datapackage.json")),
           after_request zf (PyStr u)))
  /\ (forall dataset zf zf' d,
        get_descriptor dataset zf = (Ok d, zf') ->
        exists doi,
          _dataset_to_doi zf !! dataset = Some doi
          /\ _descriptor_cache zf' !! doi = Some d
          /\ get_descriptor dataset zf' = (Ok d, zf'))
  /\ (forall k d zf,
        _descriptor_cache zf !! k = Some d ->
        (forall dataset, _descriptor_cache (get_descriptor dataset zf).2 !! k = Some d)
        /\ (forall res, _descriptor_cache (get_resource res zf).2 !! k = Some d)).
Proof.
  split; [exact get_descriptor_unknown|]. split; [exact get_descriptor_no_manifest|].
  split; [exact get_descriptor_memoized|].
  intros k d zf Hk. split.
  - intros dataset. now apply get_descriptor_entry.
  - intros res. now apply get_resource_entry.
Qed.

End Memo.

Lemma get_descriptor_errors_and_memo_witness :
  @get_descriptor ex_external "eia999" (ZenodoFetcher_init false 15)
  = (Raise (KeyError "No doi found for dataset eia999"), ZenodoFetcher_init false 15)
  /\ @get_descriptor ex_no_manifest "eia860" (ZenodoFetcher_init false 15)
     = (Raise (RuntimeError
          "Zenodo datapackage for eia860/10.5281/zenodo.4127027 does not contain valid datapackage.json"),
        after_request (ZenodoFetcher_init false 15)
          (PyStr "https://zenodo.org/api/deposit/depositions/4127027"))
  /\ exists zf',
       @get_descriptor ex_external "eia860" (ZenodoFetcher_init false 15)
       = (Ok ex_descriptor, zf')
       /\ _descriptor_cache zf' !! "10.5281/zenodo.4127027" = Some ex_descriptor
       /\ @get_descriptor ex_external "eia860" zf' = (Ok ex_descriptor, zf').
Proof.
  split; [|split].
  - apply (proj1 (@get_descriptor_errors_and_memo ex_external)). vm_compute. reflexivity.
  - refine (proj1 (proj2 (@get_descriptor_errors_and_memo ex_no_manifest))
              "eia860" "10.5281/zenodo.4127027"
              "https://zenodo.org/api/deposit/depositions/4127027"
              (ZenodoFetcher_init false 15) _ _ [_] _ _ _ _ eq_refl eq_refl eq_refl eq_refl _).
    + vm_compute. reflexivity.
    + discriminate.
    + vm_compute. reflexivity.
    + vm_compute. reflexivity.
    + repeat constructor. eexists; split; reflexivity.
  - eexists.
    assert (Hrun : @get_descriptor ex_external "eia860" (ZenodoFetcher_init false 15)
                   = (Ok ex_descriptor,
                      (@get_descriptor ex_external "eia860" (ZenodoFetcher_init false 15)).2)).
    { vm_compute. reflexivity. }
    split; [exact Hrun|].
    destruct (proj1 (proj2 (proj2 (@get_descriptor_errors_and_memo ex_external)))
                _ _ _ _ Hrun) as (doi & Hdoi & Hmemo & Hagain).
    assert (Heq : doi = "10.5281/zenodo.4127027").
    { vm_compute in Hdoi. now injection Hdoi as <-. }
    rewrite Heq in Hmemo. split; [exact Hmemo | exact Hagain].
Defined.

(** ** Validation at construction (C9) *)








Section DescriptorKept.
Context `{External} {C : Type} `{ResourceCache C}.









End DescriptorKept.



(** ** Canonical serialization (C8) *)

(** Induction on a value, with the hypothesis for the members of a list and
    of a dict. *)
Lemma pyval_nested_ind (P : pyval -> Prop) :
  P PyNone -> (forall b, P (PyBool b)) -> (forall z, P (PyInt z)) -> (forall s, P (PyStr s)) ->
  (forall l, Forall P l -> P (PyList l)) ->
  (forall d, Forall (fun kv => P kv.2) d -> P (PyDict d)) ->
  forall v, P v.
Proof.
  intros HNone HBool HInt HStr HList HDict.
  fix IH 1. intros [| b | z | s | l | d].
  - exact HNone.
  - apply HBool.
  - apply HInt.
  - apply HStr.
  - apply HList. induction l as [|v l IHl]; constructor; [apply IH | exact IHl].
  - apply HDict. induction d as [|[k v] d IHd]; constructor; [apply IH | exact IHd].
Qed.

Section SortItems.
Context {A : Type}.

Lemma ltb_le (a b : string) : String.ltb a b = true -> String.le a b.
Proof.
  unfold String.ltb, String.le, String.leb.
  destruct (String.compare a b); done.
Qed.

Lemma not_ltb_le (a b : string) : String.ltb a b = false -> String.le b a.
Proof.
  unfold String.ltb, String.le, String.leb. rewrite (String.compare_antisym b a).
  destruct (String.compare a b); done.
Qed.

Lemma insert_item_perm (x : string * A) (l : list (string * A)) :
  insert_item x l ≡ₚ x :: l.
Proof.
  induction l as [|y l IH]; [reflexivity|]. cbn [insert_item].
  destruct (String.ltb y.1 x.1); [|reflexivity].
  rewrite IH. apply Permutation_swap.
Qed.

Lemma sort_items_perm (l : list (string * A)) : sort_items l ≡ₚ l.
Proof.
  induction l as [|x l IH]; [reflexivity|]. cbn [sort_items].
  rewrite insert_item_perm. now rewrite IH.
Qed.

Lemma insert_item_sorted (x : string * A) (l : list (string * A)) :
  Sorted key_le l -> Sorted key_le (insert_item x l).
Proof.
  induction 1 as [|y l Hl IH Hhd]; cbn [insert_item].
  - repeat constructor.
  - destruct (String.ltb y.1 x.1) eqn:Hlt.
    + constructor; [exact IH|].
      destruct Hhd as [|z l Hyz]; cbn [insert_item].
      * constructor. now apply ltb_le.
      * destruct (String.ltb z.1 x.1); constructor; [exact Hyz | now apply ltb_le].
    + constructor; [now constructor|]. constructor. now apply not_ltb_le.
Qed.

Lemma sort_items_sorted (l : list (string * A)) : Sorted key_le (sort_items l).
Proof.
  induction l as [|x l IH]; [constructor|]. now apply insert_item_sorted.
Qed.

#[local] Instance key_le_trans : Transitive (@key_le A).
Proof. intros x y z Hxy Hyz. unfold key_le in *. etrans; eassumption. Qed.

(** Two lists with the same members, under distinct keys, sort to the same
    list. *)
Lemma sort_items_unique (l1 l2 : list (string * A)) :
  NoDup l1.*1 -> l1 ≡ₚ l2 -> sort_items l1 = sort_items l2.
Proof.
  intros Hnd Hperm.
  apply (StronglySorted_unique_strong key_le).
  - intros x1 x2 Hx1 Hx2 H12 H21.
    assert (Hk : x1.1 = x2.1) by (apply (anti_symm String.le); assumption).
    rewrite sort_items_perm in Hx1. rewrite sort_items_perm, <- Hperm in Hx2.
    clear -Hnd Hx1 Hx2 Hk.
    induction l1 as [|y l1 IH]; [now apply elem_of_nil in Hx1|].
    apply NoDup_cons in Hnd as [Hy Hnd].
    apply elem_of_cons in Hx1 as [->|Hx1]; apply elem_of_cons in Hx2 as [->|Hx2];
      [reflexivity | | | now apply IH].
    + exfalso. apply Hy. rewrite Hk. now apply list_elem_of_fmap_2.
    + exfalso. apply Hy. rewrite <- Hk. now apply list_elem_of_fmap_2.
  - apply (sorting.Sorted_StronglySorted _), sort_items_sorted.
  - apply (sorting.Sorted_StronglySorted _), sort_items_sorted.
  - now rewrite !sort_items_perm.
Qed.

(** Sorting looks at the keys only: it commutes with a change of the
    values. *)
Lemma sort_items_map {B : Type} (f : A -> B) (l : list (string * A)) :
  sort_items (map (fun kv => (kv.1, f kv.2)) l)
  = map (fun kv => (kv.1, f kv.2)) (sort_items l).
Proof.
  induction l as [|x l IH]; [reflexivity|]. cbn [map sort_items]. rewrite IH.
  generalize (sort_items l). clear. intros l.
  induction l as [|y l IH]; [reflexivity|]. cbn [map insert_item fst].
  destruct (String.ltb y.1 x.1); cbn [map]; [now rewrite IH | reflexivity].
Qed.

End SortItems.

(** The members of a dict, rendered and then sorted, are the members sorted
    and then rendered: the order [json.dumps] works in. *)
Lemma json_dumps_sorts_first (indent level : nat) (d : list (string * pyval)) :
  map json_item
      (sort_items (map (fun kv => (kv.1, json_dumps_at indent (S level) kv.2)) d))
  = map (fun kv => json_encode_str kv.1 +:+ ": " +:+ json_dumps_at indent (S level) kv.2)
        (sort_items d).
Proof. rewrite sort_items_map, map_map. reflexivity. Qed.

Lemma keys_distinct_NoDup (ks : list string) : keys_distinct ks = true -> NoDup ks.
Proof.
  induction ks as [|k ks IH]; [constructor|]. cbn [keys_distinct].
  intros [Hk Hks]%andb_true_iff. constructor; [|now apply IH].
  intros Hin. apply negb_true_iff in Hk.
  assert (Hex : existsb (String.eqb k) ks = true); [|congruence].
  apply existsb_exists. exists k. split; [now apply list_elem_of_In | apply String.eqb_refl].
Qed.

Lemma dict_get_elem_of (d : list (string * pyval)) (k : string) (v : pyval) :
  dict_get d k = Some v -> (k, v) ∈ d.
Proof.
  induction d as [|[k' v'] d IH]; [discriminate|]. cbn [dict_get].
  destruct (String.eqb_spec k' k) as [->|_].
  - intros [= ->]. apply elem_of_cons. now left.
  - intros Hget. apply elem_of_cons. right. now apply IH.
Qed.

Lemma json_same_list_inv (l1 l2 : list pyval) :
  json_same (PyList l1) (PyList l2) = true ->
  Forall2 (fun u v => json_same u v = true) l1 l2.
Proof.
  cbn [json_same]. revert l2.
  induction l1 as [|u l1 IH]; intros [|v l2]; try discriminate; [constructor|].
  intros [Huv Hrest]%andb_true_iff. constructor; [exact Huv | now apply IH].
Qed.

Lemma json_same_dict_inv (d1 d2 : list (string * pyval)) :
  json_same (PyDict d1) (PyDict d2) = true ->
  length d1 = length d2
  /\ Forall (fun kv => exists v, dict_get d2 kv.1 = Some v /\ json_same kv.2 v = true) d1.
Proof.
  cbn [json_same]. intros [Hlen Hall]%andb_true_iff.
  split; [now apply Nat.eqb_eq|]. clear Hlen.
  induction d1 as [|[k u] d1 IH]; [constructor|].
  destruct (dict_get d2 k) as [v|] eqn:Hget; [|discriminate].
  apply andb_true_iff in Hall as [Huv Hrest].
  constructor; [exists v; now split | now apply IH].
Qed.

Lemma json_dumps_at_same (indent : nat) (a : pyval) :
  forall (level : nat) (b : pyval),
    py_wf a = true -> py_wf b = true -> json_same a b = true ->
    json_dumps_at indent level a = json_dumps_at indent level b.
Proof.
  induction a as [| x | x | x | l1 IH | d1 IH] using pyval_nested_ind;
    intros level [| y | y | y | l2 | d2] Hwfa Hwfb Hsame; try discriminate Hsame.
  - reflexivity.
  - apply Bool.eqb_prop in Hsame. now subst.
  - apply Z.eqb_eq in Hsame. now subst.
  - apply String.eqb_eq in Hsame. now subst.
  - apply json_same_list_inv in Hsame. cbn [py_wf] in Hwfa, Hwfb.
    assert (Hmap : map (json_dumps_at indent (S level)) l1
                   = map (json_dumps_at indent (S level)) l2).
    { clear -IH Hwfa Hwfb Hsame.
      induction Hsame as [|u v l1 l2 Huv _ IHl]; [reflexivity|].
      cbn [forallb] in Hwfa, Hwfb.
      apply andb_true_iff in Hwfa as [Hu Hl1]. apply andb_true_iff in Hwfb as [Hv Hl2].
      apply Forall_cons_1 in IH as [IHu IHrest].
      cbn [map]. f_equal; [now apply IHu | now apply IHl]. }
    destruct Hsame as [|u v l1 l2 _ _]; [reflexivity|].
    cbn [json_dumps_at]. now rewrite Hmap.
  - apply json_same_dict_inv in Hsame as [Hlen Hall]. cbn [py_wf] in Hwfa, Hwfb.
    apply andb_true_iff in Hwfa as [Hnd1 Hwf1]. apply andb_true_iff in Hwfb as [Hnd2 Hwf2].
    apply keys_distinct_NoDup in Hnd1, Hnd2.
    set (render := fun kv : string * pyval => (kv.1, json_dumps_at indent (S level) kv.2)).
    assert (Hkeys : forall d, (map render d).*1 = map fst d).
    { intros d. induction d as [|kv d IHd]; [reflexivity|]. cbn. now f_equal. }
    assert (Hsort : sort_items (map render d1) = sort_items (map render d2)).
    { apply sort_items_unique.
      - rewrite Hkeys. exact Hnd1.
      - apply submseteq_length_Permutation; [|now rewrite !length_map, Hlen].
        apply NoDup_submseteq.
        + apply (NoDup_fmap_1 fst). rewrite Hkeys. exact Hnd1.
        + intros x [[k u] [-> Hin]]%list_elem_of_fmap_1.
          rewrite Forall_forall in Hall, IH.
          destruct (Hall _ Hin) as (v & Hget & Hsame). cbn [fst snd] in Hget, Hsame.
          apply dict_get_elem_of in Hget.
          assert (Hv : py_wf v = true).
          { rewrite forallb_forall in Hwf2. apply (Hwf2 (k, v)). now apply list_elem_of_In. }
          assert (Hu : py_wf u = true).
          { rewrite forallb_forall in Hwf1. apply (Hwf1 (k, u)). now apply list_elem_of_In. }
          unfold render at 1. cbn [fst snd].
          pose proof (IH _ Hin (S level) v Hu Hv Hsame) as Heq. cbn [snd] in Heq.
          rewrite Heq.
          now apply (list_elem_of_fmap_2 render d2 (k, v)). }
    destruct d1 as [|kv1 d1], d2 as [|kv2 d2]; try discriminate Hlen; [reflexivity|].
    cbn [json_dumps_at]. fold render. now rewrite Hsort.
Qed.

(** *** The text is the canonical form *)

Lemma str_repeat_spaces (n : nat) : str_repeat n " " = spaces n.
Proof. induction n as [|n IH]; [reflexivity|]. cbn [str_repeat spaces]. now rewrite IH. Qed.

Lemma newline_indent_line_break (level : nat) : newline_indent 4 level = line_break level.
Proof. unfold newline_indent, line_break. now rewrite str_repeat_spaces. Qed.

Lemma str_join_lines (level : nat) (texts : list string) :
  texts <> [] ->
  newline_indent 4 level +:+ str_join ("," +:+ newline_indent 4 level) texts
  = lines_of level texts.
Proof.
  rewrite newline_indent_line_break.
  induction texts as [|t texts IH]; [congruence|]. intros _.
  destruct texts as [|t' texts]; [reflexivity|].
  change (str_join ("," +:+ line_break level) (t :: t' :: texts))
    with (t +:+ ("," +:+ line_break level)
            +:+ str_join ("," +:+ line_break level) (t' :: texts)).
  change (lines_of level (t :: t' :: texts))
    with (line_break level +:+ t +:+ "," +:+ lines_of level (t' :: texts)).
  rewrite <- IH by discriminate. now rewrite !str_app_assoc.
Qed.

Lemma le_ne_ltb (a b : string) : String.le a b -> a <> b -> String.ltb a b = true.
Proof.
  unfold String.le, String.leb, String.ltb. intros Hle Hne.
  destruct (String.compare a b) eqn:Hc; [|reflexivity|done].
  now apply String.compare_eq_iff in Hc.
Qed.

Lemma ltb_asym (a b : string) : String.ltb a b = true -> String.ltb b a = true -> False.
Proof.
  unfold String.ltb. rewrite (String.compare_antisym a b).
  destruct (String.compare b a); cbn; intros H1 H2; discriminate.
Qed.

#[local] Instance key_lt_antisym : AntiSymm eq key_lt.
Proof. intros a b Hab Hba. exfalso. exact (ltb_asym _ _ Hab Hba). Qed.

Lemma sort_items_strict (d : list (string * pyval)) :
  NoDup d.*1 -> StronglySorted key_lt (sort_items d).
Proof.
  intros Hnd.
  assert (Hnd' : NoDup (sort_items d).*1).
  { now rewrite (sort_items_perm d). }
  assert (Hsorted : StronglySorted key_le (sort_items d)).
  { apply sorting.Sorted_StronglySorted; [apply key_le_trans | apply sort_items_sorted]. }
  clear Hnd. induction Hsorted as [|x l Hl IH Hx]; [constructor|].
  cbn [fmap list_fmap] in Hnd'. apply NoDup_cons in Hnd' as [Hnotin Hnd'].
  constructor; [now apply IH|].
  rewrite Forall_forall in Hx |- *. intros y Hy.
  apply le_ne_ltb; [now apply Hx|].
  intros Heq. apply Hnotin. rewrite Heq. now apply list_elem_of_fmap_2.
Qed.

Lemma json_dumps_at_canonical (v : pyval) :
  py_wf v = true -> forall level, canonical_text level v (json_dumps_at 4 level v).
Proof.
  induction v as [| b | z | s | l IH | d IH] using pyval_nested_ind; intros Hwf level.
  - constructor.
  - destruct b; constructor.
  - constructor.
  - constructor.
  - cbn [py_wf] in Hwf. destruct l as [|x l]; [constructor|].
    assert (Htext : json_dumps_at 4 level (PyList (x :: l))
                    = "[" +:+ lines_of (S level)
                                       (map (json_dumps_at 4 (S level)) (x :: l))
                          +:+ line_break level +:+ "]").
    { cbn [json_dumps_at].
      rewrite <- str_join_lines by discriminate.
      rewrite !newline_indent_line_break. now rewrite !str_app_assoc. }
    rewrite Htext. constructor; [discriminate|].
    generalize (x :: l) IH Hwf. clear. intros l IH Hwf.
    induction IH as [|y l Hy _ IHl]; [constructor|].
    cbn [forallb] in Hwf. apply andb_true_iff in Hwf as [Hwfy Hwfl].
    cbn [map]. constructor; [now apply Hy | now apply IHl].
  - cbn [py_wf] in Hwf. apply andb_true_iff in Hwf as [Hnd Hwf].
    apply keys_distinct_NoDup in Hnd.
    destruct d as [|kv d]; [constructor|].
    set (d' := kv :: d) in *.
    assert (Htext : json_dumps_at 4 level (PyDict d')
                    = "{" +:+ lines_of (S level)
                                (zip_with member_text (sort_items d')
                                   (map (fun kv => json_dumps_at 4 (S level) kv.2)
                                        (sort_items d')))
                          +:+ line_break level +:+ "}").
    { subst d'. cbn [json_dumps_at]. rewrite json_dumps_sorts_first.
      assert (Hzip : forall m : list (string * pyval),
                 map (fun kv => json_encode_str kv.1 +:+ ": "
                                +:+ json_dumps_at 4 (S level) kv.2) m
                 = zip_with member_text m
                            (map (fun kv => json_dumps_at 4 (S level) kv.2) m)).
      { induction m as [|y m IHm]; [reflexivity|]. cbn [map zip_with]. now rewrite IHm. }
      rewrite Hzip.
      rewrite <- str_join_lines.
      - rewrite !newline_indent_line_break. now rewrite !str_app_assoc.
      - rewrite <- Hzip. intros Hnil. apply map_eq_nil in Hnil.
        apply (f_equal (@length _)) in Hnil.
        rewrite (Permutation_length (sort_items_perm (kv :: d))) in Hnil. discriminate. }
    rewrite Htext.
    apply canonical_dict; [discriminate | apply sort_items_perm | now apply sort_items_strict|].
    assert (Hall : Forall (fun kv => py_wf kv.2 = true
                                     /\ forall level,
                                          canonical_text level kv.2
                                                         (json_dumps_at 4 level kv.2))
                          (sort_items d')).
    { rewrite (sort_items_perm d'). rewrite Forall_forall in IH |- *. intros y Hy.
      assert (Hwfy : py_wf y.2 = true).
      { rewrite forallb_forall in Hwf. apply (Hwf y). now apply list_elem_of_In. }
      split; [exact Hwfy | now apply IH]. }
    generalize (sort_items d') Hall. clear. intros m Hall.
    induction Hall as [|y m [_ Hy] _ IHm]; [constructor|].
    cbn [map]. constructor; [apply Hy | exact IHm].
Qed.

Lemma Forall2_same_texts {A : Type} (R : A -> string -> Prop) (l : list A)
  (t1 t2 : list string) :
  Forall (fun x => forall s1 s2, R x s1 -> R x s2 -> s1 = s2) l ->
  Forall2 R l t1 -> Forall2 R l t2 -> t1 = t2.
Proof.
  intros Hall H1. revert t2. induction H1 as [|x s1 l t1 Hx _ IH]; intros t2 H2.
  - now inversion H2.
  - inversion H2 as [|x' s2 l' t2' Hx2 Hrest]; subst.
    apply Forall_cons_1 in Hall as [Hfun Hall].
    f_equal; [now apply Hfun | now apply IH].
Qed.

Lemma canonical_text_unique (v : pyval) :
  forall level s1 s2,
    canonical_text level v s1 -> canonical_text level v s2 -> s1 = s2.
Proof.
  induction v as [| b | z | s | l IH | d IH] using pyval_nested_ind;
    intros level s1 s2 H1 H2.
  - inversion H1; inversion H2; reflexivity.
  - inversion H1; inversion H2; subst; congruence.
  - inversion H1; inversion H2; reflexivity.
  - inversion H1; inversion H2; reflexivity.
  - inversion H1 as [| | | | | |? ? t1 Hne1 Hall1|? |]; subst;
      inversion H2 as [| | | | | |? ? t2 Hne2 Hall2|? |]; subst;
      try congruence.
    assert (Heq : t1 = t2); [|now rewrite Heq].
    apply (Forall2_same_texts (canonical_text (S level)) l); [|assumption..].
    eapply Forall_impl; [exact IH|]. intros x Hx u1 u2. apply Hx.
  - inversion H1 as [| | | | | | |? |? ? m1 t1 Hne1 Hp1 Hs1 Hall1]; subst;
      inversion H2 as [| | | | | | |? |? ? m2 t2 Hne2 Hp2 Hs2 Hall2]; subst;
      try congruence.
    assert (Hm : m1 = m2).
    { apply (StronglySorted_unique key_lt); [assumption..|]. now rewrite Hp1, Hp2. }
    subst m2.
    assert (Heq : t1 = t2); [|now rewrite Heq].
    apply (Forall2_same_texts (fun kv t => canonical_text (S level) kv.2 t) m1);
      [|assumption..].
    rewrite Hp1. eapply Forall_impl; [exact IH|]. intros x Hx u1 u2. apply Hx.
Qed.

(** C8.  [get_json_string] gives the canonical form of the manifest.
    - Its text is the canonical text of the manifest: every object has its
      members in the strictly increasing order of their keys, one member on
      a line, indented by four spaces for each level of nesting, and so has
      every array its elements.
    - A value has one canonical text only, so the text is determined by the
      content: two calls on one descriptor give the same text, and two
      descriptors whose manifests hold the same JSON content, with the keys
      of any object inserted in whatever order, serialize to the same
      string. *)
Theorem get_json_string_canonical :
  (forall self : DatapackageDescriptor,
      py_wf (datapackage_json self) = true ->
      canonical_text 0 (datapackage_json self) (get_json_string self))
  /\ (forall level v s1 s2,
        canonical_text level v s1 -> canonical_text level v s2 -> s1 = s2)
  /\ (forall a b : DatapackageDescriptor,
        py_wf (datapackage_json a) = true -> py_wf (datapackage_json b) = true ->
        json_same (datapackage_json a) (datapackage_json b) = true ->
        get_json_string a = get_json_string b).
Proof.
  split; [|split].
  - intros self Hwf. now apply json_dumps_at_canonical.
  - intros level v. apply canonical_text_unique.
  - intros a b Hwfa Hwfb Hsame. now apply json_dumps_at_same.
Qed.

Lemma get_json_string_canonical_witness :
  canonical_text 0 ex_manifest (get_json_string ex_descriptor)
  /\ get_json_string ex_descriptor
     = get_json_string {| datapackage_json := ex_manifest_reordered;
                          dataset := "eia860"; doi := "10.5281/zenodo.4127027" |}
  /\ get_json_string ex_descriptor = ex_manifest_text.
Proof.
  destruct get_json_string_canonical as (Hcanonical & _ & Hsame).
  split; [|split].
  - apply (Hcanonical ex_descriptor). vm_compute. reflexivity.
  - apply Hsame; vm_compute; reflexivity.
  - vm_compute. reflexivity.
Defined.

(** ** Serving resources (C1, C2, C10) *)

(** The enumeration of a descriptor, one [next] at a time. *)
Lemma get_resources_list_step (self : DatapackageDescriptor) (name : pyval)
  (filters : list (string * pyval)) (fuel : nat) (g : dgen)
  (ks : list PudlResourceKey) (fin : option exn) :
  get_resources_list self name filters fuel g = Some (ks, fin) ->
  match ks with
  | [] =>
      exists g', get_resources_next self name filters g
                 = (match fin with None => StopIteration | Some e => Raised e end, g')
  | k :: ks' =>
      exists g' fuel',
        get_resources_next self name filters g = (Yielded k, g')
        /\ get_resources_list self name filters fuel' g' = Some (ks', fin)
  end.
Proof.
  destruct fuel as [|fuel]; [discriminate|]. cbn [get_resources_list].
  destruct (get_resources_next self name filters g) as [[k| |e] g'].
  - destruct (get_resources_list self name filters fuel g') as [[ks' fin']|] eqn:Hrest;
      [|discriminate].
    intros [= <- <-]. exists g', fuel. now split.
  - intros [= <- <-]. now exists g'.
  - intros [= <- <-]. now exists g'.
Qed.

(** The keys come from the entries that pass the tests, in their order. *)
Lemma get_resources_loop_selected (self : DatapackageDescriptor) (name : pyval)
  (filters : list (string * pyval)) (entries : list pyval) :
  forall fuel ks,
    get_resources_list self name filters fuel (DLoop entries) = Some (ks, None) ->
    ks = map (entry_key self) (List.filter (entry_selected name filters) entries).
Proof.
  induction entries as [|e entries IH]; intros [|fuel] ks; try discriminate.
  - cbn. now intros [= <-].
  - cbn [get_resources_list get_resources_next get_resources_loop List.filter].
    unfold entry_selected at 1.
    destruct (py_truthy name) eqn:Hname.
    + destruct (py_getitem e "name") as [n|err] eqn:Hn; cbn [result_bind]; [|discriminate].
      destruct (py_eqb n name); cbn [negb andb].
      * destruct (call_matches e filters) as [[|]|err]; [| |discriminate].
        -- destruct (get_resources_list self name filters fuel (DLoop entries))
             as [[ks' fin]|] eqn:Hrest; [|discriminate].
           intros [= <- ->]. cbn [map]. unfold entry_key at 1. rewrite Hn.
           f_equal. now apply (IH fuel).
        -- intros Hrest. apply (IH (S fuel)). exact Hrest.
      * intros Hrest. apply (IH (S fuel)). exact Hrest.
    + cbn [andb]. destruct (call_matches e filters) as [[|]|err]; [| |discriminate].
      * destruct (py_getitem e "name") as [n|err] eqn:Hn; [|discriminate].
        destruct (get_resources_list self name filters fuel (DLoop entries))
          as [[ks' fin]|] eqn:Hrest; [|discriminate].
        intros [= <- ->]. cbn [map]. unfold entry_key at 1. rewrite Hn.
        f_equal. now apply (IH fuel).
      * intros Hrest. apply (IH (S fuel)). exact Hrest.
Qed.

(** The enumeration ends: one call of [next] more than there are entries
    is enough. *)
Lemma get_resources_loop_total (self : DatapackageDescriptor) (name : pyval)
  (filters : list (string * pyval)) (entries : list pyval) :
  forall fuel, (length entries < fuel)%nat ->
    exists ks fin, get_resources_list self name filters fuel (DLoop entries) = Some (ks, fin).
Proof.
  induction entries as [|e entries IH]; intros [|fuel] Hlen; cbn in Hlen; try lia.
  - now exists [], None.
  - cbn [get_resources_list get_resources_next get_resources_loop].
    assert (Hskip : exists ks fin,
               get_resources_list self name filters (S fuel) (DLoop entries) = Some (ks, fin))
      by (apply IH; lia).
    assert (Hyield : forall n, exists ks fin,
               match get_resources_list self name filters fuel (DLoop entries) with
               | Some (ks, fin) =>
                   Some ({| rk_dataset := dataset self; rk_doi := doi self; rk_name := n |}
                         :: ks, fin)
               | None => None
               end = Some (ks, fin)).
    { intros n. destruct (IH fuel ltac:(lia)) as (ks & fin & ->). now eexists _, _. }
    destruct (if py_truthy name
              then result_bind (py_getitem e "name") (fun n => Ok (negb (py_eqb n name)))
              else Ok false) as [[|]|err]; [exact Hskip | | now exists [], (Some err)].
    destruct (call_matches e filters) as [[|]|err];
      [ | exact Hskip | now exists [], (Some err)].
    destruct (py_getitem e "name") as [n|err]; [apply Hyield | now exists [], (Some err)].
Qed.

Lemma get_resources_list_total (self : DatapackageDescriptor) (name : pyval)
  (filters : list (string * pyval)) :
  exists fuel ks fin, get_resources_list self name filters fuel DStart = Some (ks, fin).
Proof.
  destruct (result_bind (py_getitem (datapackage_json self) "resources")
                        (fun resources => py_iter resources))
    as [entries|err] eqn:Hres.
  - destruct (get_resources_loop_total self name filters entries (S (length entries))
                ltac:(lia)) as (ks & fin & Hlist).
    exists (S (length entries)), ks, fin. rewrite <- Hlist.
    cbn [get_resources_list get_resources_next]. now rewrite Hres.
  - exists 1%nat, [], (Some err).
    cbn [get_resources_list get_resources_next]. now rewrite Hres.
Qed.

Lemma get_resources_list_selected (self : DatapackageDescriptor) (name : pyval)
  (filters : list (string * pyval)) (entries : list pyval) (fuel : nat)
  (ks : list PudlResourceKey) :
  py_getitem (datapackage_json self) "resources" = Ok (PyList entries) ->
  get_resources_list self name filters fuel DStart = Some (ks, None) ->
  ks = map (entry_key self) (List.filter (entry_selected name filters) entries).
Proof.
  intros Hres Hlist. apply (get_resources_loop_selected self name filters entries fuel).
  destruct fuel as [|fuel]; [discriminate|].
  cbn [get_resources_list get_resources_next] in Hlist |- *.
  now rewrite Hres in Hlist.
Qed.

(** *** The keywords of the caller reach the descriptor *)

Lemma dict_has_bind_filters (filters : list (string * pyval)) (k : string) :
  dict_has filters k = false -> dict_has (bind_filters filters) k = false.
Proof.
  unfold dict_has, bind_filters.
  induction filters as [|[k' v] filters IH]; [reflexivity|].
  cbn [dict_get List.filter fst].
  destruct (String.eqb k' k) eqn:Hk; [discriminate|]. intros Hrest.
  destruct (negb (String.eqb k' "name")); [|now apply IH].
  cbn [dict_get]. rewrite Hk. now apply IH.
Qed.

Lemma dict_get_absent (filters : list (string * pyval)) (k : string) :
  ~ In k (map fst filters) -> dict_get filters k = None.
Proof.
  induction filters as [|[k' v] filters IH]; [reflexivity|].
  cbn [map fst dict_get]. intros Hnotin.
  destruct (String.eqb k' k) eqn:Hk.
  - apply String.eqb_eq in Hk. exfalso. apply Hnotin. now left.
  - apply IH. intros Hin. apply Hnotin. now right.
Qed.

Lemma forallb_keywords (N : pyval -> bool) (P : string * pyval -> bool)
  (filters : list (string * pyval)) :
  NoDup (map fst filters) ->
  forallb (fun kv => if String.eqb kv.1 "name" then N kv.2 else P kv) filters
  = match dict_get filters "name" with Some v => N v | None => true end
    && forallb P (bind_filters filters).
Proof.
  unfold bind_filters.
  induction filters as [|[k v] filters IH]; [reflexivity|].
  cbn [map fst]. intros [Hnotin Hnd]%NoDup_cons.
  cbn [forallb dict_get List.filter fst snd].
  rewrite (IH Hnd). destruct (String.eqb k "name") eqn:Hk; cbn [negb forallb].
  - apply String.eqb_eq in Hk. subst k.
    rewrite dict_get_absent; [reflexivity|].
    intros Hin. apply Hnotin. now apply list_elem_of_In.
  - now rewrite andb_comm, <- andb_assoc, (andb_comm (forallb _ _)).
Qed.

Lemma call_matches_listed (d : list (string * pyval)) (filters : list (string * pyval)) :
  match dict_get d "parts" with
  | Some p => exists items, p = PyDict items
  | None => True
  end ->
  dict_has filters "self" = false -> dict_has filters "res" = false ->
  call_matches (PyDict d) filters
  = Ok (forallb (fun kv => String.eqb (py_str (parts_get (entry_parts d) kv.1))
                                      (py_str kv.2)) filters).
Proof.
  intros Hparts Hself Hres. unfold call_matches, _matches, entry_parts.
  rewrite Hself, Hres, py_get_dict.
  destruct (dict_get d "parts") as [p|]; cbn [result_bind].
  - destruct Hparts as [items ->]. apply all_parts_match_forallb.
  - apply all_parts_match_forallb.
Qed.

Lemma entry_selected_asked_for (filters : list (string * pyval)) (e : pyval) :
  listed_entry e -> keyword_mapping filters ->
  entry_selected (bind_name filters) (bind_filters filters) e = asked_for filters e.
Proof.
  intros (d & n & -> & Hn & Hparts) (Hnd & Hself & Hres).
  unfold entry_selected, asked_for.
  rewrite (call_matches_listed d (bind_filters filters) Hparts
             (dict_has_bind_filters _ _ Hself) (dict_has_bind_filters _ _ Hres)).
  rewrite (forallb_keywords
             (fun v => negb (py_truthy v)
                       || match dict_get d "name" with
                          | Some n => py_eqb n v
                          | None => false
                          end)
             (fun kv => String.eqb (py_str (parts_get (entry_parts d) kv.1)) (py_str kv.2))
             filters Hnd).
  f_equal; [|now destruct (forallb _ (bind_filters filters))].
  unfold bind_name. cbn [py_getitem]. rewrite Hn.
  destruct (dict_get filters "name") as [v|]; [|reflexivity].
  now destruct (py_truthy v).
Qed.

(** Over listed entries the enumeration raises nothing. *)
Lemma get_resources_loop_listed (self : DatapackageDescriptor) (name : pyval)
  (filters : list (string * pyval)) (entries : list pyval) :
  Forall listed_entry entries ->
  dict_has filters "self" = false -> dict_has filters "res" = false ->
  forall fuel ks fin,
    get_resources_list self name filters fuel (DLoop entries) = Some (ks, fin) ->
    fin = None.
Proof.
  intros Hall Hself Hres.
  induction Hall as [|e entries (d & n & -> & Hn & Hparts) _ IH]; intros [|fuel] ks fin;
    try discriminate.
  - cbn. now intros [= _ <-].
  - cbn [get_resources_list get_resources_next get_resources_loop].
    rewrite (call_matches_listed d filters Hparts Hself Hres).
    rewrite (py_getitem_dict d "name" n Hn). cbn [result_bind].
    assert (Hskip : match get_resources_loop self name filters entries with
                    | (StopIteration, _) => Some ([], None)
                    | (Raised e, _) => Some ([], Some e)
                    | (Yielded k, g') =>
                        match get_resources_list self name filters fuel g' with
                        | Some (ks, e) => Some (k :: ks, e)
                        | None => None
                        end
                    end = Some (ks, fin) -> fin = None).
    { intros Hrest. now apply (IH (S fuel) ks fin). }
    assert (Hyield : match get_resources_list self name filters fuel (DLoop entries) with
                     | Some (ks0, e) =>
                         Some ({| rk_dataset := dataset self; rk_doi := doi self;
                                  rk_name := n |} :: ks0, e)
                     | None => None
                     end = Some (ks, fin) -> fin = None).
    { destruct (get_resources_list self name filters fuel (DLoop entries))
        as [[ks' fin']|] eqn:Hrest; [|discriminate].
      intros [= _ <-]. now apply (IH fuel ks' fin'). }
    destruct (py_truthy name); [destruct (negb (py_eqb n name))|];
      try exact Hskip;
      destruct (forallb _ filters); try exact Hskip; exact Hyield.
Qed.

Section ServingFacts.
Context `{External} {C : Type} `{ResourceCache C}.

(** On a hit the loop body is [cache.get]; the fetcher is not touched. *)
Lemma get_resources_body_hit (res : PudlResourceKey) (ds : Datastore C)
  (r : result bytes) (c' : C) :
  cache_contains res (cache ds) = true ->
  cache_get res (cache ds) = (r, c') ->
  get_resources_body res ds = (r, with_cache ds c').
Proof.
  intros Hhit Hget. unfold get_resources_body, bindM, gets, on_cache.
  now rewrite Hhit, Hget.
Qed.

(** On a miss it is [get_resource] of the fetcher, then [cache.set], then
    the bytes fetched. *)
Lemma get_resources_body_miss (res : PudlResourceKey) (ds : Datastore C)
  (contents : bytes) (zf' : ZenodoFetcher) (c' : C) :
  cache_contains res (cache ds) = false ->
  get_resource res (_zenodo_fetcher ds) = (Ok contents, zf') ->
  cache_set res contents (cache ds) = (Ok tt, c') ->
  get_resources_body res ds = (Ok contents, with_cache_and_fetcher ds c' zf').
Proof.
  intros Hmiss Hfetch Hset. unfold get_resources_body, bindM, gets, on_cache, on_fetcher, ret.
  rewrite Hmiss, Hfetch. cbn. now rewrite Hset.
Qed.

(** The converse: a loop body that returns has taken one of the two ways. *)
Lemma get_resources_body_inv (res : PudlResourceKey) (ds ds' : Datastore C)
  (contents : bytes) :
  get_resources_body res ds = (Ok contents, ds') ->
  (cache_contains res (cache ds) = true
   /\ cache_get res (cache ds) = (Ok contents, cache ds')
   /\ ds' = with_cache ds (cache ds'))
  \/ (cache_contains res (cache ds) = false
      /\ get_resource res (_zenodo_fetcher ds) = (Ok contents, _zenodo_fetcher ds')
      /\ cache_set res contents (cache ds) = (Ok tt, cache ds')
      /\ ds' = with_cache_and_fetcher ds (cache ds') (_zenodo_fetcher ds')).
Proof.
  unfold get_resources_body, bindM, gets, on_cache, on_fetcher, ret.
  destruct (cache_contains res (cache ds)).
  - destruct (cache_get res (cache ds)) as [r c'] eqn:Hget.
    intros [= -> <-]. left. split; [reflexivity | split; reflexivity].
  - destruct (get_resource res (_zenodo_fetcher ds)) as [[b|e] zf'] eqn:Hfetch;
      [|discriminate]. cbn.
    destruct (cache_set res b (cache ds)) as [[[]|e] c'] eqn:Hset; [|discriminate].
    intros [= -> <-]. right. cbn.
    split; [reflexivity | split; [reflexivity | split; [exact Hset | reflexivity]]].
Qed.

Lemma Datastore_get_resources_next_start (dataset : string) (filters : list (string * pyval))
  (ds ds0 : Datastore C) (desc : DatapackageDescriptor) :
  get_datapackage_descriptor dataset ds = (Ok desc, ds0) ->
  Datastore_get_resources_next dataset filters GStart ds
  = Datastore_get_resources_next dataset filters (GLoop desc DStart) ds0.
Proof. intros Hdesc. cbn [Datastore_get_resources_next]. now rewrite Hdesc. Qed.

Lemma Datastore_get_resources_take_loop (dataset : string) (filters : list (string * pyval))
  (desc : DatapackageDescriptor) (n : nat) :
  forall (ks : list PudlResourceKey) (fin : option exn) (fuel : nat) (g : dgen)
         (ds : Datastore C),
    get_resources_list desc (bind_name filters) (bind_filters filters) fuel g
    = Some (ks, fin) ->
    Datastore_get_resources_take dataset filters n (GLoop desc g) ds
    = serve_in_order (firstn n ks) (if (n <=? length ks)%nat then None else Some fin) ds.
Proof.
  induction n as [|n IH]; intros ks fin fuel g ds Hlist; [reflexivity|].
  apply get_resources_list_step in Hlist.
  cbn [Datastore_get_resources_take Datastore_get_resources_next].
  unfold Datastore_get_resources_resume.
  destruct ks as [|k ks].
  - destruct Hlist as [g' Hnext]. rewrite Hnext. now destruct fin.
  - destruct Hlist as (g' & fuel' & Hnext & Hrest). rewrite Hnext.
    cbn [firstn serve_in_order].
    destruct (get_resources_body k ds) as [[b|e] ds']; [|reflexivity].
    rewrite (IH ks fin fuel' g' ds' Hrest). reflexivity.
Qed.

Lemma Datastore_get_resources_take_start (dataset : string) (filters : list (string * pyval))
  (ds ds0 : Datastore C) (desc : DatapackageDescriptor) (fuel : nat)
  (ks : list PudlResourceKey) (fin : option exn) (n : nat) :
  get_datapackage_descriptor dataset ds = (Ok desc, ds0) ->
  get_resources_list desc (bind_name filters) (bind_filters filters) fuel DStart
  = Some (ks, fin) ->
  (0 < n)%nat ->
  Datastore_get_resources_take dataset filters n GStart ds
  = serve_in_order (firstn n ks) (if (n <=? length ks)%nat then None else Some fin) ds0.
Proof.
  intros Hdesc Hlist Hn.
  rewrite <- (Datastore_get_resources_take_loop dataset filters desc n ks fin fuel DStart
                ds0 Hlist).
  destruct n as [|n]; [lia|]. cbn [Datastore_get_resources_take].
  now rewrite (Datastore_get_resources_next_start _ _ _ _ _ Hdesc).
Qed.

(** C1.  [Datastore.get_resources(dataset, **filters)] is a generator.
    Nothing runs before the first [next], which obtains the descriptor.
    The enumeration of the descriptor always ends.  With [ks] the keys the
    descriptor enumerates for the filters:
    - [ks] are the keys of the entries of the manifest that pass the name
      test and the partition filters, one key per such entry, in the order
      of the manifest;
    - [n] calls of [next] yield the pairs of the first [n] keys of [ks], in
      that order, and leave the datastore as the loop body leaves it after
      those [n] keys: no later key has been looked up or fetched; one more
      call than there are keys ends the sequence;
    - the loop body, on a key the cache contains, is [cache.get]: the bytes
      yielded are the cached ones and the fetcher, its session included, is
      as before;
    - on a key the cache does not contain, the bytes come from
      [get_resource] of the fetcher, are written with [cache.set] and are
      then yielded;
    - the keywords of the caller are the tests: over a manifest of listed
      entries, and for a mapping of keywords a call can pass, the keys are
      those of the entries asked for -- every keyword but [name] matched
      against the parts of the entry by string form, a keyword [name]
      against its name --, one pair for each such entry and for no other,
      and the enumeration raises nothing. *)
Theorem get_resources_lazy_cache_then_fetch :
  (forall desc filters,
      exists fuel ks fin,
        get_resources_list desc (bind_name filters) (bind_filters filters) fuel DStart
        = Some (ks, fin))
  /\ (forall dataset filters (ds ds0 : Datastore C) desc fuel ks fin,
      get_datapackage_descriptor dataset ds = (Ok desc, ds0) ->
      get_resources_list desc (bind_name filters) (bind_filters filters) fuel DStart
      = Some (ks, fin) ->
      (forall entries,
          py_getitem (datapackage_json desc) "resources" = Ok (PyList entries) ->
          fin = None ->
          ks = map (entry_key desc)
                   (List.filter (entry_selected (bind_name filters) (bind_filters filters))
                                entries))
      /\ Datastore_get_resources_take dataset filters 0 GStart ds = ([], None, ds)
      /\ (forall n, (0 < n)%nat ->
            Datastore_get_resources_take dataset filters n GStart ds
            = serve_in_order (firstn n ks)
                             (if (n <=? length ks)%nat then None else Some fin) ds0))
  /\ (forall res (ds : Datastore C) cached c',
        cache_contains res (cache ds) = true ->
        cache_get res (cache ds) = (Ok cached, c') ->
        get_resources_body res ds = (Ok cached, with_cache ds c')
        /\ _zenodo_fetcher (with_cache ds c') = _zenodo_fetcher ds)
  /\ (forall res (ds : Datastore C) contents zf' c',
        cache_contains res (cache ds) = false ->
        get_resource res (_zenodo_fetcher ds) = (Ok contents, zf') ->
        cache_set res contents (cache ds) = (Ok tt, c') ->
        get_resources_body res ds = (Ok contents, with_cache_and_fetcher ds c' zf'))
  /\ (forall dataset filters (ds ds0 : Datastore C) desc entries,
        get_datapackage_descriptor dataset ds = (Ok desc, ds0) ->
        py_getitem (datapackage_json desc) "resources" = Ok (PyList entries) ->
        Forall listed_entry entries ->
        keyword_mapping filters ->
        let ks := map (entry_key desc) (List.filter (asked_for filters) entries) in
        forall n, (0 < n)%nat ->
          Datastore_get_resources_take dataset filters n GStart ds
          = serve_in_order (firstn n ks)
                           (if (n <=? length ks)%nat then None else Some None) ds0).
Proof.
  split; [|split; [|split; [|split]]].
  - intros desc filters. apply get_resources_list_total.
  - intros dataset filters ds ds0 desc fuel ks fin Hdesc Hlist. split; [|split].
    + intros entries Hres ->. now apply (get_resources_list_selected desc _ _ entries fuel).
    + reflexivity.
    + intros n Hn. now apply (Datastore_get_resources_take_start _ _ ds ds0 desc fuel).
  - intros res ds cached c' Hhit Hget. split; [|reflexivity].
    now apply get_resources_body_hit.
  - intros res ds contents zf' c'. apply get_resources_body_miss.
  - intros dataset filters ds ds0 desc entries Hdesc Hres Hall Hkw ks n Hn.
    destruct (get_resources_list_total desc (bind_name filters) (bind_filters filters))
      as (fuel & ks' & fin & Hlist).
    assert (Hfin : fin = None).
    { destruct Hkw as (_ & Hself & Hno).
      apply (get_resources_loop_listed desc (bind_name filters) (bind_filters filters)
               entries Hall (dict_has_bind_filters _ _ Hself)
               (dict_has_bind_filters _ _ Hno) fuel ks').
      destruct fuel as [|fuel]; [discriminate|].
      cbn [get_resources_list get_resources_next] in Hlist |- *.
      now rewrite Hres in Hlist. }
    subst fin.
    assert (Hks : ks' = ks).
    { rewrite (get_resources_list_selected desc _ _ entries fuel ks' Hres Hlist).
      subst ks. f_equal. apply filter_ext_in. intros e He.
      apply entry_selected_asked_for; [|exact Hkw].
      rewrite List.Forall_forall in Hall. now apply Hall. }
    subst ks'.
    now apply (Datastore_get_resources_take_start _ _ ds ds0 desc fuel).
Qed.

End ServingFacts.

Lemma get_resources_lazy_cache_then_fetch_witness :
  @Datastore_get_resources_take ex_external _ _ "eia860" [] 1 GStart ex_store
  = @serve_in_order ex_external _ _ [ex_key_2019] None ex_store_loaded
  /\ @Datastore_get_resources_take ex_external _ _ "eia860" [] 3 GStart ex_store
     = @serve_in_order ex_external _ _ [ex_key_2019; ex_key_2020] (Some None) ex_store_loaded
  /\ @Datastore_get_resources_take ex_external _ _ "eia860" [("year", PyStr "2020")] 3
                                   GStart ex_store
     = @serve_in_order ex_external _ _ [ex_key_2020] (Some None) ex_store_loaded
  /\ @Datastore_get_resources_take ex_external _ _ "eia860"
                                   [("name", PyStr "eia860-2019.zip"); ("year", PyInt 2019)]
                                   3 GStart ex_store
     = @serve_in_order ex_external _ _ [ex_key_2019] (Some None) ex_store_loaded.
Proof.
  assert (Hdesc : @get_datapackage_descriptor ex_external _ _ "eia860" ex_store
                  = (Ok ex_descriptor, ex_store_loaded)).
  { vm_compute. reflexivity. }
  assert (Hlist : get_resources_list ex_descriptor (bind_name []) (bind_filters []) 3 DStart
                  = Some ([ex_key_2019; ex_key_2020], None)).
  { vm_compute. reflexivity. }
  destruct (@get_resources_lazy_cache_then_fetch ex_external LayeredCache _)
    as (_ & Hrun & _ & _ & Hasked).
  destruct (Hrun "eia860" [] ex_store ex_store_loaded ex_descriptor 3%nat _ _ Hdesc Hlist)
    as (_ & _ & Htake).
  assert (Hres : py_getitem (datapackage_json ex_descriptor) "resources"
                 = Ok (PyList ex_entries)).
  { vm_compute. reflexivity. }
  assert (Hall : Forall listed_entry ex_entries).
  { unfold ex_entries. cbn.
    repeat constructor; eexists _, _; (split; [reflexivity|]);
      (split; [reflexivity|]); eexists; reflexivity. }
  assert (Hkw : forall filters,
             bool_decide (NoDup (map fst filters)) = true ->
             dict_has filters "self" = false -> dict_has filters "res" = false ->
             keyword_mapping filters).
  { intros filters Hnd Hself Hno. split; [|now split].
    now apply bool_decide_eq_true in Hnd. }
  split; [apply (Htake 1%nat); lia|].
  split; [apply (Htake 3%nat); lia|].
  split.
  - rewrite (Hasked "eia860" [("year", PyStr "2020")] ex_store ex_store_loaded
               ex_descriptor ex_entries Hdesc Hres Hall
               (Hkw [("year", PyStr "2020")] eq_refl eq_refl eq_refl) 3%nat);
      [reflexivity | lia].
  - rewrite (Hasked "eia860" [("name", PyStr "eia860-2019.zip"); ("year", PyInt 2019)]
               ex_store ex_store_loaded ex_descriptor ex_entries Hdesc Hres Hall
               (Hkw [("name", PyStr "eia860-2019.zip"); ("year", PyInt 2019)]
                    eq_refl eq_refl eq_refl) 3%nat);
      [reflexivity | lia].
Defined.

Section Unique.
Context `{External} {C : Type} `{ResourceCache C}.

Lemma Datastore_get_resources_resume_step (filters : list (string * pyval))
  (desc : DatapackageDescriptor) (fuel : nat) (g : dgen) (ds : Datastore C)
  (ks : list PudlResourceKey) (fin : option exn) :
  get_resources_list desc (bind_name filters) (bind_filters filters) fuel g = Some (ks, fin) ->
  match ks with
  | [] =>
      Datastore_get_resources_resume filters desc g ds
      = (match fin with None => StopIteration | Some e => Raised e end, GDone, ds)
  | k :: ks' =>
      exists g' fuel',
        get_resources_list desc (bind_name filters) (bind_filters filters) fuel' g'
        = Some (ks', fin)
        /\ Datastore_get_resources_resume filters desc g ds
           = match get_resources_body k ds with
             | (Raise e, ds') => (Raised e, GDone, ds')
             | (Ok contents, ds') => (Yielded (k, contents), GLoop desc g', ds')
             end
  end.
Proof.
  intros Hlist. apply get_resources_list_step in Hlist.
  unfold Datastore_get_resources_resume. destruct ks as [|k ks'].
  - destruct Hlist as [g' ->]. now destruct fin.
  - destruct Hlist as (g' & fuel' & -> & Hrest). now exists g', fuel'.
Qed.

(** [get_unique_resource], by the number of keys. *)
Lemma get_unique_resource_run
  (dataset : string) (filters : list (string * pyval)) (ds ds0 : Datastore C)
  (desc : DatapackageDescriptor) (fuel : nat) (ks : list PudlResourceKey)
  (fin : option exn) :
  get_datapackage_descriptor dataset ds = (Ok desc, ds0) ->
  get_resources_list desc (bind_name filters) (bind_filters filters) fuel DStart
  = Some (ks, fin) ->
  match ks with
  | [] =>
      fin = None ->
      get_unique_resource dataset filters ds = (Raise (no_resources_found dataset filters), ds0)
  | [k] =>
      fin = None ->
      forall contents ds1,
        get_resources_body k ds0 = (Ok contents, ds1) ->
        get_unique_resource dataset filters ds = (Ok contents, ds1)
  | k1 :: k2 :: _ =>
      forall contents1 ds1 contents2 ds2,
        get_resources_body k1 ds0 = (Ok contents1, ds1) ->
        get_resources_body k2 ds1 = (Ok contents2, ds2) ->
        get_unique_resource dataset filters ds
        = (Raise (multiple_resources_found dataset filters), ds2)
  end.
Proof.
  intros Hdesc Hlist. unfold get_unique_resource.
  rewrite (Datastore_get_resources_next_start _ _ _ _ _ Hdesc).
  cbn [Datastore_get_resources_next].
  pose proof (Datastore_get_resources_resume_step filters desc fuel DStart ds0 ks fin Hlist)
    as Hfirst.
  destruct ks as [|k1 ks1].
  - intros ->. now rewrite Hfirst.
  - destruct Hfirst as (g1 & fuel1 & Hrest & ->).
    destruct ks1 as [|k2 ks2].
    + intros -> contents ds1 Hbody. rewrite Hbody. cbn [Datastore_get_resources_next].
      now rewrite (Datastore_get_resources_resume_step filters desc fuel1 g1 ds1 [] None Hrest).
    + intros contents1 ds1 contents2 ds2 Hbody1 Hbody2. rewrite Hbody1.
      cbn [Datastore_get_resources_next].
      destruct (Datastore_get_resources_resume_step filters desc fuel1 g1 ds1 _ _ Hrest)
        as (g2 & fuel2 & _ & ->).
      now rewrite Hbody2.
Qed.

(** An exception of the first or of the second retrieval is the exception of
    [get_unique_resource]: the second key is retrieved before the ambiguity
    is reported. *)
Lemma get_unique_resource_retrieval_raises
  (dataset : string) (filters : list (string * pyval)) (ds ds0 : Datastore C)
  (desc : DatapackageDescriptor) (fuel : nat) (k1 : PudlResourceKey)
  (ks : list PudlResourceKey) (fin : option exn) :
  get_datapackage_descriptor dataset ds = (Ok desc, ds0) ->
  get_resources_list desc (bind_name filters) (bind_filters filters) fuel DStart
  = Some (k1 :: ks, fin) ->
  (forall e ds1,
      get_resources_body k1 ds0 = (Raise e, ds1) ->
      get_unique_resource dataset filters ds = (Raise e, ds1))
  /\ (forall k2 rest contents1 ds1 e ds2,
        ks = k2 :: rest ->
        get_resources_body k1 ds0 = (Ok contents1, ds1) ->
        get_resources_body k2 ds1 = (Raise e, ds2) ->
        get_unique_resource dataset filters ds = (Raise e, ds2)).
Proof.
  intros Hdesc Hlist. unfold get_unique_resource.
  rewrite (Datastore_get_resources_next_start _ _ _ _ _ Hdesc).
  cbn [Datastore_get_resources_next].
  destruct (Datastore_get_resources_resume_step filters desc fuel DStart ds0 _ fin Hlist)
    as (g1 & fuel1 & Hrest & ->).
  split.
  - intros e ds1 Hbody. now rewrite Hbody.
  - intros k2 rest contents1 ds1 e ds2 -> Hbody1 Hbody2. rewrite Hbody1.
    cbn [Datastore_get_resources_next].
    destruct (Datastore_get_resources_resume_step filters desc fuel1 g1 ds1 _ _ Hrest)
      as (g2 & fuel2 & _ & ->).
    now rewrite Hbody2.
Qed.

(** C2.  Once the descriptor is obtained, with [ks] the keys it enumerates
    for the filters, [get_unique_resource]:
    - raises the [KeyError] "No resources found" when there is no key;
    - returns the bytes of the one key when there is exactly one and its
      bytes are retrieved;
    - raises the [KeyError] "Multiple resources found" when there are two
      keys or more and the bytes of the first two are retrieved.
    The datastore left is the one after the retrievals made.  The two
    errors are of the class [KeyError] and differ by their message. *)
Theorem get_unique_resource_zero_one_many
  (dataset : string) (filters : list (string * pyval)) (ds ds0 : Datastore C)
  (desc : DatapackageDescriptor) (fuel : nat) (ks : list PudlResourceKey)
  (fin : option exn) :
  get_datapackage_descriptor dataset ds = (Ok desc, ds0) ->
  get_resources_list desc (bind_name filters) (bind_filters filters) fuel DStart
  = Some (ks, fin) ->
  match ks with
  | [] =>
      fin = None ->
      get_unique_resource dataset filters ds = (Raise (no_resources_found dataset filters), ds0)
  | [k] =>
      fin = None ->
      forall contents ds1,
        get_resources_body k ds0 = (Ok contents, ds1) ->
        get_unique_resource dataset filters ds = (Ok contents, ds1)
  | k1 :: k2 :: _ =>
      forall contents1 ds1 contents2 ds2,
        get_resources_body k1 ds0 = (Ok contents1, ds1) ->
        get_resources_body k2 ds1 = (Ok contents2, ds2) ->
        get_unique_resource dataset filters ds
        = (Raise (multiple_resources_found dataset filters), ds2)
  end
  /\ no_resources_found dataset filters <> multiple_resources_found dataset filters.
Proof.
  intros Hdesc Hlist. split; [|discriminate].
  exact (get_unique_resource_run dataset filters ds ds0 desc fuel ks fin Hdesc Hlist).
Qed.

End Unique.

Lemma get_unique_resource_zero_one_many_witness :
  @get_unique_resource ex_external _ _ "eia860" [("year", PyStr "2021")] ex_store
  = (Raise (KeyError "No resources found for eia860: {'year': '2021'}"), ex_store_loaded)
  /\ @get_unique_resource ex_external _ _ "eia860" [("year", PyStr "2020")] ex_store
     = (Ok (utf8_encode "zip-2020"),
        (@get_resources_body ex_external _ _ ex_key_2020 ex_store_loaded).2)
  /\ @get_unique_resource ex_external _ _ "eia860" [] ex_store
     = (Raise (KeyError "Multiple resources found for eia860: {}"),
        (@get_resources_body ex_external _ _ ex_key_2020
           (@get_resources_body ex_external _ _ ex_key_2019 ex_store_loaded).2).2).
Proof.
  assert (Hdesc : @get_datapackage_descriptor ex_external _ _ "eia860" ex_store
                  = (Ok ex_descriptor, ex_store_loaded)).
  { vm_compute. reflexivity. }
  split; [|split].
  - refine (proj1 (@get_unique_resource_zero_one_many ex_external LayeredCache _
              "eia860" [("year", PyStr "2021")] ex_store ex_store_loaded ex_descriptor
              3%nat [] None Hdesc _) eq_refl).
    vm_compute. reflexivity.
  - refine (proj1 (@get_unique_resource_zero_one_many ex_external LayeredCache _
              "eia860" [("year", PyStr "2020")] ex_store ex_store_loaded ex_descriptor
              3%nat [ex_key_2020] None Hdesc _) eq_refl _ _ _).
    + vm_compute. reflexivity.
    + vm_compute. reflexivity.
  - refine (proj1 (@get_unique_resource_zero_one_many ex_external LayeredCache _
              "eia860" [] ex_store ex_store_loaded ex_descriptor
              3%nat [ex_key_2019; ex_key_2020] None Hdesc _)
              (utf8_encode "zip-2019") _ (utf8_encode "zip-2020") _ _ _).
    + vm_compute. reflexivity.
    + vm_compute. reflexivity.
    + vm_compute. reflexivity.
Defined.

(** C10.  A call of [get_unique_resource] that ends in the [KeyError]
    "Multiple resources found" has run the loop body for the first two keys
    before it raises.  For each of the two: when the cache held the key, the
    bytes were read with [cache.get] and the fetcher was left alone; when it
    did not, the bytes were fetched with [get_resource] and written with
    [cache.set].  The datastore the call leaves is the one after these two
    retrievals, and it can differ from the one the call started with: on the
    archive [ex_external], with one empty writable layer, the call that
    reports the ambiguity leaves the two resources in the cache. *)
Theorem get_unique_resource_ambiguity_fills_cache :
  (forall (ext : External) (C : Type) (rc : ResourceCache C)
          dataset filters (ds ds0 ds1 ds2 : Datastore C) desc fuel k1 k2 rest fin
          contents1 contents2,
      get_datapackage_descriptor dataset ds = (Ok desc, ds0) ->
      get_resources_list desc (bind_name filters) (bind_filters filters) fuel DStart
      = Some (k1 :: k2 :: rest, fin) ->
      get_resources_body k1 ds0 = (Ok contents1, ds1) ->
      get_resources_body k2 ds1 = (Ok contents2, ds2) ->
      get_unique_resource dataset filters ds
      = (Raise (multiple_resources_found dataset filters), ds2)
      /\ (cache_contains k1 (cache ds0) = true ->
          cache_get k1 (cache ds0) = (Ok contents1, cache ds1)
          /\ _zenodo_fetcher ds1 = _zenodo_fetcher ds0)
      /\ (cache_contains k1 (cache ds0) = false ->
          get_resource k1 (_zenodo_fetcher ds0) = (Ok contents1, _zenodo_fetcher ds1)
          /\ cache_set k1 contents1 (cache ds0) = (Ok tt, cache ds1))
      /\ (cache_contains k2 (cache ds1) = true ->
          cache_get k2 (cache ds1) = (Ok contents2, cache ds2)
          /\ _zenodo_fetcher ds2 = _zenodo_fetcher ds1)
      /\ (cache_contains k2 (cache ds1) = false ->
          get_resource k2 (_zenodo_fetcher ds1) = (Ok contents2, _zenodo_fetcher ds2)
          /\ cache_set k2 contents2 (cache ds1) = (Ok tt, cache ds2)))
  /\ (exists ds2 : Datastore LayeredCache,
        @get_unique_resource ex_external _ _ "eia860" [] ex_store
        = (Raise (multiple_resources_found "eia860" []), ds2)
        /\ cache ds2 <> cache ex_store
        /\ LayeredCache_contains ex_key_2019 (cache ex_store) = false
        /\ LayeredCache_contains ex_key_2020 (cache ex_store) = false
        /\ LayeredCache_contains ex_key_2019 (cache ds2) = true
        /\ LayeredCache_contains ex_key_2020 (cache ds2) = true).
Proof.
  split.
  - intros ext C rc dataset filters ds ds0 ds1 ds2 desc fuel k1 k2 rest fin contents1
           contents2 Hdesc Hlist Hbody1 Hbody2.
    split.
    { exact (get_unique_resource_run dataset filters ds ds0 desc fuel _ fin
               Hdesc Hlist contents1 ds1 contents2 ds2 Hbody1 Hbody2). }
    apply get_resources_body_inv in Hbody1, Hbody2.
    repeat split.
    + destruct Hbody1 as [(_ & Hget & _)|(Hmiss & _)]; [exact Hget | congruence].
    + destruct Hbody1 as [(_ & _ & ->)|(Hmiss & _)]; [reflexivity | congruence].
    + destruct Hbody1 as [(Hhit & _)|(_ & Hfetch & _)]; [congruence | exact Hfetch].
    + destruct Hbody1 as [(Hhit & _)|(_ & _ & Hset & _)]; [congruence | exact Hset].
    + destruct Hbody2 as [(_ & Hget & _)|(Hmiss & _)]; [exact Hget | congruence].
    + destruct Hbody2 as [(_ & _ & ->)|(Hmiss & _)]; [reflexivity | congruence].
    + destruct Hbody2 as [(Hhit & _)|(_ & Hfetch & _)]; [congruence | exact Hfetch].
    + destruct Hbody2 as [(Hhit & _)|(_ & _ & Hset & _)]; [congruence | exact Hset].
  - eexists. split; [vm_compute; reflexivity|].
    split; [|repeat split; vm_compute; reflexivity].
    vm_compute. discriminate.
Qed.

Lemma get_unique_resource_ambiguity_fills_cache_witness :
  @get_unique_resource ex_external _ _ "eia860" [] ex_store
  = (Raise (multiple_resources_found "eia860" []),
     (@get_resources_body ex_external _ _ ex_key_2020
        (@get_resources_body ex_external _ _ ex_key_2019 ex_store_loaded).2).2)
  /\ @cache_set _ LayeredCache_cache ex_key_2019 (utf8_encode "zip-2019")
       (cache ex_store_loaded)
     = (Ok tt, cache (@get_resources_body ex_external _ _ ex_key_2019 ex_store_loaded).2).
Proof.
  assert (Hdesc : @get_datapackage_descriptor ex_external _ _ "eia860" ex_store
                  = (Ok ex_descriptor, ex_store_loaded)).
  { vm_compute. reflexivity. }
  assert (Hlist : get_resources_list ex_descriptor (bind_name []) (bind_filters []) 3 DStart
                  = Some ([ex_key_2019; ex_key_2020], None)).
  { vm_compute. reflexivity. }
  assert (Hbody1 : @get_resources_body ex_external _ _ ex_key_2019 ex_store_loaded
                   = (Ok (utf8_encode "zip-2019"),
                      (@get_resources_body ex_external _ _ ex_key_2019 ex_store_loaded).2)).
  { vm_compute. reflexivity. }
  assert (Hbody2 : @get_resources_body ex_external _ _ ex_key_2020
                     (@get_resources_body ex_external _ _ ex_key_2019 ex_store_loaded).2
                   = (Ok (utf8_encode "zip-2020"),
                      (@get_resources_body ex_external _ _ ex_key_2020
                         (@get_resources_body ex_external _ _ ex_key_2019
                            ex_store_loaded).2).2)).
  { vm_compute. reflexivity. }
  destruct (proj1 get_unique_resource_ambiguity_fills_cache ex_external LayeredCache _
              "eia860" [] ex_store ex_store_loaded _ _ ex_descriptor 3%nat _ _ _ _ _ _
              Hdesc Hlist Hbody1 Hbody2) as (Hraise & _ & Hmiss1 & _).
  split; [exact Hraise|].
  apply Hmiss1. vm_compute. reflexivity.
Defined.

(** * Further properties *)

(** ** From a DOI to the URL of the deposition *)

Lemma str_app_cons (c : ascii) (a b : string) : String c a +:+ b = String c (a +:+ b).
Proof. reflexivity. Qed.

Lemma str_app_nil_r (s : string) : s +:+ EmptyString = s.
Proof. induction s as [|c s IH]; [reflexivity|]. rewrite str_app_cons. now rewrite IH. Qed.

Lemma re_match_zenodo_not_z (c : ascii) (s : string) :
  Ascii.eqb c "z" = false -> re_match_zenodo (String c s) = None.
Proof.
  intros Hc. unfold re_match_zenodo. cbn [strip_prefix].
  rewrite Ascii.eqb_sym, Hc. reflexivity.
Qed.

Lemma re_search_zenodo_skip (p s : string) :
  str_contains "z" p = false -> re_search_zenodo (p +:+ s) = re_search_zenodo s.
Proof.
  induction p as [|c p IH]; [reflexivity|]. cbn [str_contains].
  intros [Hc Hp]%orb_false_iff. rewrite str_app_cons.
  change (re_search_zenodo (String c (p +:+ s)))
    with (match re_match_zenodo (String c (p +:+ s)) with
          | Some ds => Some ds
          | None => re_search_zenodo (p +:+ s)
          end).
  rewrite re_match_zenodo_not_z by exact Hc. now apply IH.
Qed.

Lemma re_search_zenodo_none (s : string) :
  str_contains "z" s = false -> re_search_zenodo s = None.
Proof.
  induction s as [|c s IH]; [reflexivity|]. cbn [str_contains].
  intros [Hc Hs]%orb_false_iff.
  change (re_search_zenodo (String c s))
    with (match re_match_zenodo (String c s) with
          | Some ds => Some ds
          | None => re_search_zenodo s
          end).
  rewrite re_match_zenodo_not_z by exact Hc. now apply IH.
Qed.

Lemma leading_digits_app (ds rest : string) :
  all_digits ds = true -> starts_with_digit rest = false ->
  leading_digits (ds +:+ rest) = ds.
Proof.
  induction ds as [|c ds IH]; cbn [all_digits].
  - intros _ Hrest. destruct rest as [|c rest]; [reflexivity|].
    change (leading_digits (String c rest) = EmptyString).
    cbn [starts_with_digit] in Hrest. cbn [leading_digits]. now rewrite Hrest.
  - intros [Hc Hds]%andb_true_iff Hrest. rewrite str_app_cons. cbn [leading_digits].
    rewrite Hc. f_equal. now apply IH.
Qed.

Lemma is_digit_pretty_N_char (x : N) : is_digit (pretty_N_char x) = true.
Proof. unfold pretty_N_char. repeat case_match; reflexivity. Qed.

Lemma ord_pretty_N_char (x : N) : (x < 10)%N -> (ord (pretty_N_char x) - 48)%N = x.
Proof.
  intros Hx. unfold pretty_N_char. repeat case_match; subst; try reflexivity.
  all: change (ord "9" - 48)%N with 9%N; lia.
Qed.

Lemma all_digits_pretty_N_go (x : N) :
  forall s, all_digits (pretty_N_go x s) = all_digits s.
Proof.
  induction (N.lt_wf_0 x) as [x _ IH]. intros s.
  destruct (N.eq_dec x 0) as [->|Hx]; [reflexivity|].
  rewrite pretty_N_go_step by lia.
  rewrite IH by (apply N.div_lt; lia).
  cbn [all_digits]. now rewrite is_digit_pretty_N_char.
Qed.

Lemma int_of_digits_pretty_N_go (x : N) :
  forall s, exists k : N, forall acc,
    int_of_digits acc (pretty_N_go x s) = int_of_digits (acc * 10 ^ k + x)%N s.
Proof.
  induction (N.lt_wf_0 x) as [x _ IH]. intros s.
  destruct (N.eq_dec x 0) as [->|Hx].
  - exists 0%N. intros acc. rewrite pretty_N_go_0. f_equal. lia.
  - rewrite pretty_N_go_step by lia.
    destruct (IH (x `div` 10)%N ltac:(apply N.div_lt; lia)
                (String (pretty_N_char (x `mod` 10)) s)) as [k Hk].
    exists (N.succ k). intros acc. rewrite Hk. cbn [int_of_digits]. f_equal.
    rewrite ord_pretty_N_char by (apply N.mod_lt; lia).
    rewrite N.pow_succ_r'. pose proof (N.div_mod x 10 ltac:(lia)). lia.
Qed.

Lemma int_of_digits_pretty (n : N) : int_of_digits 0 (pretty n) = n.
Proof.
  unfold pretty, pretty_N. case_decide as Hn; [now subst|].
  destruct (int_of_digits_pretty_N_go n EmptyString) as [k Hk].
  rewrite Hk. cbn [int_of_digits]. lia.
Qed.

Lemma all_digits_pretty (n : N) : all_digits (pretty n) = true.
Proof.
  unfold pretty, pretty_N. case_decide; [reflexivity|].
  now rewrite all_digits_pretty_N_go.
Qed.

Lemma pretty_N_nonempty (n : N) : pretty n <> EmptyString.
Proof.
  intros Hempty. pose proof (int_of_digits_pretty n) as Hn.
  rewrite Hempty in Hn. cbn in Hn. subst n. discriminate Hempty.
Qed.

Lemma re_match_zenodo_digits (c : ascii) (ds rest : string) :
  c <> newline -> ds <> EmptyString -> all_digits ds = true ->
  starts_with_digit rest = false ->
  re_match_zenodo ("zenodo" +:+ String c (ds +:+ rest)) = Some ds.
Proof.
  intros Hc Hne Hds Hrest. unfold re_match_zenodo.
  change (strip_prefix "zenodo" ("zenodo" +:+ String c (ds +:+ rest)))
    with (Some (String c (ds +:+ rest))).
  cbv beta iota.
  rewrite leading_digits_app by assumption.
  destruct ds; [contradiction|].
  destruct (Ascii.eqb_spec c newline) as [Heq|_]; [contradiction|reflexivity].
Qed.

(** X1.  [_doi_to_url] on a DOI whose text before [zenodo] has no [z]:
    the identifier is the run of digits after [zenodo] and one more
    character (any but a newline), read as a number, so leading zeros are
    dropped; the URL is [<api_root>/deposit/depositions/<id>].  In
    particular the DOI [<prefix>zenodo.<n>] gives the deposition [n], for
    every number [n].  A DOI without any [z] is refused with the
    [ValueError] "Invalid doi". *)
Theorem _doi_to_url_reads_the_identifier (zf : ZenodoFetcher) :
  (forall p c ds rest,
      str_contains "z" p = false -> c <> newline ->
      ds <> EmptyString -> all_digits ds = true -> starts_with_digit rest = false ->
      _doi_to_url zf (p +:+ "zenodo" +:+ String c (ds +:+ rest))
      = Ok (_api_root zf +:+ "/deposit/depositions/" +:+ pretty (int_of_digits 0 ds)))
  /\ (forall p (n : N),
        str_contains "z" p = false ->
        _doi_to_url zf (p +:+ "zenodo." +:+ pretty n)
        = Ok (_api_root zf +:+ "/deposit/depositions/" +:+ pretty n))
  /\ (forall doi,
        str_contains "z" doi = false ->
        _doi_to_url zf doi = Raise (ValueError ("Invalid doi " +:+ doi))).
Proof.
  assert (Hgeneral : forall p c ds rest,
      str_contains "z" p = false -> c <> newline ->
      ds <> EmptyString -> all_digits ds = true -> starts_with_digit rest = false ->
      _doi_to_url zf (p +:+ "zenodo" +:+ String c (ds +:+ rest))
      = Ok (_api_root zf +:+ "/deposit/depositions/" +:+ pretty (int_of_digits 0 ds))).
  { intros p c ds rest Hp Hc Hne Hds Hrest. unfold _doi_to_url.
    rewrite re_search_zenodo_skip by exact Hp.
    assert (Hsearch : re_search_zenodo ("zenodo" +:+ String c (ds +:+ rest)) = Some ds).
    { change (re_search_zenodo ("zenodo" +:+ String c (ds +:+ rest)))
        with (match re_match_zenodo ("zenodo" +:+ String c (ds +:+ rest)) with
              | Some ds => Some ds
              | None => re_search_zenodo ("enodo" +:+ String c (ds +:+ rest))
              end).
      now rewrite re_match_zenodo_digits. }
    now rewrite Hsearch. }
  split; [exact Hgeneral|]. split.
  - intros p n Hp.
    pose proof (Hgeneral p "."%char (pretty n) EmptyString Hp ltac:(discriminate)
                  (pretty_N_nonempty n) (all_digits_pretty n) eq_refl) as Hurl.
    rewrite int_of_digits_pretty, str_app_nil_r in Hurl. exact Hurl.
  - intros doi Hdoi. unfold _doi_to_url. now rewrite re_search_zenodo_none.
Qed.

Lemma _doi_to_url_reads_the_identifier_witness :
  _doi_to_url (ZenodoFetcher_init true 15) "10.5072/zenodo.0674992;v2"
  = Ok "https://sandbox.zenodo.org/api/deposit/depositions/674992"
  /\ _doi_to_url (ZenodoFetcher_init false 15) "10.5281/record.4127049"
     = Raise (ValueError "Invalid doi 10.5281/record.4127049").
Proof.
  destruct (_doi_to_url_reads_the_identifier (ZenodoFetcher_init true 15))
    as (Hds & _ & _).
  destruct (_doi_to_url_reads_the_identifier (ZenodoFetcher_init false 15))
    as (_ & _ & Hbad).
  split.
  - exact (Hds "10.5072/" "."%char "0674992" ";v2" eq_refl ltac:(discriminate)
             ltac:(discriminate) eq_refl eq_refl).
  - exact (Hbad "10.5281/record.4127049" eq_refl).
Defined.

(** ** The known datasets *)

Lemma sorted_keys_perm {A : Type} (d : gmap string A) :
  sorted_keys d ≡ₚ (map_to_list d).*1.
Proof.
  unfold sorted_keys.
  change (map fst (sort_items (map (fun kv : string * A => (kv.1, tt)) (map_to_list d))))
    with (fst <$> sort_items (map (fun kv : string * A => (kv.1, tt)) (map_to_list d))).
  rewrite sort_items_perm.
  generalize (map_to_list d). intros l.
  induction l as [|kv l IH]; [reflexivity|]. cbn. now rewrite IH.
Qed.

Lemma sorted_keys_elem_of {A : Type} (d : gmap string A) (k : string) :
  k ∈ sorted_keys d <-> is_Some (d !! k).
Proof.
  rewrite sorted_keys_perm, list_elem_of_fmap. split.
  - intros [[k' v] [-> Hin]]. apply elem_of_map_to_list in Hin. now exists v.
  - intros [v Hv]. exists (k, v). split; [reflexivity|]. now apply elem_of_map_to_list.
Qed.

Lemma sorted_keys_sorted {A : Type} (d : gmap string A) : Sorted String.le (sorted_keys d).
Proof.
  unfold sorted_keys.
  apply (Sorted_fmap fst key_le String.le); [auto|]. apply sort_items_sorted.
Qed.

(** X2.  [get_known_datasets] lists exactly the datasets of the DOI table of
    the fetcher -- those for which [get_doi] and [get_resource_key] return
    rather than raise [KeyError] --, each once, in increasing order of their
    names; [Datastore.get_known_datasets] gives the list of its fetcher. *)
Theorem get_known_datasets_sorted_exact (zf : ZenodoFetcher) :
  (forall d, In d (get_known_datasets zf) <-> exists doi, get_doi zf d = Ok doi)
  /\ (forall d name, In d (get_known_datasets zf)
                     <-> exists k, get_resource_key zf d name = Ok k)
  /\ NoDup (get_known_datasets zf)
  /\ Sorted String.le (get_known_datasets zf)
  /\ (forall (C : Type) (ds : Datastore C),
        _zenodo_fetcher ds = zf -> Datastore_get_known_datasets ds = get_known_datasets zf).
Proof.
  assert (Hin : forall d, In d (get_known_datasets zf)
                          <-> is_Some (_dataset_to_doi zf !! d)).
  { intros d. rewrite <- list_elem_of_In. apply sorted_keys_elem_of. }
  split; [|split; [|split; [|split]]].
  - intros d. rewrite Hin. unfold get_doi.
    destruct (_dataset_to_doi zf !! d) as [doi|]; split.
    + intros _. now exists doi.
    + intros _. now exists doi.
    + intros [doi Hdoi]. discriminate Hdoi.
    + intros [doi Hdoi]. discriminate Hdoi.
  - intros d name. rewrite Hin. unfold get_resource_key.
    destruct (_dataset_to_doi zf !! d) as [doi|]; split.
    + intros _. now eexists.
    + intros _. now exists doi.
    + intros [doi Hdoi]. discriminate Hdoi.
    + intros [k Hk]. discriminate Hk.
  - unfold get_known_datasets. rewrite sorted_keys_perm. apply NoDup_fst_map_to_list.
  - apply sorted_keys_sorted.
  - intros C ds <-. reflexivity.
Qed.

Lemma get_known_datasets_sorted_exact_witness :
  In "ferc1" (get_known_datasets (ZenodoFetcher_init true 15))
  /\ @Datastore_get_known_datasets LayeredCache ex_store
     = get_known_datasets (ZenodoFetcher_init false 15).
Proof.
  split.
  - apply (proj1 (get_known_datasets_sorted_exact (ZenodoFetcher_init true 15))).
    eexists. vm_compute. reflexivity.
  - now apply (get_known_datasets_sorted_exact (ZenodoFetcher_init false 15)).
Defined.

(** ** The requests of the fetcher *)

Lemma sends_refl (zf : ZenodoFetcher) : sends 0 zf zf.
Proof.
  split; [now repeat split|]. exists []. rewrite app_nil_r. now repeat split.
Qed.

Lemma sends_mono (n m : nat) (zf zf' : ZenodoFetcher) :
  (n <= m)%nat -> sends n zf zf' -> sends m zf zf'.
Proof.
  intros Hle (Hcfg & extra & Hhttp & Hlen & Hall). split; [exact Hcfg|].
  exists extra. split; [exact Hhttp|]. split; [lia | exact Hall].
Qed.

Lemma sends_after_request (n : nat) (zf0 zf : ZenodoFetcher) (u : pyval) :
  sends n zf0 zf -> sends (S n) zf0 (after_request zf u).
Proof.
  intros ((Hroot & Htoken & Htable & Htimeout & Hretry) & extra & Hhttp & Hlen & Hall).
  split; [now repeat split|].
  exists (extra ++ [request_for zf u]). cbn. rewrite Hhttp, <- app_assoc.
  split; [reflexivity|]. split; [rewrite length_app; cbn; lia|].
  apply Forall_app. split; [exact Hall|]. constructor; [|constructor]. cbn.
  now rewrite Htoken, Htimeout.
Qed.

Lemma sends_set_descriptor_cache (n : nat) (zf0 zf : ZenodoFetcher)
  (memo : gmap string DatapackageDescriptor) :
  sends n zf0 zf -> sends n zf0 (set_descriptor_cache zf memo).
Proof. intros Hsends. exact Hsends. Qed.

Section Requests.
Context `{External}.

Lemma _fetch_from_url_sends (n : nat) (zf0 : ZenodoFetcher) (u : pyval) :
  triple (sends n zf0) (_fetch_from_url u) (fun _ zf => sends (S n) zf0 zf) (sends (S n) zf0).
Proof.
  unfold _fetch_from_url.
  eapply triple_bind with (R := fun self zf => sends n zf0 zf /\ self = zf);
    [now apply triple_gets|]. intros self.
  eapply triple_bind with (R := fun _ zf => sends (S n) zf0 zf).
  { apply triple_modify. intros zf [Hzf ->]. now apply sends_after_request. }
  intros _.
  eapply triple_bind; [apply triple_lift_keep|]. intros response. cbn beta.
  destruct (status_code response =? 200); [now apply triple_ret | now apply triple_throw].
Qed.

Lemma triple_lift_to {S A : Type} (P Q : S -> Prop) (r : result A) :
  (forall s, P s -> Q s) -> triple P (lift r) (fun _ s => P s) Q.
Proof. intros HPQ. apply triple_lift; auto. Qed.

Lemma get_descriptor_loop_sends (n : nat) (zf0 : ZenodoFetcher) (dataset doi : string)
  (files : list pyval) :
  triple (sends n zf0) (get_descriptor_loop dataset doi files)
         (fun _ zf => sends (S n) zf0 zf) (sends (S n) zf0).
Proof.
  assert (Hup : forall zf, sends n zf0 zf -> sends (S n) zf0 zf).
  { intros zf. apply sends_mono. lia. }
  induction files as [|f rest IH]; cbn [get_descriptor_loop].
  - now apply triple_throw.
  - eapply triple_bind; [apply (triple_lift_to _ _ _ Hup)|]. intros filename. cbn beta.
    destruct (py_eqb filename (PyStr "datapackage.json")); [|exact IH].
    eapply triple_bind; [apply (triple_lift_to _ _ _ Hup)|]. intros links.
    eapply triple_bind; [apply (triple_lift_to _ _ _ Hup)|]. intros download.
    eapply triple_bind; [apply _fetch_from_url_sends|]. intros resp.
    eapply triple_bind; [apply triple_lift_keep|]. intros j.
    eapply triple_bind; [apply triple_lift_keep|]. intros d.
    apply triple_modify. intros zf Hzf. exact Hzf.
Qed.

Lemma get_descriptor_fetch_sends (zf0 : ZenodoFetcher) (dataset doi : string) :
  triple (sends 0 zf0) (get_descriptor_fetch dataset doi)
         (fun _ zf => sends 2 zf0 zf) (sends 2 zf0).
Proof.
  assert (Hup0 : forall zf, sends 0 zf0 zf -> sends 2 zf0 zf).
  { intros zf. apply sends_mono. lia. }
  assert (Hup1 : forall zf, sends 1 zf0 zf -> sends 2 zf0 zf).
  { intros zf. apply sends_mono. lia. }
  unfold get_descriptor_fetch.
  eapply triple_bind with (R := fun _ zf => sends 0 zf0 zf); [now apply triple_gets|].
  intros self.
  eapply triple_bind; [apply (triple_lift_to _ _ _ Hup0)|]. intros u.
  eapply triple_bind with (R := fun _ zf => sends 1 zf0 zf).
  { eapply triple_weaken; [apply (_fetch_from_url_sends 0 zf0) | | | ]; cbn beta; auto. }
  intros dpkg. cbn beta.
  eapply triple_bind; [apply (triple_lift_to _ _ _ Hup1)|]. intros j.
  eapply triple_bind; [apply (triple_lift_to _ _ _ Hup1)|]. intros files.
  eapply triple_bind; [apply (triple_lift_to _ _ _ Hup1)|]. intros items.
  apply get_descriptor_loop_sends.
Qed.

Lemma get_descriptor_sends (zf0 : ZenodoFetcher) (dataset : string) :
  triple (sends 0 zf0) (get_descriptor dataset) (fun _ zf => sends 2 zf0 zf) (sends 2 zf0).
Proof.
  assert (Hup0 : forall zf, sends 0 zf0 zf -> sends 2 zf0 zf).
  { intros zf. apply sends_mono. lia. }
  unfold get_descriptor.
  eapply triple_bind with (R := fun _ zf => sends 0 zf0 zf); [now apply triple_gets|].
  intros table.
  destruct (table !! dataset) as [doi|]; [|apply triple_throw; auto].
  destruct (String.eqb doi EmptyString); [apply triple_throw; auto|].
  eapply triple_bind with (R := fun _ zf => sends 0 zf0 zf); [now apply triple_gets|].
  intros known.
  eapply triple_bind with (R := fun _ zf => sends 2 zf0 zf).
  { destruct (known !! doi); [apply triple_ret; auto | apply get_descriptor_fetch_sends]. }
  intros _.
  eapply triple_bind with (R := fun _ zf => sends 2 zf0 zf); [now apply triple_gets|].
  intros known'. apply triple_lift; auto.
Qed.

Lemma get_resource_sends (zf0 : ZenodoFetcher) (res : PudlResourceKey) :
  triple (sends 0 zf0) (get_resource res) (fun _ zf => sends 3 zf0 zf) (sends 3 zf0).
Proof.
  assert (Hup2 : forall zf, sends 2 zf0 zf -> sends 3 zf0 zf).
  { intros zf. apply sends_mono. lia. }
  unfold get_resource.
  eapply triple_bind with (R := fun _ zf => sends 2 zf0 zf).
  { eapply triple_weaken; [apply (get_descriptor_sends zf0) | | | ]; cbn beta; auto. }
  intros desc. cbn beta.
  eapply triple_bind; [apply (triple_lift_to _ _ _ Hup2)|]. intros location.
  eapply triple_bind; [apply _fetch_from_url_sends|]. intros response.
  now apply triple_ret.
Qed.

(** X3.  What a call of the fetcher sends.  [get_descriptor] sends at most
    two requests and [get_resource] at most three, whether they return or
    raise; the requests are added after the ones sent before, each carries
    the access token and the time-out of the fetcher, and the configuration
    of the fetcher (API root, token, table of DOIs, time-out, retry policy)
    is left as it is.  A descriptor that is in the memo is returned without
    any request. *)
Theorem fetcher_requests_bounded_and_authenticated (zf : ZenodoFetcher) :
  (forall dataset, sends 2 zf (get_descriptor dataset zf).2)
  /\ (forall res, sends 3 zf (get_resource res zf).2)
  /\ (forall dataset doi d,
        _dataset_to_doi zf !! dataset = Some doi -> doi <> EmptyString ->
        _descriptor_cache zf !! doi = Some d ->
        get_descriptor dataset zf = (Ok d, zf)).
Proof.
  split; [|split].
  - intros dataset. pose proof (get_descriptor_sends zf dataset zf (sends_refl zf)) as Hrun.
    now destruct (get_descriptor dataset zf) as [[d|e] zf'].
  - intros res. pose proof (get_resource_sends zf res zf (sends_refl zf)) as Hrun.
    now destruct (get_resource res zf) as [[b|e] zf'].
  - intros dataset doi d Hdoi Hne Hmemo. rewrite get_descriptor_unfold, Hdoi, Hmemo.
    now destruct (String.eqb_spec doi EmptyString).
Qed.

End Requests.

Lemma fetcher_requests_bounded_and_authenticated_witness :
  sends 2 (ZenodoFetcher_init false 15)
        (@get_descriptor ex_external "eia860" (ZenodoFetcher_init false 15)).2
  /\ length (http (@get_descriptor ex_external "eia860" (ZenodoFetcher_init false 15)).2)
     = 2%nat.
Proof.
  split; [|vm_compute; reflexivity].
  apply (@fetcher_requests_bounded_and_authenticated ex_external).
Defined.

(** ** Descriptors and keys carry the DOI of the dataset *)

Lemma get_resources_loop_yields (self : DatapackageDescriptor) (name : pyval)
  (filters : list (string * pyval)) (entries : list pyval) (k : PudlResourceKey) (g : dgen) :
  get_resources_loop self name filters entries = (Yielded k, g) ->
  rk_dataset k = dataset self /\ rk_doi k = doi self.
Proof.
  induction entries as [|e entries IH]; cbn [get_resources_loop]; [discriminate|].
  destruct (if py_truthy name
            then result_bind (py_getitem e "name") (fun n => Ok (negb (py_eqb n name)))
            else Ok false) as [[|]|err]; [exact IH | | discriminate].
  destruct (call_matches e filters) as [[|]|err]; [ | exact IH | discriminate].
  destruct (py_getitem e "name") as [n|err]; [|discriminate].
  intros [= <- _]. now split.
Qed.

Lemma get_resources_next_yields (self : DatapackageDescriptor) (name : pyval)
  (filters : list (string * pyval)) (g g' : dgen) (k : PudlResourceKey) :
  get_resources_next self name filters g = (Yielded k, g') ->
  rk_dataset k = dataset self /\ rk_doi k = doi self.
Proof.
  destruct g as [|rest|]; cbn [get_resources_next]; [| |discriminate].
  - destruct (result_bind (py_getitem (datapackage_json self) "resources")
                          (fun resources => py_iter resources)) as [entries|err];
      [|discriminate].
    apply get_resources_loop_yields.
  - apply get_resources_loop_yields.
Qed.

Lemma get_resources_list_yields (self : DatapackageDescriptor) (name : pyval)
  (filters : list (string * pyval)) (fuel : nat) :
  forall g ks fin,
    get_resources_list self name filters fuel g = Some (ks, fin) ->
    Forall (fun k => rk_dataset k = dataset self /\ rk_doi k = doi self) ks.
Proof.
  induction fuel as [|fuel IH]; intros g ks fin; [discriminate|].
  cbn [get_resources_list].
  destruct (get_resources_next self name filters g) as [[k| |e] g'] eqn:Hnext.
  - destruct (get_resources_list self name filters fuel g') as [[ks' fin']|] eqn:Hrest;
      [|discriminate].
    intros [= <- <-].
    constructor; [now apply (get_resources_next_yields self name filters g g')|].
    now apply (IH g' ks' fin').
  - intros [= <- <-]. constructor.
  - intros [= <- <-]. constructor.
Qed.

Section Keyed.
Context `{External}.

Lemma _fetch_from_url_keyed (t : gmap string string) (u : pyval) :
  triple (fetcher_keyed t) (_fetch_from_url u) (fun _ zf => fetcher_keyed t zf)
         (fetcher_keyed t).
Proof. apply _fetch_from_url_frame. intros zf h Hzf. exact Hzf. Qed.

Lemma get_descriptor_loop_keyed (t : gmap string string) (dataset doi : string)
  (files : list pyval) :
  t !! dataset = Some doi ->
  triple (fetcher_keyed t) (get_descriptor_loop dataset doi files)
         (fun _ zf => fetcher_keyed t zf) (fetcher_keyed t).
Proof.
  intros Hdoi. induction files as [|f rest IH]; cbn [get_descriptor_loop].
  - now apply triple_throw.
  - eapply triple_bind; [apply triple_lift_keep|]. intros filename. cbn beta.
    destruct (py_eqb filename (PyStr "datapackage.json")); [|exact IH].
    eapply triple_bind; [apply triple_lift_keep|]. intros links.
    eapply triple_bind; [apply triple_lift_keep|]. intros download.
    eapply triple_bind; [apply _fetch_from_url_keyed|]. intros resp.
    eapply triple_bind; [apply triple_lift_keep|]. intros j.
    eapply triple_bind
      with (R := fun d zf => fetcher_keyed t zf
                             /\ d = {| datapackage_json := j; dataset := dataset;
                                       doi := doi |}).
    + apply triple_lift; [|auto]. intros d zf Hd Hzf. split; [exact Hzf|].
      now apply DatapackageDescriptor_init_Ok in Hd.
    + intros d. apply triple_modify. intros zf [[Htable Hmemo] ->].
      split; [exact Htable|]. cbn.
      apply map_Forall_insert_2; [now split | exact Hmemo].
Qed.

Lemma get_descriptor_fetch_keyed (t : gmap string string) (dset doi : string) :
  t !! dset = Some doi ->
  triple (fetcher_keyed t) (get_descriptor_fetch dset doi)
         (fun _ zf => fetcher_keyed t zf) (fetcher_keyed t).
Proof.
  intros Hdoi. unfold get_descriptor_fetch.
  eapply triple_bind with (R := fun _ zf => fetcher_keyed t zf); [now apply triple_gets|].
  intros self.
  eapply triple_bind; [apply triple_lift_keep|]. intros u.
  eapply triple_bind; [apply _fetch_from_url_keyed|]. intros dpkg.
  eapply triple_bind; [apply triple_lift_keep|]. intros j.
  eapply triple_bind; [apply triple_lift_keep|]. intros files.
  eapply triple_bind; [apply triple_lift_keep|]. intros items.
  now apply get_descriptor_loop_keyed.
Qed.

Lemma get_descriptor_keyed (t : gmap string string) (dset : string) :
  triple (fetcher_keyed t) (get_descriptor dset)
         (fun d zf => fetcher_keyed t zf
                      /\ t !! dset = Some (doi d) /\ t !! dataset d = Some (doi d))
         (fetcher_keyed t).
Proof.
  unfold get_descriptor.
  eapply triple_bind with (R := fun table zf => fetcher_keyed t zf /\ table = t).
  { apply triple_gets. intros zf Hzf. split; [exact Hzf | apply Hzf]. }
  intros table.
  destruct (table !! dset) as [doi|] eqn:Hdoi; [|apply triple_throw; now intros zf [Hzf _]].
  destruct (String.eqb doi EmptyString); [apply triple_throw; now intros zf [Hzf _]|].
  eapply triple_bind with (R := fun _ zf => fetcher_keyed t zf /\ table = t).
  { now apply triple_gets. }
  intros known.
  eapply triple_bind with (R := fun _ zf => fetcher_keyed t zf /\ table = t).
  { destruct (known !! doi).
    - now apply triple_ret.
    - intros zf [Hzf ->].
      pose proof (get_descriptor_fetch_keyed t dset doi Hdoi zf Hzf) as Hrun.
      now destruct (get_descriptor_fetch dset doi zf) as [[u|e] zf']. }
  intros _.
  eapply triple_bind
    with (R := fun k zf => fetcher_keyed t zf /\ table = t /\ k = _descriptor_cache zf).
  { apply triple_gets. intros zf [Hzf Ht].
    split; [exact Hzf | split; [exact Ht | reflexivity]]. }
  intros known'. apply triple_lift; [|now intros zf [Hzf _]].
  intros d zf Hd (Hzf & -> & ->). split; [exact Hzf|].
  unfold descriptor_at in Hd.
  destruct (_descriptor_cache zf !! doi) as [d'|] eqn:Hmemo; [|discriminate].
  injection Hd as ->. destruct Hzf as [_ Hkeyed].
  destruct (Hkeyed doi d Hmemo) as [Hd1 Hd2]. rewrite Hd1. now split.
Qed.

Lemma get_resource_keyed (t : gmap string string) (res : PudlResourceKey) :
  triple (fetcher_keyed t) (get_resource res) (fun _ zf => fetcher_keyed t zf)
         (fetcher_keyed t).
Proof.
  unfold get_resource.
  eapply triple_bind with (R := fun _ zf => fetcher_keyed t zf).
  { eapply triple_weaken; [apply (get_descriptor_keyed t) | | | ]; cbn beta; auto.
    now intros d zf [Hzf _]. }
  intros desc.
  eapply triple_bind; [apply triple_lift_keep|]. intros location.
  eapply triple_bind; [apply _fetch_from_url_keyed|]. intros response.
  now apply triple_ret.
Qed.

(** X4.  The memo of the fetcher is keyed by DOI.  When every descriptor of
    the memo is stored under its own DOI, the one the table gives for its
    dataset -- as in the empty memo of a new fetcher --, then
    [get_descriptor] and [get_resource] keep it so, whether they return or
    raise, and the descriptor [get_descriptor] returns for a dataset carries
    the DOI of that dataset: the DOI of the key [get_resource_key] builds
    for the dataset. *)
Theorem get_descriptor_carries_doi_of_dataset (zf : ZenodoFetcher) :
  keyed_by_doi (_dataset_to_doi zf) (_descriptor_cache zf) ->
  (forall dset,
      fetcher_keyed (_dataset_to_doi zf) (get_descriptor dset zf).2
      /\ forall d, (get_descriptor dset zf).1 = Ok d ->
                   _dataset_to_doi zf !! dset = Some (doi d)
                   /\ _dataset_to_doi zf !! dataset d = Some (doi d)
                   /\ forall name k, get_resource_key zf dset name = Ok k ->
                                     rk_doi k = doi d)
  /\ (forall res, fetcher_keyed (_dataset_to_doi zf) (get_resource res zf).2).
Proof.
  intros Hkeyed.
  assert (Hzf : fetcher_keyed (_dataset_to_doi zf) zf) by now split.
  split.
  - intros dset. pose proof (get_descriptor_keyed _ dset zf Hzf) as Hrun.
    destruct (get_descriptor dset zf) as [[d|e] zf']; cbn [fst snd].
    + destruct Hrun as (Hzf' & Hd1 & Hd2). split; [exact Hzf'|].
      intros d' [= <-]. split; [exact Hd1|]. split; [exact Hd2|].
      intros name k. unfold get_resource_key. rewrite Hd1. now intros [= <-].
    + split; [exact Hrun | discriminate].
  - intros res. pose proof (get_resource_keyed _ res zf Hzf) as Hrun.
    now destruct (get_resource res zf) as [[b|e] zf'].
Qed.

End Keyed.

Lemma get_descriptor_carries_doi_of_dataset_witness :
  keyed_by_doi (_dataset_to_doi (ZenodoFetcher_init false 15))
               (_descriptor_cache (ZenodoFetcher_init false 15))
  /\ fetcher_keyed (_dataset_to_doi (ZenodoFetcher_init false 15))
                   (@get_descriptor ex_external "eia860" (ZenodoFetcher_init false 15)).2.
Proof.
  assert (Hempty : keyed_by_doi (_dataset_to_doi (ZenodoFetcher_init false 15))
                                (_descriptor_cache (ZenodoFetcher_init false 15))).
  { apply map_Forall_empty. }
  split; [exact Hempty|].
  apply (proj1 (@get_descriptor_carries_doi_of_dataset ex_external _ Hempty) "eia860").
Defined.

Section DatastoreKeyed.
Context `{External} {C : Type} `{ResourceCache C}.

Lemma on_cache_keyed {A : Type} (t : gmap string string) (m : M C A) :
  triple (@datastore_keyed C t) (on_cache m) (fun _ ds => datastore_keyed t ds)
         (datastore_keyed t).
Proof.
  intros ds Hds. unfold on_cache. destruct (m (cache ds)) as [[a|e] c]; exact Hds.
Qed.

Lemma on_fetcher_keyed {A : Type} (t : gmap string string) (m : M ZenodoFetcher A)
  (R : A -> Prop) :
  triple (fetcher_keyed t) m (fun a zf => fetcher_keyed t zf /\ R a) (fetcher_keyed t) ->
  triple (@datastore_keyed C t) (on_fetcher m)
         (fun a ds => datastore_keyed t ds /\ R a) (datastore_keyed t).
Proof.
  intros Hm ds [Hzf Hds]. unfold on_fetcher. specialize (Hm _ Hzf).
  destruct (m (_zenodo_fetcher ds)) as [[a|e] zf].
  - destruct Hm as [Hzf' Ha]. split; [split; assumption | exact Ha].
  - split; assumption.
Qed.

Lemma store_descriptor_keyed (t : gmap string string) (k : string)
  (d : DatapackageDescriptor) :
  doi d = k -> t !! dataset d = Some k ->
  triple (@datastore_keyed C t) (store_descriptor k d) (fun _ ds => datastore_keyed t ds)
         (datastore_keyed t).
Proof.
  intros Hk Hd. apply triple_modify. intros ds [Hzf Hds]. split; [exact Hzf|].
  cbn. apply map_Forall_insert_2; [now split | exact Hds].
Qed.

Lemma get_datapackage_descriptor_load_keyed (t : gmap string string) (dset k : string) :
  t !! dset = Some k ->
  triple (@datastore_keyed C t) (get_datapackage_descriptor_load dset k)
         (fun _ ds => datastore_keyed t ds) (datastore_keyed t).
Proof.
  intros Hk. unfold get_datapackage_descriptor_load.
  eapply triple_bind with (R := fun _ ds => datastore_keyed t ds);
    [now apply triple_gets|]. intros c.
  destruct (cache_contains _ c).
  - eapply triple_bind; [apply on_cache_keyed|]. intros blob.
    eapply triple_bind; [apply triple_lift_keep|]. intros j.
    unfold bindM, lift. intros ds Hds.
    destruct (DatapackageDescriptor_init j dset k) as [d|e] eqn:Hd; [|exact Hds].
    apply DatapackageDescriptor_init_Ok in Hd as [_ ->].
    now apply (store_descriptor_keyed t k).
  - intros ds Hds. unfold bindM at 1.
    pose proof (on_fetcher_keyed t (get_descriptor dset)
                  (fun d => t !! dset = Some (doi d) /\ t !! dataset d = Some (doi d))
                  (get_descriptor_keyed t dset) ds Hds) as Hfetch.
    destruct (on_fetcher (get_descriptor dset) ds) as [[d|e] ds1]; [|exact Hfetch].
    destruct Hfetch as (Hds1 & Hd1 & Hd2).
    assert (Hdk : doi d = k) by congruence.
    unfold bindM at 1.
    pose proof (store_descriptor_keyed t k d Hdk ltac:(congruence) ds1 Hds1) as Hstore.
    destruct (store_descriptor k d ds1) as [[u|e] ds2]; [|exact Hstore].
    now apply on_cache_keyed.
Qed.

Lemma get_datapackage_descriptor_keyed (t : gmap string string) (dset : string) :
  triple (@datastore_keyed C t) (get_datapackage_descriptor dset)
         (fun d ds => datastore_keyed t ds
                      /\ t !! dset = Some (doi d) /\ t !! dataset d = Some (doi d))
         (datastore_keyed t).
Proof.
  intros ds Hds. unfold get_datapackage_descriptor, bindM at 1, gets at 1.
  unfold bindM at 1, lift at 1, get_doi.
  assert (Htable : _dataset_to_doi (_zenodo_fetcher ds) = t) by apply Hds.
  rewrite Htable.
  destruct (t !! dset) as [k|] eqn:Hk; [|exact Hds].
  unfold bindM at 1, gets at 1. unfold bindM at 1.
  assert (Hload : match (match _datapackage_descriptors ds !! k with
                         | Some _ => ret tt
                         | None => get_datapackage_descriptor_load dset k
                         end) ds with
                  | (Ok _, ds') | (Raise _, ds') => datastore_keyed t ds'
                  end).
  { destruct (_datapackage_descriptors ds !! k); [exact Hds|].
    pose proof (get_datapackage_descriptor_load_keyed t dset k Hk ds Hds) as Hrun.
    now destruct (get_datapackage_descriptor_load dset k ds) as [[u|e] ds']. }
  destruct ((match _datapackage_descriptors ds !! k with
             | Some _ => ret tt
             | None => get_datapackage_descriptor_load dset k
             end) ds) as [[u|e] ds']; [|exact Hload].
  unfold bindM, gets, lift, descriptor_at.
  destruct (_datapackage_descriptors ds' !! k) as [d|] eqn:Hd; [|exact Hload].
  split; [exact Hload|]. destruct Hload as [_ Hmemo].
  destruct (Hmemo k d Hd) as [Hd1 Hd2]. rewrite Hd1. now split.
Qed.

Lemma get_resources_body_keyed (t : gmap string string) (res : PudlResourceKey) :
  triple (@datastore_keyed C t) (get_resources_body res) (fun _ ds => datastore_keyed t ds)
         (datastore_keyed t).
Proof.
  unfold get_resources_body.
  eapply triple_bind with (R := fun _ ds => datastore_keyed t ds);
    [now apply triple_gets|]. intros c.
  destruct (cache_contains res c); [apply on_cache_keyed|].
  eapply triple_bind with (R := fun _ ds => datastore_keyed t ds).
  { eapply triple_weaken;
      [apply (on_fetcher_keyed t (get_resource res) (fun _ => True)) | | | ];
      cbn beta; auto.
    - eapply triple_weaken; [apply (get_resource_keyed t) | | | ]; cbn beta; auto.
    - now intros b ds [Hds _]. }
  intros contents.
  eapply triple_bind; [apply on_cache_keyed|]. intros u.
  now apply triple_ret.
Qed.

Lemma Datastore_get_resources_next_keyed (t : gmap string string) (dset : string)
  (filters : list (string * pyval)) (g : rgen) (ds : Datastore C) :
  datastore_keyed t ds -> rgen_keyed t dset g ->
  let '(o, g', ds') := Datastore_get_resources_next dset filters g ds in
  datastore_keyed t ds' /\ rgen_keyed t dset g'
  /\ match o with
     | Yielded (k, _) => key_of_dataset t dset k
     | _ => True
     end.
Proof.
  intros Hds Hg.
  assert (Hresume : forall desc dg ds0,
             datastore_keyed t ds0 ->
             t !! dset = Some (doi desc) -> t !! dataset desc = Some (doi desc) ->
             let '(o, g', ds') := Datastore_get_resources_resume filters desc dg ds0 in
             datastore_keyed t ds' /\ rgen_keyed t dset g'
             /\ match o with
                | Yielded (k, _) => key_of_dataset t dset k
                | _ => True
                end).
  { intros desc dg ds0 Hds0 Hd1 Hd2. unfold Datastore_get_resources_resume.
    destruct (get_resources_next desc (bind_name filters) (bind_filters filters) dg)
      as [[k| |e] dg'] eqn:Hnext; [|split; [assumption | split; exact I]..].
    apply get_resources_next_yields in Hnext as [Hk1 Hk2].
    pose proof (get_resources_body_keyed t k ds0 Hds0) as Hbody.
    destruct (get_resources_body k ds0) as [[b|e] ds'];
      [|split; [assumption | split; exact I]].
    split; [exact Hbody|]. split; [now split|].
    unfold key_of_dataset. now rewrite Hk1, Hk2. }
  destruct g as [|desc dg|]; cbn [Datastore_get_resources_next].
  - pose proof (get_datapackage_descriptor_keyed t dset ds Hds) as Hdesc.
    destruct (get_datapackage_descriptor dset ds) as [[desc|e] ds0];
      [|split; [assumption | split; exact I]].
    destruct Hdesc as (Hds0 & Hd1 & Hd2). now apply Hresume.
  - destruct Hg as [Hd1 Hd2]. now apply Hresume.
  - split; [assumption | split; exact I].
Qed.

(** X5.  The keys of [Datastore.get_resources] carry the DOI of the dataset.
    When the memos of the datastore and of its fetcher are keyed by DOI -- as
    the empty memos of a new datastore are --, then after any number of calls
    of [next] they still are, whether the calls yielded, stopped or raised,
    and every key yielded for [dset] has the DOI the table gives for [dset]
    and names a dataset of that DOI. *)
Theorem get_resources_keys_carry_doi_of_dataset
  (dset : string) (filters : list (string * pyval)) (n : nat) (ds : Datastore C) :
  datastore_keyed (_dataset_to_doi (_zenodo_fetcher ds)) ds ->
  let '(ys, _, ds') := Datastore_get_resources_take dset filters n GStart ds in
  datastore_keyed (_dataset_to_doi (_zenodo_fetcher ds)) ds'
  /\ Forall (fun y => key_of_dataset (_dataset_to_doi (_zenodo_fetcher ds)) dset y.1) ys.
Proof.
  generalize (_dataset_to_doi (_zenodo_fetcher ds)). intros t Hds.
  assert (Hgen : rgen_keyed t dset GStart) by exact I.
  revert Hds Hgen. generalize GStart. revert ds.
  induction n as [|n IH]; intros ds g Hds Hg; cbn [Datastore_get_resources_take].
  - now split.
  - pose proof (Datastore_get_resources_next_keyed t dset filters g ds Hds Hg) as Hnext.
    destruct (Datastore_get_resources_next dset filters g ds) as [[[[k b]| |e] g'] ds'].
    + destruct Hnext as (Hds' & Hg' & Hk).
      specialize (IH ds' g' Hds' Hg').
      destruct (Datastore_get_resources_take dset filters n g' ds') as [[ys fin] ds''].
      destruct IH as [Hds'' Hys]. split; [exact Hds''|]. now constructor.
    + now split.
    + now split.
Qed.

End DatastoreKeyed.

Lemma get_resources_keys_carry_doi_of_dataset_witness :
  Forall (fun y => key_of_dataset (_dataset_to_doi (_zenodo_fetcher ex_store)) "eia860" y.1)
         (@Datastore_get_resources_take ex_external _ _ "eia860" [] 3 GStart ex_store).1.1.
Proof.
  assert (Hkeyed : @datastore_keyed LayeredCache
                     (_dataset_to_doi (_zenodo_fetcher ex_store)) ex_store).
  { split; [split; [reflexivity|]|]; apply map_Forall_empty. }
  pose proof (@get_resources_keys_carry_doi_of_dataset ex_external LayeredCache _
                "eia860" [] 3 ex_store Hkeyed) as Hrun.
  destruct (@Datastore_get_resources_take ex_external _ _ "eia860" [] 3 GStart ex_store)
    as [[ys fin] ds'].
  exact (proj2 Hrun).
Defined.

(** ** Obtaining the descriptor in the datastore *)

Section DescriptorOfDatastore.
Context `{External} {C : Type} `{ResourceCache C}.

Lemma get_datapackage_descriptor_unfold (dset : string) (ds : Datastore C) :
  get_datapackage_descriptor dset ds
  = match _dataset_to_doi (_zenodo_fetcher ds) !! dset with
    | None => (Raise (KeyError dset), ds)
    | Some k =>
        match _datapackage_descriptors ds !! k with
        | Some d => (Ok d, ds)
        | None =>
            match get_datapackage_descriptor_load dset k ds with
            | (Ok _, ds') => (descriptor_at (_datapackage_descriptors ds') k, ds')
            | (Raise e, ds') => (Raise e, ds')
            end
        end
    end.
Proof.
  unfold get_datapackage_descriptor, bindM at 1, gets at 1.
  unfold bindM at 1, lift at 1, get_doi.
  destruct (_dataset_to_doi (_zenodo_fetcher ds) !! dset) as [k|]; [|reflexivity].
  unfold bindM at 1, gets at 1.
  destruct (_datapackage_descriptors ds !! k) as [d|] eqn:Hd.
  - unfold bindM, ret, gets, lift, descriptor_at. now rewrite Hd.
  - unfold bindM at 1.
    destruct (get_datapackage_descriptor_load dset k ds) as [[u|e] ds']; reflexivity.
Qed.

Lemma get_datapackage_descriptor_load_hit (dset k : string) (ds : Datastore C) :
  cache_contains (manifest_key dset k) (cache ds) = true ->
  get_datapackage_descriptor_load dset k ds
  = match cache_get (manifest_key dset k) (cache ds) with
    | (Raise e, c) => (Raise e, with_cache ds c)
    | (Ok blob, c) =>
        match result_bind (json_loads blob)
                          (fun j => DatapackageDescriptor_init j dset k) with
        | Raise e => (Raise e, with_cache ds c)
        | Ok d => (Ok tt, with_descriptor ds c (_zenodo_fetcher ds) k d)
        end
    end.
Proof.
  intros Hhit. unfold get_datapackage_descriptor_load, bindM at 1, gets at 1.
  fold (manifest_key dset k). rewrite Hhit.
  unfold bindM at 1, on_cache.
  destruct (cache_get (manifest_key dset k) (cache ds)) as [[blob|e] c]; [|reflexivity].
  unfold bindM, lift. destruct (json_loads blob) as [j|e]; [|reflexivity].
  cbn [result_bind]. now destruct (DatapackageDescriptor_init j dset k).
Qed.

Lemma get_datapackage_descriptor_load_miss (dset k : string) (ds : Datastore C) :
  cache_contains (manifest_key dset k) (cache ds) = false ->
  get_datapackage_descriptor_load dset k ds
  = match get_descriptor dset (_zenodo_fetcher ds) with
    | (Raise e, zf) => (Raise e, with_cache_and_fetcher ds (cache ds) zf)
    | (Ok desc, zf) =>
        match cache_set (manifest_key dset k) (utf8_encode (get_json_string desc))
                        (cache ds) with
        | (r, c) => (r, with_descriptor ds c zf k desc)
        end
    end.
Proof.
  intros Hmiss. unfold get_datapackage_descriptor_load, bindM at 1, gets at 1.
  fold (manifest_key dset k). rewrite Hmiss.
  unfold bindM at 1, on_fetcher.
  destruct (get_descriptor dset (_zenodo_fetcher ds)) as [[desc|e] zf]; [|reflexivity].
  unfold bindM, store_descriptor, modify, on_cache. cbn.
  now destruct (cache_set (manifest_key dset k) (utf8_encode (get_json_string desc))
                          (cache ds)) as [r c].
Qed.

(** X6.  A dataset that is not in the table of DOIs is reported in the same
    way by [get_datapackage_descriptor], by the first [next] of
    [get_resources] and by [get_unique_resource]: the [KeyError] of the
    failed lookup in the table, whose argument is the name of the dataset as
    it was given.  The datastore is left as it is: no cache
    layer is asked and no request is sent.  The generator is finished: the
    next call of [next] is a [StopIteration]. *)
Theorem unknown_dataset_is_a_KeyError
  (dset : string) (filters : list (string * pyval)) (ds : Datastore C) :
  _dataset_to_doi (_zenodo_fetcher ds) !! dset = None ->
  get_datapackage_descriptor dset ds = (Raise (KeyError dset), ds)
  /\ Datastore_get_resources_next dset filters GStart ds
     = (Raised (KeyError dset), GDone, ds)
  /\ Datastore_get_resources_take dset filters 2 GStart ds
     = ([], Some (Some (KeyError dset)), ds)
  /\ Datastore_get_resources_next dset filters GDone ds = (StopIteration, GDone, ds)
  /\ get_unique_resource dset filters ds = (Raise (KeyError dset), ds).
Proof.
  intros Hnone.
  assert (Hdesc : get_datapackage_descriptor dset ds
                  = (Raise (KeyError dset), ds)).
  { rewrite get_datapackage_descriptor_unfold. now rewrite Hnone. }
  assert (Hnext : Datastore_get_resources_next dset filters GStart ds
                  = (Raised (KeyError dset), GDone, ds)).
  { cbn [Datastore_get_resources_next]. now rewrite Hdesc. }
  split; [exact Hdesc|]. split; [exact Hnext|]. split; [|split].
  - cbn [Datastore_get_resources_take]. now rewrite Hnext.
  - reflexivity.
  - unfold get_unique_resource. now rewrite Hnext.
Qed.

(** X7.  The manifest is served from the cache when it is there.  For a
    known dataset whose descriptor is not memoized, when the cache contains
    the key of [datapackage.json]:
    - if the blob parses to a manifest without validation errors, the
      descriptor is built from it with the dataset and its DOI, memoized and
      returned, and the fetcher is left as it is: no request is sent;
    - if the blob does not parse, the exception of the parser is raised,
      nothing is memoized and the archive is not asked instead. *)
Theorem get_datapackage_descriptor_from_cached_blob
  (dset k : string) (ds : Datastore C) (blob : bytes) (c : C) :
  _dataset_to_doi (_zenodo_fetcher ds) !! dset = Some k ->
  _datapackage_descriptors ds !! k = None ->
  cache_contains (manifest_key dset k) (cache ds) = true ->
  cache_get (manifest_key dset k) (cache ds) = (Ok blob, c) ->
  (forall j,
      json_loads blob = Ok j -> package_errors j = Ok [] ->
      let d := {| datapackage_json := j; dataset := dset; doi := k |} in
      get_datapackage_descriptor dset ds
      = (Ok d, with_descriptor ds c (_zenodo_fetcher ds) k d))
  /\ (forall e,
        json_loads blob = Raise e ->
        get_datapackage_descriptor dset ds = (Raise e, with_cache ds c)).
Proof.
  intros Hk Hmemo Hhit Hget.
  rewrite get_datapackage_descriptor_unfold, Hk, Hmemo.
  rewrite (get_datapackage_descriptor_load_hit dset k ds Hhit), Hget.
  split.
  - intros j Hj Hvalid d. rewrite Hj. cbn [result_bind].
    unfold DatapackageDescriptor_init. rewrite _validate_datapackage_spec, Hvalid.
    cbn [result_bind]. fold d. unfold descriptor_at. cbn.
    now rewrite lookup_insert_eq.
  - intros e He. now rewrite He.
Qed.

End DescriptorOfDatastore.

Lemma unknown_dataset_is_a_KeyError_witness :
  @get_unique_resource ex_external _ _ "eia999" [("year", PyStr "2020")] ex_store
  = (Raise (KeyError "eia999"), ex_store).
Proof.
  refine (proj2 (proj2 (proj2 (proj2
            (@unknown_dataset_is_a_KeyError ex_external LayeredCache _ "eia999"
               [("year", PyStr "2020")] ex_store _))))).
  vm_compute. reflexivity.
Defined.

Lemma get_datapackage_descriptor_from_cached_blob_witness :
  @get_datapackage_descriptor ex_parsing _ _ "eia860" ex_store_cached
  = (Ok ex_descriptor,
     with_descriptor ex_store_cached (cache ex_store_cached)
       (ZenodoFetcher_init false 15) "10.5281/zenodo.4127027" ex_descriptor)
  /\ @get_datapackage_descriptor ex_external _ _ "eia860" ex_store_corrupt
     = (Raise (LibraryError "JSONDecodeError" "Expecting value"), ex_store_corrupt).
Proof.
  split.
  - refine (proj1 (@get_datapackage_descriptor_from_cached_blob ex_parsing LayeredCache _
                     "eia860" "10.5281/zenodo.4127027" ex_store_cached
                     (utf8_encode (get_json_string ex_descriptor)) (cache ex_store_cached)
                     _ _ _ _) ex_manifest _ _);
      vm_compute; reflexivity.
  - refine (proj2 (@get_datapackage_descriptor_from_cached_blob ex_external LayeredCache _
                     "eia860" "10.5281/zenodo.4127027" ex_store_corrupt
                     (utf8_encode "<html>") (cache ex_store_corrupt)
                     _ _ _ _) _ _);
      vm_compute; reflexivity.
Defined.

Section DescriptorMemo.
Context `{External} {C : Type} `{ResourceCache C}.

Lemma get_datapackage_descriptor_load_table (dset k : string) (ds : Datastore C) :
  _dataset_to_doi (_zenodo_fetcher (get_datapackage_descriptor_load dset k ds).2)
  = _dataset_to_doi (_zenodo_fetcher ds).
Proof.
  destruct (cache_contains (manifest_key dset k) (cache ds)) eqn:Hc.
  - rewrite (get_datapackage_descriptor_load_hit dset k ds Hc).
    destruct (cache_get (manifest_key dset k) (cache ds)) as [[blob|e] c]; [|reflexivity].
    now destruct (result_bind (json_loads blob)
                              (fun j => DatapackageDescriptor_init j dset k)).
  - rewrite (get_datapackage_descriptor_load_miss dset k ds Hc).
    pose proof (get_descriptor_sends (_zenodo_fetcher ds) dset (_zenodo_fetcher ds)
                  (sends_refl _)) as Hsends.
    destruct (get_descriptor dset (_zenodo_fetcher ds)) as [[desc|e] zf].
    + destruct Hsends as [(_ & _ & Htable & _) _].
      now destruct (cache_set (manifest_key dset k) (utf8_encode (get_json_string desc))
                              (cache ds)) as [r c].
    + now destruct Hsends as [(_ & _ & Htable & _) _].
Qed.

(** X8.  The descriptor memo of the datastore.  A descriptor that
    [get_datapackage_descriptor] returns is memoized under the DOI of the
    dataset, and a second call for the dataset returns the same descriptor
    and leaves the whole datastore as it is: the cache is not read and no
    request is sent. *)
Theorem get_datapackage_descriptor_memoized
  (dset : string) (ds ds' : Datastore C) (d : DatapackageDescriptor) :
  get_datapackage_descriptor dset ds = (Ok d, ds') ->
  (exists k, _dataset_to_doi (_zenodo_fetcher ds) !! dset = Some k
             /\ _datapackage_descriptors ds' !! k = Some d)
  /\ get_datapackage_descriptor dset ds' = (Ok d, ds').
Proof.
  rewrite get_datapackage_descriptor_unfold.
  destruct (_dataset_to_doi (_zenodo_fetcher ds) !! dset) as [k|] eqn:Hk; [|discriminate].
  intros Hrun.
  assert (Hstate : _dataset_to_doi (_zenodo_fetcher ds') !! dset = Some k
                   /\ _datapackage_descriptors ds' !! k = Some d).
  { destruct (_datapackage_descriptors ds !! k) as [d'|] eqn:Hd.
    - injection Hrun as <- <-. now split.
    - pose proof (get_datapackage_descriptor_load_table dset k ds) as Htable.
      destruct (get_datapackage_descriptor_load dset k ds) as [[u|e] ds1]; [|discriminate].
      injection Hrun as Hat <-. cbn [snd] in Htable. rewrite Htable. split; [exact Hk|].
      unfold descriptor_at in Hat.
      now destruct (_datapackage_descriptors ds1 !! k) as [d1|]; [injection Hat as ->|]. }
  destruct Hstate as [Hk' Hd]. split; [now exists k|].
  rewrite get_datapackage_descriptor_unfold, Hk', Hd. reflexivity.
Qed.

(** X9.  On a cache miss the descriptor comes from the fetcher and is
    memoized before it is written to the cache.  For a known dataset whose
    descriptor is neither memoized nor cached, when the fetcher returns the
    descriptor [desc]:
    - [cache.set] is called with the key of [datapackage.json] and the UTF-8
      bytes of the canonical text of [desc], and when it returns, [desc] is
      returned;
    - when [cache.set] raises, the call raises too, but [desc] stays
      memoized: the next call for the dataset returns [desc] and does not
      write it to the cache again. *)
Theorem get_datapackage_descriptor_fetches_then_caches
  (dset k : string) (ds : Datastore C) (desc : DatapackageDescriptor)
  (zf : ZenodoFetcher) (r : result unit) (c : C) :
  _dataset_to_doi (_zenodo_fetcher ds) !! dset = Some k ->
  _datapackage_descriptors ds !! k = None ->
  cache_contains (manifest_key dset k) (cache ds) = false ->
  get_descriptor dset (_zenodo_fetcher ds) = (Ok desc, zf) ->
  cache_set (manifest_key dset k) (utf8_encode (get_json_string desc)) (cache ds) = (r, c) ->
  get_datapackage_descriptor dset ds
  = (match r with Ok _ => Ok desc | Raise e => Raise e end, with_descriptor ds c zf k desc)
  /\ get_datapackage_descriptor dset (with_descriptor ds c zf k desc)
     = (Ok desc, with_descriptor ds c zf k desc).
Proof.
  intros Hk Hmemo Hmiss Hfetch Hset.
  assert (Htable : _dataset_to_doi zf = _dataset_to_doi (_zenodo_fetcher ds)).
  { pose proof (get_descriptor_sends (_zenodo_fetcher ds) dset (_zenodo_fetcher ds)
                  (sends_refl _)) as Hsends.
    rewrite Hfetch in Hsends. now destruct Hsends as [(_ & _ & Htable & _) _]. }
  split.
  - rewrite get_datapackage_descriptor_unfold, Hk, Hmemo.
    rewrite (get_datapackage_descriptor_load_miss dset k ds Hmiss), Hfetch, Hset.
    destruct r as [u|e]; [|reflexivity].
    unfold descriptor_at. cbn. now rewrite lookup_insert_eq.
  - rewrite get_datapackage_descriptor_unfold. cbn.
    rewrite Htable, Hk. now rewrite lookup_insert_eq.
Qed.

End DescriptorMemo.

Lemma get_datapackage_descriptor_memoized_witness :
  @get_datapackage_descriptor ex_external _ _ "eia860" ex_store_loaded
  = (Ok ex_descriptor, ex_store_loaded).
Proof.
  refine (proj2 (@get_datapackage_descriptor_memoized ex_external LayeredCache _
                   "eia860" ex_store ex_store_loaded ex_descriptor _)).
  vm_compute. reflexivity.
Defined.

Lemma get_datapackage_descriptor_fetches_then_caches_witness :
  @get_datapackage_descriptor ex_external _ ex_full_disk "eia860" ex_store
  = (Raise (LibraryError "OSError" "No space left on device"),
     with_descriptor ex_store (cache ex_store)
       (@get_descriptor ex_external "eia860" (ZenodoFetcher_init false 15)).2
       "10.5281/zenodo.4127027" ex_descriptor)
  /\ @get_datapackage_descriptor ex_external _ ex_full_disk "eia860"
       (with_descriptor ex_store (cache ex_store)
          (@get_descriptor ex_external "eia860" (ZenodoFetcher_init false 15)).2
          "10.5281/zenodo.4127027" ex_descriptor)
     = (Ok ex_descriptor,
        with_descriptor ex_store (cache ex_store)
          (@get_descriptor ex_external "eia860" (ZenodoFetcher_init false 15)).2
          "10.5281/zenodo.4127027" ex_descriptor).
Proof.
  refine (@get_datapackage_descriptor_fetches_then_caches ex_external LayeredCache
            ex_full_disk "eia860" "10.5281/zenodo.4127027" ex_store ex_descriptor
            (@get_descriptor ex_external "eia860" (ZenodoFetcher_init false 15)).2
            (Raise (LibraryError "OSError" "No space left on device")) (cache ex_store)
            _ _ _ _ _);
    vm_compute; reflexivity.
Defined.

(** ** Selection by name and by partition *)

Lemma get_resources_loop_falsy_name (self : DatapackageDescriptor) (name : pyval)
  (filters : list (string * pyval)) (entries : list pyval) :
  py_truthy name = false ->
  get_resources_loop self name filters entries
  = get_resources_loop self PyNone filters entries.
Proof.
  intros Hname. induction entries as [|e entries IH]; [reflexivity|].
  cbn [get_resources_loop py_truthy]. rewrite Hname.
  destruct (call_matches e filters) as [[|]|err]; [reflexivity | exact IH | reflexivity].
Qed.

Lemma get_resources_loop_named (self : DatapackageDescriptor) (name : pyval)
  (filters : list (string * pyval)) (entries : list pyval) (k : PudlResourceKey) (g : dgen) :
  py_truthy name = true ->
  get_resources_loop self name filters entries = (Yielded k, g) ->
  py_eqb (rk_name k) name = true.
Proof.
  intros Hname. induction entries as [|e entries IH]; cbn [get_resources_loop];
    [discriminate|].
  rewrite Hname.
  destruct (py_getitem e "name") as [n|err] eqn:Hn; cbn [result_bind]; [|discriminate].
  destruct (py_eqb n name) eqn:Heq; cbn [negb]; [|exact IH].
  destruct (call_matches e filters) as [[|]|err]; [ | exact IH | discriminate].
  intros [= <- _]. exact Heq.
Qed.

(** X10.  The name test of [get_resources].  A name that is false in a
    condition -- [None], and the empty string as well -- puts no condition
    on the entries: the enumeration is the one without a name.  With any
    other name, every key yielded has a name equal to it. *)
Theorem get_resources_name_test
  (self : DatapackageDescriptor) (name : pyval) (filters : list (string * pyval)) :
  (py_truthy name = false ->
   forall fuel g,
     get_resources_list self name filters fuel g
     = get_resources_list self PyNone filters fuel g)
  /\ (py_truthy name = true ->
      forall fuel g ks fin,
        get_resources_list self name filters fuel g = Some (ks, fin) ->
        Forall (fun k => py_eqb (rk_name k) name = true) ks).
Proof.
  split.
  - intros Hname fuel. induction fuel as [|fuel IH]; intros g; [reflexivity|].
    cbn [get_resources_list].
    assert (Hnext : get_resources_next self name filters g
                    = get_resources_next self PyNone filters g).
    { destruct g as [|rest|]; cbn [get_resources_next]; [|now apply
        get_resources_loop_falsy_name|reflexivity].
      destruct (result_bind (py_getitem (datapackage_json self) "resources")
                            (fun resources => py_iter resources)); [|reflexivity].
      now apply get_resources_loop_falsy_name. }
    rewrite Hnext.
    destruct (get_resources_next self PyNone filters g) as [[k| |e] g']; [|reflexivity..].
    now rewrite IH.
  - intros Hname fuel. induction fuel as [|fuel IH]; intros g ks fin; [discriminate|].
    cbn [get_resources_list].
    destruct (get_resources_next self name filters g) as [[k| |e] g'] eqn:Hnext.
    + destruct (get_resources_list self name filters fuel g') as [[ks' fin']|] eqn:Hrest;
        [|discriminate].
      intros [= <- <-]. constructor; [|now apply (IH g' ks' fin')].
      destruct g as [|rest|]; cbn [get_resources_next] in Hnext; [| |discriminate].
      * destruct (result_bind (py_getitem (datapackage_json self) "resources")
                              (fun resources => py_iter resources)) as [entries|err];
          [|discriminate].
        now apply (get_resources_loop_named self name filters entries k g').
      * now apply (get_resources_loop_named self name filters rest k g').
    + intros [= <- <-]. constructor.
    + intros [= <- <-]. constructor.
Qed.

Lemma get_resources_name_test_witness :
  get_resources_list ex_descriptor (PyStr EmptyString) [] 3 DStart
  = get_resources_list ex_descriptor PyNone [] 3 DStart
  /\ Forall (fun k => py_eqb (rk_name k) (PyStr "eia860-2020.zip") = true) [ex_key_2020].
Proof.
  destruct (get_resources_name_test ex_descriptor (PyStr EmptyString) []) as [Hfalsy _].
  destruct (get_resources_name_test ex_descriptor (PyStr "eia860-2020.zip") [])
    as [_ Hnamed].
  split.
  - apply Hfalsy. reflexivity.
  - apply (Hnamed eq_refl 3%nat DStart [ex_key_2020] None). vm_compute. reflexivity.
Defined.

Lemma dict_has_app (f g : list (string * pyval)) (k : string) :
  dict_has (f ++ g) k = dict_has f k || dict_has g k.
Proof.
  unfold dict_has. induction f as [|[k' v] f IH]; [reflexivity|].
  cbn [app dict_get]. now destruct (String.eqb k' k).
Qed.

Lemma all_parts_match_app (parts : pyval) (f g : list (string * pyval)) :
  match all_parts_match parts (f ++ g) with Ok true => true | _ => false end
  = match all_parts_match parts f with Ok true => true | _ => false end
    && match all_parts_match parts g with Ok true => true | _ => false end.
Proof.
  induction f as [|[k v] f IH]; [reflexivity|]. cbn [app all_parts_match].
  destruct (py_get parts k PyNone) as [p|err]; cbn [result_bind]; [|reflexivity].
  destruct (String.eqb (py_str p) (py_str v)); [exact IH | reflexivity].
Qed.

Lemma entry_selected_app (name : pyval) (f g : list (string * pyval)) (e : pyval) :
  entry_selected name (f ++ g) e = entry_selected name f e && entry_selected name g e.
Proof.
  unfold entry_selected.
  set (named := if py_truthy name
                then match py_getitem e "name" with
                     | Ok n => py_eqb n name
                     | Raise _ => false
                     end
                else true).
  assert (Hcall : match call_matches e (f ++ g) with Ok true => true | _ => false end
                  = match call_matches e f with Ok true => true | _ => false end
                    && match call_matches e g with Ok true => true | _ => false end).
  { unfold call_matches. rewrite !dict_has_app.
    destruct (dict_has f "self"), (dict_has g "self"); cbn [orb];
      try reflexivity; try (now rewrite andb_false_r).
    destruct (dict_has f "res"), (dict_has g "res"); cbn [orb];
      try reflexivity; try (now rewrite andb_false_r).
    unfold _matches. destruct (py_get e "parts" (PyDict [])) as [parts|err];
      cbn [result_bind]; [|reflexivity].
    apply all_parts_match_app. }
  rewrite Hcall. destruct named; [reflexivity|]. reflexivity.
Qed.

Lemma filter_and_sublist {A B : Type} (f : A -> B) (p q : A -> bool) (l : list A) :
  sublist (map f (List.filter (fun x => p x && q x) l)) (map f (List.filter p l)).
Proof.
  induction l as [|x l IH]; [constructor|]. cbn [List.filter].
  destruct (p x), (q x); cbn [andb map].
  - now apply sublist_skip.
  - now apply sublist_cons.
  - exact IH.
  - exact IH.
Qed.

(** X11.  Partition filters combine by conjunction.  An entry passes the
    filters of two mappings put together exactly when it passes each of
    them, so that, for enumerations that end without an exception, the keys
    for the filters [f] and [g] together are those of the entries that pass
    [f] and pass [g], in the order of the manifest: a part of the keys for
    [f] alone, in the same order. *)
Theorem get_resources_filters_are_conjunctive
  (self : DatapackageDescriptor) (name : pyval) (f g : list (string * pyval))
  (entries : list pyval) (fuel : nat) (ks : list PudlResourceKey) :
  py_getitem (datapackage_json self) "resources" = Ok (PyList entries) ->
  get_resources_list self name (f ++ g) fuel DStart = Some (ks, None) ->
  (forall e, entry_selected name (f ++ g) e
             = entry_selected name f e && entry_selected name g e)
  /\ ks = map (entry_key self)
              (List.filter (fun e => entry_selected name f e && entry_selected name g e)
                           entries)
  /\ (forall fuel' ks', get_resources_list self name f fuel' DStart = Some (ks', None) ->
                        sublist ks ks').
Proof.
  intros Hres Hlist.
  assert (Hks : ks = map (entry_key self)
                         (List.filter (fun e => entry_selected name f e
                                                && entry_selected name g e) entries)).
  { rewrite (get_resources_list_selected self name (f ++ g) entries fuel ks Hres Hlist).
    f_equal. apply filter_ext. intros e. apply entry_selected_app. }
  split; [intros e; apply entry_selected_app|]. split; [exact Hks|].
  intros fuel' ks' Hlist'.
  rewrite (get_resources_list_selected self name f entries fuel' ks' Hres Hlist'), Hks.
  apply filter_and_sublist.
Qed.

Lemma get_resources_filters_are_conjunctive_witness :
  get_resources_list ex_descriptor PyNone ([("year", PyStr "2020")] ++ [("state", PyStr "None")])
                     3 DStart
  = Some ([ex_key_2020], None)
  /\ sublist [ex_key_2020] [ex_key_2020].
Proof.
  assert (Hlist : get_resources_list ex_descriptor PyNone
                    ([("year", PyStr "2020")] ++ [("state", PyStr "None")]) 3 DStart
                  = Some ([ex_key_2020], None)).
  { vm_compute. reflexivity. }
  split; [exact Hlist|].
  destruct (get_resources_filters_are_conjunctive ex_descriptor PyNone
              [("year", PyStr "2020")] [("state", PyStr "None")] _ 3 [ex_key_2020]
              eq_refl Hlist) as (_ & _ & Hsub).
  apply (Hsub 3%nat). vm_compute. reflexivity.
Defined.

Lemma get_resources_loop_keyword_res (self : DatapackageDescriptor) (name : pyval)
  (filters : list (string * pyval)) (entries : list pyval) :
  dict_has filters "self" = false ->
  dict_has filters "res" = true ->
  forall k g, get_resources_loop self name filters entries <> (Yielded k, g).
Proof.
  intros Hself Hres k g. induction entries as [|e entries IH]; cbn [get_resources_loop];
    [discriminate|].
  unfold call_matches. rewrite Hself, Hres.
  destruct (py_truthy name); [|discriminate].
  destruct (py_getitem e "name") as [n|err]; cbn [result_bind]; [|discriminate].
  destruct (negb (py_eqb n name)); [exact IH | discriminate].
Qed.

(** X12.  A partition called [res] cannot be asked for.  The filters reach
    [_matches] as keywords, beside the entry passed as its parameter [res]:
    with a keyword [res] among them the call is a [TypeError], so
    [get_resources] yields no key at all, and -- when no name is given and
    the manifest has an entry -- its first [next] raises a [TypeError],
    whatever the text the interpreter puts in it, and ends the generator. *)
Theorem get_resources_keyword_res_is_a_TypeError
  (self : DatapackageDescriptor) (name : pyval) (filters : list (string * pyval)) :
  dict_has filters "self" = false ->
  dict_has filters "res" = true ->
  (forall fuel g ks fin,
      get_resources_list self name filters fuel g = Some (ks, fin) -> ks = [])
  /\ (forall e rest,
         py_truthy name = false ->
         py_getitem (datapackage_json self) "resources" = Ok (PyList (e :: rest)) ->
         exists msg,
           get_resources_next self name filters DStart = (Raised (TypeError msg), DDone)).
Proof.
  intros Hself Hres. split.
  - intros [|fuel] g ks fin; [discriminate|]. cbn [get_resources_list].
    destruct (get_resources_next self name filters g) as [[k| |e] g'] eqn:Hnext.
    + exfalso. destruct g as [|rest|]; cbn [get_resources_next] in Hnext; [| |discriminate].
      * destruct (result_bind (py_getitem (datapackage_json self) "resources")
                              (fun resources => py_iter resources)) as [entries|err];
          [|discriminate].
        now apply (get_resources_loop_keyword_res self name filters entries Hself Hres k g').
      * now apply (get_resources_loop_keyword_res self name filters rest Hself Hres k g').
    + now intros [= <- _].
    + now intros [= <- _].
  - intros e rest Hname Hresources. cbn [get_resources_next].
    rewrite Hresources. cbn [result_bind py_iter get_resources_loop].
    rewrite Hname. unfold call_matches. rewrite Hself, Hres. now eexists.
Qed.

Lemma get_resources_keyword_res_is_a_TypeError_witness :
  exists msg,
    get_resources_list ex_descriptor PyNone [("res", PyStr "x")] 3 DStart
    = Some ([], Some (TypeError msg)).
Proof.
  destruct (get_resources_keyword_res_is_a_TypeError ex_descriptor PyNone
              [("res", PyStr "x")] eq_refl eq_refl) as [_ Hfirst].
  destruct (Hfirst _ _ eq_refl eq_refl) as [msg Hnext]. exists msg.
  cbn [get_resources_list]. rewrite Hnext. reflexivity.
Defined.

Lemma call_matches_needs_mapping (e : pyval) (filters : list (string * pyval)) (b : bool) :
  filters <> [] ->
  call_matches e filters = Ok b ->
  parts_is_mapping e.
Proof.
  intros Hne. unfold call_matches.
  destruct (dict_has filters "self"); [discriminate|].
  destruct (dict_has filters "res"); [discriminate|].
  unfold _matches, py_get at 1.
  destruct e as [| | | |l|d]; try discriminate.
  intros Hm. exists d. split; [reflexivity|].
  destruct (dict_get d "parts") as [p|]; [|exact I].
  cbn [result_bind] in Hm.
  destruct filters as [|[k v] filters]; [congruence|].
  cbn [all_parts_match] in Hm. unfold py_get in Hm.
  destruct p as [| | | |l|items]; try discriminate. now exists items.
Qed.

Lemma get_resources_list_needs_mapping (self : DatapackageDescriptor) (name : pyval)
  (filters : list (string * pyval)) (entries : list pyval) :
  py_truthy name = false ->
  filters <> [] ->
  forall fuel ks,
    get_resources_list self name filters fuel (DLoop entries) = Some (ks, None) ->
    Forall parts_is_mapping entries.
Proof.
  intros Hname Hne. induction entries as [|e entries IH]; intros fuel ks;
    [constructor|].
  destruct fuel as [|fuel]; [discriminate|].
  cbn [get_resources_list get_resources_next get_resources_loop]. rewrite Hname.
  destruct (call_matches e filters) as [[|]|err] eqn:Hcall.
  - destruct (py_getitem e "name") as [n|err]; [|discriminate].
    destruct (get_resources_list self name filters fuel (DLoop entries))
      as [[ks' fin']|] eqn:Hrest; [|discriminate].
    intros [= <- ->]. constructor.
    + now apply (call_matches_needs_mapping e filters true).
    + now apply (IH fuel ks').
  - intros Hrun. constructor.
    + now apply (call_matches_needs_mapping e filters false).
    + apply (IH (S fuel) ks). exact Hrun.
  - discriminate.
Qed.

(** X13.  Filtered enumeration reads the [parts] of every entry.  When
    [get_resources] is given a partition filter and no name, and runs to its
    end without an exception, every entry of the manifest is a dict whose
    [parts] is absent or a dict: one entry that is not -- [parts] set to
    [null], say -- makes every filtered enumeration raise. *)
Theorem get_resources_filtered_reads_every_parts
  (self : DatapackageDescriptor) (name : pyval) (filters : list (string * pyval))
  (entries : list pyval) (fuel : nat) (ks : list PudlResourceKey) :
  py_truthy name = false ->
  filters <> [] ->
  py_getitem (datapackage_json self) "resources" = Ok (PyList entries) ->
  get_resources_list self name filters fuel DStart = Some (ks, None) ->
  Forall parts_is_mapping entries.
Proof.
  intros Hname Hne Hres Hrun.
  apply (get_resources_list_needs_mapping self name filters entries Hname Hne fuel ks).
  destruct fuel as [|fuel]; [discriminate|].
  cbn [get_resources_list get_resources_next] in *.
  rewrite Hres in Hrun. exact Hrun.
Qed.

Lemma get_resources_filtered_reads_every_parts_witness :
  exists entries,
    py_getitem (datapackage_json ex_descriptor) "resources" = Ok (PyList entries)
    /\ Forall parts_is_mapping entries.
Proof.
  eexists. split; [reflexivity|].
  apply (get_resources_filtered_reads_every_parts ex_descriptor PyNone
           [("year", PyStr "2020")] _ 3 [ex_key_2020]).
  - reflexivity.
  - discriminate.
  - reflexivity.
  - vm_compute. reflexivity.
Defined.

Lemma get_resource_path_loop_finds (self : DatapackageDescriptor) (s : string)
  (entries : list pyval) :
  Forall str_named entries ->
  (exists d, In (PyDict d) entries /\ dict_get d "name" = Some (PyStr s)) ->
  exists d, In (PyDict d) entries /\ dict_get d "name" = Some (PyStr s)
            /\ get_resource_path_loop self (PyStr s) entries = Ok (entry_location d).
Proof.
  induction 1 as [|e entries (d0 & s0 & -> & Hn0) Hall IH]; intros (d & Hin & Hn).
  - destruct Hin.
  - cbn [get_resource_path_loop py_getitem]. rewrite Hn0. cbn [result_bind py_eqb].
    destruct (String.eqb s0 s) eqn:Heq.
    + apply String.eqb_eq in Heq. subst s0. exists d0.
      split; [now left|]. split; [exact Hn0|].
      unfold entry_location, entry_path, py_get.
      destruct (dict_get d0 "remote_url") as [u|]; cbn [result_bind py_truthy].
      * destruct (py_truthy u); [reflexivity|].
        now destruct (dict_get d0 "path").
      * now destruct (dict_get d0 "path").
    + destruct Hin as [Hhead|Hin].
      * injection Hhead as ->. rewrite Hn in Hn0. injection Hn0 as ->.
        now rewrite String.eqb_refl in Heq.
      * destruct IH as (d1 & Hin1 & Hn1 & Hloop); [now exists d|].
        exists d1. split; [now right|]. now split.
Qed.

Lemma get_resources_loop_yields_entry (self : DatapackageDescriptor) (name : pyval)
  (filters : list (string * pyval)) (entries : list pyval) (k : PudlResourceKey) (g : dgen) :
  get_resources_loop self name filters entries = (Yielded k, g) ->
  exists e rest, In e entries /\ py_getitem e "name" = Ok (rk_name k)
                 /\ g = DLoop rest /\ (forall x, In x rest -> In x entries).
Proof.
  induction entries as [|e entries IH]; cbn [get_resources_loop]; [discriminate|].
  assert (Hskip : get_resources_loop self name filters entries = (Yielded k, g) ->
                  exists e' rest, In e' (e :: entries) /\ py_getitem e' "name" = Ok (rk_name k)
                                  /\ g = DLoop rest
                                  /\ (forall x, In x rest -> In x (e :: entries))).
  { intros Hrun. destruct (IH Hrun) as (e' & rest & Hin & Hn & Hg & Hsub).
    exists e', rest. split; [now right|]. split; [exact Hn|]. split; [exact Hg|].
    intros x Hx. right. now apply Hsub. }
  destruct (if py_truthy name
            then result_bind (py_getitem e "name") (fun n => Ok (negb (py_eqb n name)))
            else Ok false) as [[|]|err]; [exact Hskip| |discriminate].
  destruct (call_matches e filters) as [[|]|err]; [|exact Hskip|discriminate].
  destruct (py_getitem e "name") as [n|err] eqn:Hn; [|discriminate].
  intros [= <- <-]. exists e, entries. split; [now left|]. split; [exact Hn|].
  split; [reflexivity|]. intros x Hx. now right.
Qed.

Lemma get_resources_list_yields_entries (self : DatapackageDescriptor) (name : pyval)
  (filters : list (string * pyval)) (entries : list pyval) (fuel : nat) :
  forall rest ks fin,
    (forall x, In x rest -> In x entries) ->
    get_resources_list self name filters fuel (DLoop rest) = Some (ks, fin) ->
    Forall (fun k => exists e, In e entries /\ py_getitem e "name" = Ok (rk_name k)) ks.
Proof.
  induction fuel as [|fuel IH]; intros rest ks fin Hsub; [discriminate|].
  cbn [get_resources_list get_resources_next].
  destruct (get_resources_loop self name filters rest) as [[k| |err] g] eqn:Hloop.
  - destruct (get_resources_loop_yields_entry self name filters rest k g Hloop)
      as (e & rest' & Hin & Hn & -> & Hsub').
    destruct (get_resources_list self name filters fuel (DLoop rest'))
      as [[ks' fin']|] eqn:Hrest; [|discriminate].
    intros [= <- <-]. constructor.
    + exists e. split; [now apply Hsub | exact Hn].
    + apply (IH rest' ks' fin'); [|exact Hrest].
      intros x Hx. apply Hsub. now apply Hsub'.
  - intros [= <- _]. constructor.
  - intros [= <- _]. constructor.
Qed.

(** X14.  What [get_resources] yields, [get_resource_path] resolves.  In a
    descriptor whose entries are dicts with a string for a name, every key
    that [get_resources] yields -- whatever the name and the filters, and
    whether the enumeration ends or raises later -- has a name for which
    [get_resource_path] of the same descriptor returns a location and does
    not raise: the [remote_url] of an entry of that name when it has one that
    is not empty, and its [path] otherwise. *)
Theorem get_resources_keys_are_resolvable
  (self : DatapackageDescriptor) (name : pyval) (filters : list (string * pyval))
  (entries : list pyval) (fuel : nat) (ks : list PudlResourceKey) (fin : option exn) :
  py_getitem (datapackage_json self) "resources" = Ok (PyList entries) ->
  Forall str_named entries ->
  get_resources_list self name filters fuel DStart = Some (ks, fin) ->
  Forall (fun k => exists d, In (PyDict d) entries
                             /\ dict_get d "name" = Some (rk_name k)
                             /\ get_resource_path self (rk_name k) = Ok (entry_location d))
         ks.
Proof.
  intros Hres Hall Hrun.
  assert (Hks : Forall (fun k => exists e, In e entries
                                           /\ py_getitem e "name" = Ok (rk_name k)) ks).
  { apply (get_resources_list_yields_entries self name filters entries fuel entries ks fin);
      [auto|].
    destruct fuel as [|fuel]; [discriminate|].
    cbn [get_resources_list get_resources_next] in *.
    rewrite Hres in Hrun. exact Hrun. }
  apply List.Forall_forall. intros k Hk.
  destruct (proj1 (List.Forall_forall _ _) Hks k Hk) as (e & Hin & Hn).
  destruct (proj1 (List.Forall_forall _ _) Hall e Hin) as (d & s & -> & Hs).
  cbn [py_getitem] in Hn. rewrite Hs in Hn. injection Hn as Hn.
  destruct (get_resource_path_loop_finds self s entries Hall) as (d1 & Hin1 & Hn1 & Hloop);
    [now exists d|].
  exists d1. rewrite <- Hn. split; [exact Hin1|]. split; [exact Hn1|].
  unfold get_resource_path. rewrite Hres. exact Hloop.
Qed.

Lemma get_resources_keys_are_resolvable_witness :
  Forall (fun k => exists d, get_resource_path ex_descriptor (rk_name k)
                             = Ok (entry_location d))
         [ex_key_2019; ex_key_2020].
Proof.
  assert (Hall : Forall (fun k => exists d,
                    In (PyDict d)
                       (match py_getitem (datapackage_json ex_descriptor) "resources" with
                        | Ok (PyList l) => l
                        | _ => []
                        end)
                    /\ dict_get d "name" = Some (rk_name k)
                    /\ get_resource_path ex_descriptor (rk_name k) = Ok (entry_location d))
                  [ex_key_2019; ex_key_2020]).
  { apply (get_resources_keys_are_resolvable ex_descriptor PyNone [] _ 3 _ None).
    - reflexivity.
    - repeat constructor; eexists _, _; (split; [reflexivity|]); reflexivity.
    - vm_compute. reflexivity. }
  eapply List.Forall_impl; [|exact Hall].
  intros k (d & _ & _ & Hpath). now exists d.
Defined.

(** ** Download of a resource *)

Section ResourceDownload.
Context `{External}.

(** X15.  [get_resource] for a key whose descriptor is memoized.  The name
    of the key is resolved in that descriptor first: when no entry bears it,
    the [KeyError] of [get_resource_path] is raised and nothing is sent.
    Otherwise one request is sent, to the location of the entry and with the
    token and the timeout of the fetcher, and a response of status 200 gives
    its body as the result. *)
Theorem get_resource_downloads_resolved_location
  (zf : ZenodoFetcher) (res : PudlResourceKey) (k : string) (desc : DatapackageDescriptor) :
  _dataset_to_doi zf !! rk_dataset res = Some k ->
  k <> EmptyString ->
  _descriptor_cache zf !! k = Some desc ->
  (forall e, get_resource_path desc (rk_name res) = Raise e ->
             get_resource res zf = (Raise e, zf))
  /\ (forall location response,
         get_resource_path desc (rk_name res) = Ok location ->
         http_get (http zf) (request_for zf location) = Ok response ->
         status_code response = 200 ->
         get_resource res zf = (Ok (content response), after_request zf location)).
Proof.
  intros Hk Hne Hdesc.
  assert (Hget : get_descriptor (rk_dataset res) zf = (Ok desc, zf)).
  { rewrite get_descriptor_unfold, Hk, Hdesc.
    destruct (String.eqb k EmptyString) eqn:Heq; [|reflexivity].
    now apply String.eqb_eq in Heq. }
  split.
  - intros e Hpath. unfold get_resource, bindM at 1. rewrite Hget.
    unfold bindM at 1, lift. now rewrite Hpath.
  - intros location response Hpath Hhttp Hstatus.
    unfold get_resource, bindM at 1. rewrite Hget.
    unfold bindM at 1, lift. rewrite Hpath.
    unfold bindM at 1.
    now rewrite (_fetch_from_url_200 location zf response Hhttp Hstatus).
Qed.

End ResourceDownload.

Lemma get_resource_downloads_resolved_location_witness :
  let zf := (@get_descriptor ex_external "eia860" (ZenodoFetcher_init false 15)).2 in
  @get_resource ex_external ex_key_2020 zf
  = (Ok (utf8_encode "zip-2020"),
     after_request zf (PyStr "https://zenodo.org/api/files/b/eia860-2020.zip")).
Proof.
  intros zf.
  destruct (@get_resource_downloads_resolved_location ex_external zf ex_key_2020
              "10.5281/zenodo.4127027" ex_descriptor) as [_ Hok].
  - vm_compute. reflexivity.
  - discriminate.
  - vm_compute. reflexivity.
  - apply (Hok (PyStr "https://zenodo.org/api/files/b/eia860-2020.zip")
               (ex_response 200 "zip-2020" ex_not_json)).
    + vm_compute. reflexivity.
    + vm_compute. reflexivity.
    + reflexivity.
Defined.

(** ** The command line *)

(** X16.  The command-line entry point cannot run.  [parse_command_line]
    reads the name [DOI] in its first statement, and the module binds no
    such name: [DOI] is an attribute of the class [ZenodoFetcher].  So,
    with any builtins that have no [DOI], whatever the command line and
    whatever the rest of [main] does, [parse_command_line] and [main] end
    in a [NameError] before any argument is parsed: no datastore is built
    and nothing is downloaded. *)
Theorem main_stops_at_the_name_DOI
  (builtins : list string) (A : Type) (parse_args : result A)
  (main_body : A -> result unit) :
  ~ In "DOI" builtins ->
  (exists msg, parse_command_line builtins A parse_args = Raise (NameError msg))
  /\ (exists msg, main builtins A parse_args main_body = Raise (NameError msg))
  /\ (In "DOI" module_globals -> False).
Proof.
  intros Hnotin.
  assert (Hload : load_global builtins "DOI"
                  = Raise (NameError "name 'DOI' is not defined")).
  { unfold load_global.
    assert (Hb : existsb (String.eqb "DOI") builtins = false).
    { destruct (existsb (String.eqb "DOI") builtins) eqn:Hex; [|reflexivity].
      apply existsb_exists in Hex as (x & Hin & Heq).
      apply String.eqb_eq in Heq. subst x. contradiction. }
    rewrite Hb. reflexivity. }
  split; [|split].
  - unfold parse_command_line. rewrite Hload. now eexists.
  - unfold main, parse_command_line. rewrite Hload.
    assert (Hf : load_global builtins "parse_command_line" = Ok tt).
    { unfold load_global.
      replace (existsb (String.eqb "parse_command_line") module_globals) with true
        by (vm_compute; reflexivity).
      reflexivity. }
    rewrite Hf. now eexists.
  - intros Hin. vm_compute in Hin. intuition discriminate.
Qed.

Lemma main_stops_at_the_name_DOI_witness :
  exists msg,
    main ["len"; "list"; "str"; "print"; "KeyError"; "ValueError"; "RuntimeError"]
         (option string) (Ok (Some "year=2020")) (fun _ => Ok tt)
    = Raise (NameError msg).
Proof.
  apply (main_stops_at_the_name_DOI
           ["len"; "list"; "str"; "print"; "KeyError"; "ValueError"; "RuntimeError"]).
  intros Hin. vm_compute in Hin. intuition discriminate.
Defined.

(** ** The requests of an enumeration *)

Section FetcherBudget.
Context `{External}.

Lemma request_cost_sent (k : string) (zf : ZenodoFetcher) :
  (length (http zf) <= request_cost k zf)%nat.
Proof. unfold request_cost. lia. Qed.

Lemma _fetch_from_url_state (u : pyval) (zf : ZenodoFetcher) :
  (_fetch_from_url u zf).2 = after_request zf u.
Proof.
  unfold _fetch_from_url, bindM, gets, modify, lift, id.
  fold (request_for zf u).
  destruct (http_get (http zf) (request_for zf u)) as [response|e]; [|reflexivity].
  now destruct (status_code response =? 200).
Qed.

Lemma get_descriptor_budget (t : gmap string string) (k : string) (b : nat)
  (dset : string) :
  t !! dset = Some k ->
  triple (within_budget t k b) (get_descriptor dset)
         (fun _ zf => within_budget t k b zf /\ is_Some (_descriptor_cache zf !! k))
         (fun zf => (length (http zf) <= b)%nat).
Proof.
  intros Hk zf [Ht Hcost]. rewrite get_descriptor_unfold, Ht, Hk.
  pose proof (request_cost_sent k zf) as Hsent.
  destruct (String.eqb k EmptyString); [cbn; lia|].
  destruct (_descriptor_cache zf !! k) as [d|] eqn:Hd.
  - split; [now split|]. now rewrite Hd.
  - pose proof (get_descriptor_fetch_sends zf dset k zf (sends_refl zf)) as Hrun.
    assert (Hlen : forall zf', sends 2 zf zf' ->
                               _dataset_to_doi zf' = t
                               /\ (length (http zf') <= b)%nat).
    { intros zf' [(_ & _ & Htable & _) (extra & Hhttp & Hextra & _)].
      split; [congruence|]. rewrite Hhttp, length_app.
      unfold request_cost in Hcost. rewrite Hd in Hcost. lia. }
    destruct (get_descriptor_fetch dset k zf) as [[u|e] zf'].
    + destruct (Hlen zf' Hrun) as [Htable Hb]. unfold descriptor_at.
      destruct (_descriptor_cache zf' !! k) as [d|] eqn:Hd'; [|exact Hb].
      split; [|now exists d].
      split; [exact Htable|]. unfold request_cost. rewrite Hd'. lia.
    + now apply Hlen.
Qed.

Lemma get_resource_budget (t : gmap string string) (k : string) (b : nat)
  (res : PudlResourceKey) :
  t !! rk_dataset res = Some k ->
  triple (within_budget t k b) (get_resource res)
         (fun _ zf => within_budget t k (S b) zf)
         (fun zf => (length (http zf) <= S b)%nat).
Proof.
  intros Hk zf Hzf. unfold get_resource, bindM at 1.
  pose proof (get_descriptor_budget t k b (rk_dataset res) Hk zf Hzf) as Hdesc.
  destruct (get_descriptor (rk_dataset res) zf) as [[d|e] zf1]; [|lia].
  destruct Hdesc as [[Ht Hcost] [d' Hd']].
  unfold bindM at 1, lift.
  pose proof (request_cost_sent k zf1) as Hsent.
  destruct (get_resource_path d (rk_name res)) as [location|e]; [|lia].
  unfold bindM, ret.
  pose proof (_fetch_from_url_state location zf1) as Hstate.
  assert (Hafter : within_budget t k (S b) (after_request zf1 location)).
  { split; [exact Ht|]. unfold request_cost in *. cbn. rewrite Hd' in *.
    rewrite length_app. cbn. lia. }
  destruct (_fetch_from_url location zf1) as [[response|e] zf2]; cbn in Hstate; subst zf2.
  - exact Hafter.
  - destruct Hafter as [_ Hafter]. pose proof (request_cost_sent k (after_request zf1 location)).
    lia.
Qed.

End FetcherBudget.

Section DatastoreBudget.
Context `{External} {C : Type} `{ResourceCache C}.

Lemma on_cache_fetcher {A : Type} (m : M C A) (ds : Datastore C) :
  _zenodo_fetcher (on_cache m ds).2 = _zenodo_fetcher ds.
Proof. unfold on_cache. now destruct (m (cache ds)). Qed.

Lemma on_cache_budget {A : Type} (P : ZenodoFetcher -> Prop) (m : M C A) :
  triple (fun ds : Datastore C => P (_zenodo_fetcher ds)) (on_cache m)
         (fun _ ds => P (_zenodo_fetcher ds)) (fun ds => P (_zenodo_fetcher ds)).
Proof.
  intros ds Hds. pose proof (on_cache_fetcher m ds) as Hzf.
  destruct (on_cache m ds) as [[a|e] ds']; cbn in Hzf; now rewrite Hzf.
Qed.

Lemma get_datapackage_descriptor_load_budget (t : gmap string string) (k : string)
  (b : nat) (dset : string) :
  t !! dset = Some k ->
  triple (fun ds : Datastore C => within_budget t k b (_zenodo_fetcher ds))
         (get_datapackage_descriptor_load dset k)
         (fun _ ds => within_budget t k b (_zenodo_fetcher ds))
         (fun ds => (requests_sent ds <= b)%nat).
Proof.
  intros Hk.
  assert (Hspent : forall ds : Datastore C,
             within_budget t k b (_zenodo_fetcher ds) -> (requests_sent ds <= b)%nat).
  { intros ds [_ Hcost]. unfold requests_sent.
    pose proof (request_cost_sent k (_zenodo_fetcher ds)). lia. }
  unfold get_datapackage_descriptor_load.
  eapply triple_bind
    with (R := fun _ (ds : Datastore C) => within_budget t k b (_zenodo_fetcher ds));
    [now apply triple_gets|]. intros c.
  destruct (cache_contains _ c).
  - eapply triple_bind
      with (R := fun _ (ds : Datastore C) => within_budget t k b (_zenodo_fetcher ds)).
    { eapply triple_weaken; [apply (on_cache_budget (within_budget t k b)) | | | ];
        cbn beta; auto. }
    intros blob.
    eapply triple_bind; [apply (triple_lift_to _ _ _ Hspent)|]. intros j.
    eapply triple_bind; [apply (triple_lift_to _ _ _ Hspent)|]. intros desc.
    apply triple_modify. intros ds Hds. exact Hds.
  - eapply triple_bind
      with (R := fun _ (ds : Datastore C) => within_budget t k b (_zenodo_fetcher ds)).
    { intros ds Hds. unfold on_fetcher.
      pose proof (get_descriptor_budget t k b dset Hk _ Hds) as Hrun.
      destruct (get_descriptor dset (_zenodo_fetcher ds)) as [[d|e] zf]; [|exact Hrun].
      exact (proj1 Hrun). }
    intros desc.
    eapply triple_bind
      with (R := fun _ (ds : Datastore C) => within_budget t k b (_zenodo_fetcher ds)).
    { apply triple_modify. intros ds Hds. exact Hds. }
    intros _.
    eapply triple_weaken; [apply (on_cache_budget (within_budget t k b)) | | | ];
      cbn beta; auto.
Qed.

Lemma get_datapackage_descriptor_budget (t : gmap string string) (k : string)
  (b : nat) (dset : string) :
  t !! dset = Some k ->
  triple (fun ds : Datastore C => within_budget t k b (_zenodo_fetcher ds))
         (get_datapackage_descriptor dset)
         (fun _ ds => within_budget t k b (_zenodo_fetcher ds))
         (fun ds => (requests_sent ds <= b)%nat).
Proof.
  intros Hk.
  assert (Hspent : forall ds : Datastore C,
             within_budget t k b (_zenodo_fetcher ds) -> (requests_sent ds <= b)%nat).
  { intros ds [_ Hcost]. unfold requests_sent.
    pose proof (request_cost_sent k (_zenodo_fetcher ds)). lia. }
  unfold get_datapackage_descriptor.
  eapply triple_bind
    with (R := fun zf (ds : Datastore C) =>
                 within_budget t k b (_zenodo_fetcher ds) /\ _dataset_to_doi zf = t).
  { apply triple_gets. intros ds Hds. split; [exact Hds | apply Hds]. }
  intros zf.
  eapply triple_bind
    with (R := fun k' (ds : Datastore C) =>
                 within_budget t k b (_zenodo_fetcher ds) /\ k' = k).
  { apply triple_lift.
    - intros k' ds Hdoi [Hds Hzf]. split; [exact Hds|].
      unfold get_doi in Hdoi. rewrite Hzf, Hk in Hdoi. congruence.
    - intros ds [Hds _]. now apply Hspent. }
  intros k'.
  eapply triple_bind
    with (R := fun _ (ds : Datastore C) =>
                 within_budget t k b (_zenodo_fetcher ds) /\ k' = k).
  { now apply triple_gets. }
  intros known.
  eapply triple_bind
    with (R := fun _ (ds : Datastore C) => within_budget t k b (_zenodo_fetcher ds)).
  { destruct (known !! k').
    - apply triple_ret. now intros ds [Hds _].
    - intros ds [Hds ->]. now apply get_datapackage_descriptor_load_budget. }
  intros _.
  eapply triple_bind
    with (R := fun _ (ds : Datastore C) => within_budget t k b (_zenodo_fetcher ds));
    [now apply triple_gets|].
  intros known'. apply triple_lift; auto.
Qed.

Lemma get_resources_body_budget (t : gmap string string) (k : string) (b : nat)
  (res : PudlResourceKey) :
  t !! rk_dataset res = Some k ->
  triple (fun ds : Datastore C => within_budget t k b (_zenodo_fetcher ds))
         (get_resources_body res)
         (fun _ ds => within_budget t k (S b) (_zenodo_fetcher ds))
         (fun ds => (requests_sent ds <= S b)%nat).
Proof.
  intros Hk.
  assert (Hup : forall zf, within_budget t k b zf -> within_budget t k (S b) zf).
  { intros zf [Ht Hcost]. split; [exact Ht | lia]. }
  assert (Hspent : forall ds : Datastore C,
             within_budget t k (S b) (_zenodo_fetcher ds) ->
             (requests_sent ds <= S b)%nat).
  { intros ds [_ Hcost]. unfold requests_sent.
    pose proof (request_cost_sent k (_zenodo_fetcher ds)). lia. }
  unfold get_resources_body.
  eapply triple_bind
    with (R := fun _ (ds : Datastore C) => within_budget t k b (_zenodo_fetcher ds));
    [now apply triple_gets|]. intros c.
  destruct (cache_contains res c).
  - eapply triple_weaken; [apply (on_cache_budget (within_budget t k b)) | | | ];
      cbn beta; auto.
  - eapply triple_bind
      with (R := fun _ (ds : Datastore C) => within_budget t k (S b) (_zenodo_fetcher ds)).
    { intros ds Hds. unfold on_fetcher.
      pose proof (get_resource_budget t k b res Hk _ Hds) as Hrun.
      destruct (get_resource res (_zenodo_fetcher ds)) as [[d|e] zf]; exact Hrun. }
    intros contents.
    eapply triple_bind
      with (R := fun _ (ds : Datastore C) => within_budget t k (S b) (_zenodo_fetcher ds)).
    { eapply triple_weaken; [apply (on_cache_budget (within_budget t k (S b))) | | | ];
        cbn beta; auto. }
    intros _. now apply triple_ret.
Qed.

Lemma Datastore_get_resources_next_budget (t : gmap string string) (k : string)
  (b : nat) (dset : string) (filters : list (string * pyval)) (g : rgen)
  (ds : Datastore C) :
  t !! dset = Some k ->
  datastore_keyed t ds -> rgen_keyed t dset g ->
  within_budget t k b (_zenodo_fetcher ds) ->
  let '(o, g', ds') := Datastore_get_resources_next dset filters g ds in
  match o with
  | Yielded _ => within_budget t k (S b) (_zenodo_fetcher ds')
  | StopIteration => (requests_sent ds' <= b)%nat
  | Raised _ => (requests_sent ds' <= S b)%nat
  end.
Proof.
  intros Hk Hkeyed Hg Hb.
  assert (Hspent : forall ds0 : Datastore C,
             within_budget t k b (_zenodo_fetcher ds0) -> (requests_sent ds0 <= b)%nat).
  { intros ds0 [_ Hcost]. unfold requests_sent.
    pose proof (request_cost_sent k (_zenodo_fetcher ds0)). lia. }
  assert (Hresume : forall desc dg ds0,
             t !! dataset desc = Some k ->
             within_budget t k b (_zenodo_fetcher ds0) ->
             let '(o, g', ds') := Datastore_get_resources_resume filters desc dg ds0 in
             match o with
             | Yielded _ => within_budget t k (S b) (_zenodo_fetcher ds')
             | StopIteration => (requests_sent ds' <= b)%nat
             | Raised _ => (requests_sent ds' <= S b)%nat
             end).
  { intros desc dg ds0 Hd Hds0. unfold Datastore_get_resources_resume.
    destruct (get_resources_next desc (bind_name filters) (bind_filters filters) dg)
      as [[key| |e] dg'] eqn:Hnext.
    - apply get_resources_next_yields in Hnext as [Hk1 Hk2].
      assert (Hkey : t !! rk_dataset key = Some k) by now rewrite Hk1.
      pose proof (get_resources_body_budget t k b key Hkey ds0 Hds0) as Hbody.
      now destruct (get_resources_body key ds0) as [[bs|e] ds'].
    - now apply Hspent.
    - pose proof (Hspent ds0 Hds0). lia. }
  destruct g as [|desc dg|]; cbn [Datastore_get_resources_next].
  - pose proof (get_datapackage_descriptor_keyed t dset ds Hkeyed) as Hdesc.
    pose proof (get_datapackage_descriptor_budget t k b dset Hk ds Hb) as Hcost.
    destruct (get_datapackage_descriptor dset ds) as [[desc|e] ds0]; [|lia].
    destruct Hdesc as (_ & Hd1 & Hd2). apply Hresume; [congruence | exact Hcost].
  - destruct Hg as [Hd1 Hd2]. apply Hresume; [congruence | exact Hb].
  - now apply Hspent.
Qed.

Lemma Datastore_get_resources_take_budget (t : gmap string string) (k dset : string)
  (filters : list (string * pyval)) (n : nat) :
  t !! dset = Some k ->
  forall (ds : Datastore C) (b : nat) (g : rgen),
    datastore_keyed t ds -> rgen_keyed t dset g ->
    within_budget t k b (_zenodo_fetcher ds) ->
    let '(ys, fin, ds') := Datastore_get_resources_take dset filters n g ds in
    (requests_sent ds'
     <= b + length ys + match fin with Some (Some _) => 1 | _ => 0 end)%nat.
Proof.
  intros Hk.
  induction n as [|n IH]; intros ds b g Hkeyed Hg Hb; cbn [Datastore_get_resources_take].
  - destruct Hb as [_ Hb]. unfold requests_sent.
    pose proof (request_cost_sent k (_zenodo_fetcher ds)). cbn [length]. lia.
  - pose proof (Datastore_get_resources_next_keyed t dset filters g ds Hkeyed Hg) as Hnext.
    pose proof (Datastore_get_resources_next_budget t k b dset filters g ds Hk Hkeyed Hg Hb)
      as Hcost.
    destruct (Datastore_get_resources_next dset filters g ds) as [[[[key bs]| |e] g'] ds'].
    + destruct Hnext as (Hkeyed' & Hg' & _).
      specialize (IH ds' (S b) g' Hkeyed' Hg' Hcost).
      destruct (Datastore_get_resources_take dset filters n g' ds') as [[ys fin] ds''].
      cbn [length]. lia.
    + cbn [length]. lia.
    + cbn [length]. lia.
Qed.

(** X18.  What an enumeration costs.  A run of [Datastore.get_resources]
    for one dataset sends at most two requests for the descriptor of the
    release -- none when the fetcher has it in its memo -- and at most one
    for each resource yielded, with one more when the run ends by an
    exception; this holds however many resources come from the cache, and
    although a descriptor read from the cache is fetched again by the first
    resource that is not. *)
Theorem get_resources_request_budget
  (dset k : string) (filters : list (string * pyval)) (n : nat) (ds : Datastore C) :
  datastore_keyed (_dataset_to_doi (_zenodo_fetcher ds)) ds ->
  _dataset_to_doi (_zenodo_fetcher ds) !! dset = Some k ->
  let '(ys, fin, ds') := Datastore_get_resources_take dset filters n GStart ds in
  (requests_sent ds'
   <= request_cost k (_zenodo_fetcher ds) + length ys
      + match fin with Some (Some _) => 1 | _ => 0 end)%nat
  /\ (request_cost k (_zenodo_fetcher ds) <= requests_sent ds + 2)%nat.
Proof.
  intros Hkeyed Hk.
  pose proof (Datastore_get_resources_take_budget
                (_dataset_to_doi (_zenodo_fetcher ds)) k dset filters n Hk ds
                (request_cost k (_zenodo_fetcher ds)) GStart Hkeyed I
                (conj eq_refl (le_n _))) as Hrun.
  destruct (Datastore_get_resources_take dset filters n GStart ds) as [[ys fin] ds'].
  split; [exact Hrun|].
  unfold request_cost, requests_sent.
  destruct (_descriptor_cache (_zenodo_fetcher ds) !! k); lia.
Qed.

End DatastoreBudget.

Lemma get_resources_request_budget_witness :
  datastore_keyed (_dataset_to_doi (_zenodo_fetcher ex_store)) ex_store
  /\ (requests_sent
        (@Datastore_get_resources_take ex_external _ _ "eia860" [] 3 GStart ex_store).2
      <= 4)%nat.
Proof.
  assert (Hkeyed : datastore_keyed (_dataset_to_doi (_zenodo_fetcher ex_store)) ex_store).
  { split; [split; [reflexivity|]|]; apply map_Forall_empty. }
  assert (Hk : _dataset_to_doi (_zenodo_fetcher ex_store) !! "eia860"
               = Some "10.5281/zenodo.4127027").
  { vm_compute. reflexivity. }
  split; [exact Hkeyed|].
  pose proof (@get_resources_request_budget ex_external _ _ "eia860"
                "10.5281/zenodo.4127027" [] 3 ex_store Hkeyed Hk) as Hrun.
  vm_compute in Hrun. vm_compute. exact (proj1 Hrun).
Defined.

(** ** The configuration of a new fetcher *)

(** X19.  A new fetcher is configured consistently, for either backend and
    any time-out.  It has sent nothing and memoized nothing; it knows the
    same datasets as a fetcher of the other backend; and for each dataset it
    knows, [get_doi] gives a DOI of the form [<prefix>zenodo.<id>] that the
    other backend does not use for that dataset and that [_doi_to_url] turns
    into [<api root>/deposit/depositions/<id>] under the API root of its own
    backend -- so that [get_descriptor] cannot fail with [No doi found] or
    [Invalid doi] for a dataset that [get_known_datasets] lists. *)
Theorem new_fetcher_is_configured (sandbox : bool) (seconds : Z) :
  let zf := ZenodoFetcher_init sandbox seconds in
  http zf = [] /\ _descriptor_cache zf = ∅
  /\ get_known_datasets zf = get_known_datasets (ZenodoFetcher_init (negb sandbox) seconds)
  /\ forall dset,
       In dset (get_known_datasets zf) ->
       exists p id,
         get_doi zf dset = Ok (p +:+ "zenodo." +:+ id)
         /\ get_doi (ZenodoFetcher_init (negb sandbox) seconds) dset
            <> Ok (p +:+ "zenodo." +:+ id)
         /\ _doi_to_url zf (p +:+ "zenodo." +:+ id)
            = Ok (_api_root zf +:+ "/deposit/depositions/" +:+ id).
Proof.
  intros zf. split; [reflexivity|]. split; [reflexivity|].
  split; [now destruct sandbox; vm_compute|].
  intros dset Hin. subst zf.
  assert (Hknown : In dset ["censusdp1tract"; "eia860"; "eia860m"; "eia861"; "eia923";
                            "epacems"; "ferc1"; "ferc714"]).
  { destruct sandbox; vm_compute in Hin; exact Hin. }
  clear Hin. destruct sandbox.
  - exists "10.5072/".
    repeat (destruct Hknown as [<-|Hknown];
            [eexists; split; [vm_compute; reflexivity|];
             split; [vm_compute; discriminate | vm_compute; reflexivity]|]).
    destruct Hknown.
  - exists "10.5281/".
    repeat (destruct Hknown as [<-|Hknown];
            [eexists; split; [vm_compute; reflexivity|];
             split; [vm_compute; discriminate | vm_compute; reflexivity]|]).
    destruct Hknown.
Qed.

Lemma new_fetcher_is_configured_witness :
  exists p id,
    get_doi (ZenodoFetcher_init false 15) "eia860" = Ok (p +:+ "zenodo." +:+ id)
    /\ get_doi (ZenodoFetcher_init (negb false) 15) "eia860" <> Ok (p +:+ "zenodo." +:+ id)
    /\ _doi_to_url (ZenodoFetcher_init false 15) (p +:+ "zenodo." +:+ id)
       = Ok (_api_root (ZenodoFetcher_init false 15) +:+ "/deposit/depositions/" +:+ id).
Proof.
  destruct (new_fetcher_is_configured false 15) as (_ & _ & _ & Hall).
  apply (Hall "eia860"). vm_compute. right. left. reflexivity.
Defined.
